(** * video-frame-extractor: a shallow embedding of the validation, sampling
      and orchestration code, and the properties of its specification.

    The Python sources embedded here are
      - [frame_extraction_strategy.py]  (validators, the three strategies),
      - [utils.py]                      (strategy lookup, output directory),
      - [video_frame_extractor.py]      (the orchestrator and the metadata reader),
      - [cli.py]                        (the command-line front end),
      - [main.py]                       (the two entry points for scripts).

    Conventions of the embedding.
      - A Python [float] is an IEEE-754 binary64 value, [spec_float] with
        precision 53 and maximal exponent 1024; NaN and the infinities are
        values like any other.
      - A Python [int] is a [Z]; comparing an int with a float is exact, as
        in CPython; converting an int to a float rounds to nearest-even and
        raises [OverflowError] beyond the float range.
      - A raised exception is a value [Err (Exn class site)]: its class and
        the place that raised it.  The classes include those outside the
        [Exception] hierarchy (SystemExit, KeyboardInterrupt, GeneratorExit),
        which the text handed to [eval] can raise and [except Exception]
        does not catch; signals delivered from outside the program are not
        part of the model.
      - Lengths are bounded as in CPython on a 64-bit platform: [len] of a
        range of more than [sys.maxsize] elements raises OverflowError.
        Memory is not bounded: no MemoryError is raised.
      - The interpreter's own parsers and printers ([float(str)], [int(str)],
        [str(float)], [eval], [json.loads], [Path.suffix]) are fields of the
        class [Builtins]; the file system, the two external tools and the
        random generator are fields of the class [World].  Every definition
        and theorem is parametric in both.
      - Calls to [logger] and [print] have no effect on results and are
        left out, and with them the [verbose] flag.
      - A front end makes several runs in one call; what the world answers
        to each is given by the class [History], from the events caused
        before it. *)

From Stdlib Require Import ZArith Ascii String DecimalString.
From Stdlib Require Import Floats.SpecFloat.
From Stdlib Require DecimalPos DecimalZ.
From stdpp Require Import gmap strings list sorting.

Set Default Proof Using "Type".
#[local] Set Warnings "-register-all".

(* ================================================================== *)
(** * Part I.  Definitions                                             *)
(* ================================================================== *)

(** ** Exceptions and results *)

Inductive exc_class :=
| ValueError | TypeError | OverflowError | ZeroDivisionError
| IndexError | KeyError | AttributeError
| FileNotFoundError | NotADirectoryError | OSError
| CalledProcessError | SyntaxError
| SystemExit | KeyboardInterrupt | GeneratorExit.

(** [issubclass(c, Exception)]: the classes that [except Exception]
    catches. *)
Definition is_Exception (c : exc_class) : bool :=
  match c with
  | SystemExit | KeyboardInterrupt | GeneratorExit => false
  | _ => true
  end.

(** The [raise] statements of the sources, and [AtBuiltin] for an exception
    raised inside the interpreter or a library. *)
Inductive raise_site :=
| AtBuiltin
| AtAvgFpsMissing        (* "Metadata explicitly requires 'avg_fps' key." *)
| AtAvgFpsInvalid        (* "Invalid 'avg_fps' value in metadata: ..." *)
| AtAvgFpsNotPositive    (* "Invalid 'avg_fps' value: .... Must be positive." *)
| AtDurationMissing      (* "Metadata explicitly requires valid 'duration' key." *)
| AtDurationInvalid      (* "Invalid video duration from metadata: ...s." *)
| AtStartOutside         (* "Start time (...) must be within video duration ..." *)
| AtEndOutside           (* "End time (...) must be greater than start time ..." *)
| AtFpsNone              (* "Provided 'fps' parameter is None ..." *)
| AtFpsInvalid           (* "Invalid 'fps' value: .... Must be a positive integer." *)
| AtFpsExceedsSource     (* "Requested FPS (...) exceeds source video FPS (...)." *)
| AtNoStrategy           (* "No strategy found for name: ..." *)
| AtOutputNotDir         (* "Output path exists but is not a directory: ..." *)
| AtOutputCreate         (* "Failed to create output directory: ..." *)
| AtOutputMissing        (* "Output directory '...' does not exist and ..." *)
| AtVideoMissing         (* "Video path '...' does not exist." *)
| AtUnsupportedFormat    (* "Unsupported video format: ..." *)
| AtFpsNotPositive       (* "FPS must be positive; received: ..." *)
| AtStartNegative        (* "Start time cannot be negative; received: ..." *)
| AtEndNegative          (* "End time cannot be negative; received: ..." *)
| AtEndNotAfterStart     (* "End time (...) must be greater than start time (...)." *)
| AtStrategyType         (* "Strategy must be a FrameExtractionStrategy instance, ..." *)
| AtNoMetadata.          (* "Could not retrieve video metadata." *)

Inductive exn := Exn (c : exc_class) (s : raise_site).

Definition exn_class (e : exn) : exc_class := let 'Exn c _ := e in c.

Inductive result (A : Type) :=
| Ok (a : A)
| Err (e : exn).
Arguments Ok {A} a.
Arguments Err {A} e.

#[global] Instance result_ret : MRet result := fun A a => Ok a.
#[global] Instance result_bind : MBind result := fun A B k m =>
  match m with
  | Ok a => k a
  | Err e => Err e
  end.

Definition raise {A} (c : exc_class) (s : raise_site) : result A := Err (Exn c s).

Definition raises {A} (r : result A) (c : exc_class) : Prop :=
  ∃ s, r = Err (Exn c s).

(** ** Numbers *)

Definition float := spec_float.

Definition fmul : float → float → float := SFmul 53 1024.
Definition fzero : float := S754_zero false.

(** [float(z)] for an int [z]. *)
Definition float_of_int (z : Z) : result float :=
  match binary_normalize 53 1024 z 0 false with
  | S754_infinity _ => raise OverflowError AtBuiltin
  | f => Ok f
  end.

(** [int(f)] for a float [f]: truncation towards zero. *)
Definition int_of_float (f : float) : result Z :=
  match f with
  | S754_nan => raise ValueError AtBuiltin
  | S754_infinity _ => raise OverflowError AtBuiltin
  | S754_zero _ => Ok 0%Z
  | S754_finite s m e =>
      let a := match e with
               | Zneg p => (Zpos m / 2 ^ Zpos p)%Z
               | _ => (Zpos m * 2 ^ e)%Z
               end in
      Ok (if s then (- a)%Z else a)
  end.

(** The exact order between an int and a float. *)
Definition int_float_compare (z : Z) (f : float) : option comparison :=
  match f with
  | S754_nan => None
  | S754_infinity s => Some (if s then Gt else Lt)
  | S754_zero _ => Some (z ?= 0)%Z
  | S754_finite s m e =>
      let v := if s then Zneg m else Zpos m in
      Some match e with
           | Zneg p => (z * 2 ^ Zpos p ?= v)%Z
           | _ => (z ?= v * 2 ^ e)%Z
           end
  end.

(** A number as the time arguments carry it: an int or a float. *)
Inductive pynum :=
| NInt (z : Z)
| NFloat (f : float).

Definition num_compare (a b : pynum) : option comparison :=
  match a, b with
  | NInt x, NInt y => Some (x ?= y)%Z
  | NInt x, NFloat g => int_float_compare x g
  | NFloat f, NInt y => CompOpp <$> int_float_compare y f
  | NFloat f, NFloat g => SFcompare f g
  end.

Definition num_lt (a b : pynum) : bool :=
  match num_compare a b with Some Lt => true | _ => false end.
Definition num_le (a b : pynum) : bool :=
  match num_compare a b with Some Lt | Some Eq => true | _ => false end.
Definition num_gt (a b : pynum) : bool :=
  match num_compare a b with Some Gt => true | _ => false end.
Definition num_ge (a b : pynum) : bool :=
  match num_compare a b with Some Gt | Some Eq => true | _ => false end.

Definition is_nan (a : pynum) : bool :=
  match a with
  | NFloat S754_nan => true
  | _ => false
  end.

(** [a * f] for a float [f]. *)
Definition num_mul_float (a : pynum) (f : float) : result float :=
  match a with
  | NInt z => x ← float_of_int z; Ok (fmul x f)
  | NFloat x => Ok (fmul x f)
  end.

(** ** Values *)

(** The values that reach the program: what [json.loads] builds, what the
    metadata dictionary holds and what a caller may pass for [fps]. *)
Inductive pyval :=
| VNone
| VBool (b : bool)
| VInt (z : Z)
| VFloat (f : float)
| VStr (s : string)
| VList (l : list pyval)
| VDict (d : gmap string pyval).

Definition Path := string.

Class Builtins := {
  float_of_str : string → option float;   (* float(s), None: ValueError *)
  int_of_str : string → option Z;         (* int(s), None: ValueError *)
  str_of_float : float → string;          (* str(f) *)
  str_of_container : pyval → string;      (* str(v) for a list or a dict *)
  py_eval : string → result pyval;        (* eval(s) *)
  json_loads : string → result pyval;     (* json.loads(s) *)
  path_suffix : Path → string;            (* Path.suffix *)
}.

(** [isinstance(v, int)], with the integer [v] stands for. *)
Definition as_int (v : pyval) : option Z :=
  match v with
  | VInt z => Some z
  | VBool b => Some (if b then 1 else 0)%Z
  | _ => None
  end.

Definition str_of_int (z : Z) : string := NilZero.string_of_int (Z.to_int z).

Section Conversions.
Context `{Builtins}.

(** [float(v)] *)
Definition py_float (v : pyval) : result float :=
  match v with
  | VFloat f => Ok f
  | VInt z => float_of_int z
  | VBool b => float_of_int (if b then 1 else 0)
  | VStr s =>
      match float_of_str s with
      | Some f => Ok f
      | None => raise ValueError AtBuiltin
      end
  | _ => raise TypeError AtBuiltin
  end.

(** [int(v)] *)
Definition py_int (v : pyval) : result Z :=
  match v with
  | VInt z => Ok z
  | VBool b => Ok (if b then 1 else 0)%Z
  | VFloat f => int_of_float f
  | VStr s =>
      match int_of_str s with
      | Some z => Ok z
      | None => raise ValueError AtBuiltin
      end
  | _ => raise TypeError AtBuiltin
  end.

(** [str(v)], as an f-string formats [v]. *)
Definition py_str (v : pyval) : string :=
  match v with
  | VNone => "None"
  | VBool b => if b then "True" else "False"
  | VInt z => str_of_int z
  | VFloat f => str_of_float f
  | VStr s => s
  | _ => str_of_container v
  end.

Definition num_str (a : pynum) : string :=
  match a with
  | NInt z => str_of_int z
  | NFloat f => str_of_float f
  end.
End Conversions.

(** ** Effects: the external world and the trace of what was done to it *)

Inductive event :=
| EvMkdir (p : Path)               (* Path.mkdir(parents=True, exist_ok=True) *)
| EvProbe (cmd : list string)      (* subprocess.check_output(cmd) *)
| EvFfmpeg (cmd : list string).    (* subprocess.run(cmd, ...) *)

Class World := {
  fs_exists : Path → bool;                       (* os.path.exists *)
  path_exists : Path → option bool;              (* Path.exists; None: it raises OSError *)
  path_is_dir : Path → option bool;              (* Path.is_dir; None: it raises OSError *)
  fs_mkdir : Path → bool;                        (* false: mkdir raises OSError *)
  check_output : list string → result string;    (* the probe's decoded output *)
  subprocess_run : list string → result unit;    (* running the extraction tool *)
  random_draw : nat → nat;                       (* the generator's i-th raw draw *)
}.

(** A computation returns a result or raises, and leaves the events it
    caused, oldest first. *)
Definition IO (A : Type) : Type := result A * list event.

Definition pure {A} (a : A) : IO A := (Ok a, []).

#[global] Instance IO_ret : MRet IO := @pure.
#[global] Instance IO_bind : MBind IO := fun A B k m =>
  match m.1 with
  | Ok a => let r := k a in (r.1, m.2 ++ r.2)
  | Err e => (Err e, m.2)
  end.

Definition lift {A} (r : result A) : IO A := (r, []).
Definition emit (e : event) : IO unit := (Ok (), [e]).
Definition raiseIO {A} (c : exc_class) (s : raise_site) : IO A := lift (raise c s).

(** [Path.exists()], [Path.is_dir()] and [Path.is_file()] answer, or raise
    the OSError of a failed [stat] that is not one of the errors they read
    as "not there" (a name that is too long, a directory that may not be
    searched). *)
Definition stat_query (answer : option bool) : IO bool :=
  match answer with
  | Some b => pure b
  | None => raiseIO OSError AtBuiltin
  end.

(** [try: return body  except Exception: return None]: what the handler
    makes of the body's result.  An [Exception] becomes None, an exception
    of another class passes through. *)
Definition caught {A} (r : result A) : result (option A) :=
  match r with
  | Ok a => Ok (Some a)
  | Err e => if is_Exception (exn_class e) then Ok None else Err e
  end.

Definition try_or_None {A} (body : IO A) : IO (option A) :=
  (caught body.1, body.2).

Definition is_command (e : event) : bool :=
  match e with
  | EvProbe _ | EvFfmpeg _ => true
  | EvMkdir _ => false
  end.

(** ** Strings *)

(** [str.lower] on one character; the characters are the code points
    below 256, whose upper-case letters are A-Z and the Latin-1 capitals. *)
Definition lower_char (c : ascii) : ascii :=
  let n := N_of_ascii c in
  if ((65 <=? n) && (n <=? 90) || (192 <=? n) && (n <=? 214)
      || (216 <=? n) && (n <=? 222))%N
  then ascii_of_N (n + 32)
  else c.

Fixpoint lower (s : string) : string :=
  match s with
  | EmptyString => EmptyString
  | String c s' => String (lower_char c) (lower s')
  end.

Fixpoint ends_with_slash (s : string) : bool :=
  match s with
  | EmptyString => false
  | String c EmptyString => Ascii.eqb c "/"
  | String _ s' => ends_with_slash s'
  end.

(** [os.path.join(a, b)] for a relative [b]. *)
Definition os_path_join (a b : string) : string :=
  if String.eqb a "" || ends_with_slash a then a +:+ b else a +:+ "/" +:+ b.

(** [sep.join(parts)] *)
Definition str_join (sep : string) (parts : list string) : string :=
  String.concat sep parts.

(** ** The random module *)

(** [range(a, b)] *)
Definition py_range (a b : Z) : list Z := seqZ a (b - a).

(** The selection loop of [random.sample]: the i-th pick takes position
    [randbelow(n - i)] of the pool, moves the pool's last live element into
    that position, and shortens the pool by one.  (For a large population
    CPython draws positions into a set instead and redraws on a repeat;
    each outcome of that loop, a sequence of distinct positions, is an
    outcome of this one for some generator.) *)
Fixpoint sample_loop `{World} (i : nat) (pool : list Z) (k : nat) : list Z :=
  match k with
  | O => []
  | S k' =>
      let n := length pool in
      let j := random_draw i `mod` n in
      let picked := pool !!! j in
      let pool' := take (n - 1) (<[j := pool !!! (n - 1)]> pool) in
      picked :: sample_loop (S i) pool' k'
  end.

(** [sys.maxsize], on a 64-bit platform. *)
Definition sys_maxsize : Z := 2 ^ 63 - 1.

(** [random.sample(population, k)]: it takes [len(population)] first, which
    raises OverflowError for a range of more than [sys.maxsize] elements. *)
Definition random_sample `{World} (population : list Z) (k : Z) : result (list Z) :=
  if (sys_maxsize <? Z.of_nat (length population))%Z
  then raise OverflowError AtBuiltin
  else if (k <? 0)%Z || (Z.of_nat (length population) <? k)%Z
  then raise ValueError AtBuiltin
  else Ok (sample_loop 0 population (Z.to_nat k)).

(** [sorted(l)] *)
Definition sorted (l : list Z) : list Z := merge_sort Z.le l.

(** ** frame_extraction_strategy.py *)

Inductive strategy_class := ClsAll | ClsUniform | ClsFixedRandom.

Definition STRATEGY_NAME (cls : strategy_class) : string :=
  match cls with
  | ClsAll => "all"
  | ClsUniform => "uniform"
  | ClsFixedRandom => "fixed_random"
  end.

(** The integer a validated [fps] stands for. *)
Definition int_value (v : pyval) : Z := default 0%Z (as_int v).

(** The base class: the validators and the call of the extraction tool. *)
Module FrameExtractionStrategy.
Section Methods.
Context `{Builtins} `{World}.

(** The command list built by [common_frame_extraction_logic]. *)
Definition ffmpeg_command (video_path : Path) (filter_args : list string)
    (output_dir : Path) (start_time end_time : pynum) (reset_indices : bool)
    : list string :=
  ["ffmpeg"; "-i"; video_path; "-ss"; num_str start_time; "-to"; num_str end_time]
    ++ filter_args
    ++ (if reset_indices then [] else ["-frame_pts"; "true"])
    ++ [os_path_join output_dir "frame_%06d.png"].

Definition _run_ffmpeg (command : list string) : IO unit :=
  emit (EvFfmpeg command);; lift (subprocess_run command).

Definition common_frame_extraction_logic (video_path : Path)
    (filter_args : list string) (output_dir : Path)
    (start_time end_time : pynum) (reset_indices : bool) : IO unit :=
  _run_ffmpeg
    (ffmpeg_command video_path filter_args output_dir start_time end_time reset_indices).

Definition _validate_avg_fps (metadata : option (gmap string pyval)) : result float :=
  match metadata with
  | None => raise ValueError AtAvgFpsMissing
  | Some md =>
      match md !! "avg_fps" with
      | None => raise ValueError AtAvgFpsMissing
      | Some v =>
          avg_fps ← match py_float v with
                    | Ok f => Ok f
                    | Err (Exn TypeError _) | Err (Exn ValueError _) =>
                        raise ValueError AtAvgFpsInvalid
                    | Err e => Err e
                    end;
          if num_le (NFloat avg_fps) (NInt 0) then raise ValueError AtAvgFpsNotPositive
          else Ok avg_fps
      end
  end.

Definition _validate_time_range (metadata : option (gmap string pyval))
    (start_time end_time : option pynum) : result (pynum * pynum) :=
  match metadata with
  | None => raise ValueError AtDurationMissing
  | Some md =>
      match md !! "duration" with
      | None => raise ValueError AtDurationMissing
      | Some v =>
          d ← py_float v;
          let duration := NFloat d in
          if num_le duration (NInt 0) then raise ValueError AtDurationInvalid
          else
            let actual_start_time := default (NInt 0) start_time in
            let actual_end_time := default duration end_time in
            if num_lt actual_start_time (NInt 0) || num_ge actual_start_time duration
            then raise ValueError AtStartOutside
            else if num_le actual_end_time actual_start_time
                    || num_gt actual_end_time duration
            then raise ValueError AtEndOutside
            else Ok (actual_start_time, actual_end_time)
      end
  end.

Definition _validate_fps (fps : pyval) : result pyval :=
  match fps with
  | VNone => raise ValueError AtFpsNone
  | _ =>
      match as_int fps with
      | None => raise ValueError AtFpsInvalid
      | Some z =>
          if (z <=? 0)%Z then raise ValueError AtFpsInvalid else Ok fps
      end
  end.
End Methods.
End FrameExtractionStrategy.

Module AllFramesStrategy.
Import FrameExtractionStrategy.
Section Methods.
Context `{Builtins} `{World}.

Definition extract_frames (video_path output_dir : Path) (fps : pyval)
    (start_time end_time : option pynum) (metadata : option (gmap string pyval))
    (reset_indices : bool) : IO unit :=
  '(actual_start_time, actual_end_time) ←
     lift (_validate_time_range metadata start_time end_time);
  common_frame_extraction_logic video_path ["-fps_mode"; "passthrough"] output_dir
    actual_start_time actual_end_time reset_indices.
End Methods.
End AllFramesStrategy.

Module UniformFramesStrategy.
Import FrameExtractionStrategy.
Section Methods.
Context `{Builtins} `{World}.

Definition extract_frames (video_path output_dir : Path) (fps : pyval)
    (start_time end_time : option pynum) (metadata : option (gmap string pyval))
    (reset_indices : bool) : IO unit :=
  fps ← lift (_validate_fps fps);
  avg_fps ← lift (_validate_avg_fps metadata);
  if num_gt (NInt (int_value fps)) (NFloat avg_fps)
  then raiseIO ValueError AtFpsExceedsSource
  else
    '(actual_start_time, actual_end_time) ←
       lift (_validate_time_range metadata start_time end_time);
    common_frame_extraction_logic video_path ["-vf"; "fps=" +:+ py_str fps] output_dir
      actual_start_time actual_end_time reset_indices.
End Methods.
End UniformFramesStrategy.

Module FixedRandomFramesStrategy.
Import FrameExtractionStrategy.
Section Methods.
Context `{Builtins} `{World}.

(** [int(t * avg_fps)], the frame index of a time. *)
Definition frame_index (t : pynum) (avg_fps : float) : result Z :=
  num_mul_float t avg_fps ≫= int_of_float.

Definition _select_random_frames (fps : Z) (avg_fps : float)
    (start_time end_time : pynum) : result (list Z) :=
  start_frame ← frame_index start_time avg_fps;
  end_frame ← frame_index end_time avg_fps;
  let frame_range := (end_frame - start_frame)%Z in
  if (frame_range <=? 0)%Z then Ok []
  else
    let num_frames_to_extract := Z.min fps frame_range in
    samples ← random_sample (py_range start_frame end_frame) num_frames_to_extract;
    Ok (sorted samples).

Definition _build_select_filter (frame_indices : list Z) : string :=
  str_join "+" ((λ idx, "eq(n\," +:+ str_of_int idx +:+ ")") <$> frame_indices).

Definition extract_frames (video_path output_dir : Path) (fps : pyval)
    (start_time end_time : option pynum) (metadata : option (gmap string pyval))
    (reset_indices : bool) : IO unit :=
  fps ← lift (_validate_fps fps);
  avg_fps ← lift (_validate_avg_fps metadata);
  '(actual_start_time, actual_end_time) ←
     lift (_validate_time_range metadata start_time end_time);
  frame_indices ←
    lift (_select_random_frames (int_value fps) avg_fps actual_start_time actual_end_time);
  let select_filter := _build_select_filter frame_indices in
  common_frame_extraction_logic video_path
    ["-vf"; "select='" +:+ select_filter +:+ "'"; "-vsync"; "vfr"] output_dir
    actual_start_time actual_end_time reset_indices.
End Methods.
End FixedRandomFramesStrategy.

(** [strategy.extract_frames(...)]: the method of the instance's class. *)
Definition strategy_extract_frames `{Builtins} `{World} (cls : strategy_class) :=
  match cls with
  | ClsAll => AllFramesStrategy.extract_frames
  | ClsUniform => UniformFramesStrategy.extract_frames
  | ClsFixedRandom => FixedRandomFramesStrategy.extract_frames
  end.

(** ** utils.py *)

Definition VALID_VIDEO_EXTENSIONS : list string :=
  [".mp4"; ".avi"; ".mov"; ".mkv"; ".webm"].

(** [FrameExtractionStrategy.__subclasses__()], in definition order. *)
Definition subclasses : list strategy_class := [ClsAll; ClsUniform; ClsFixedRandom].

(** The loop of [get_strategy_class]; every subclass has a [STRATEGY_NAME]. *)
Fixpoint first_named (name : string) (classes : list strategy_class)
    : result strategy_class :=
  match classes with
  | [] => raise ValueError AtNoStrategy
  | cls :: rest =>
      if String.eqb (STRATEGY_NAME cls) name then Ok cls else first_named name rest
  end.

Definition get_strategy_class (name : string) : result strategy_class :=
  let name := lower name in
  first_named name subclasses.

Definition validate_output_path `{World} (output_dir : Path) (create_if_missing : bool)
    : IO Path :=
  found ← stat_query (path_exists output_dir);
  if found : bool then
    is_dir ← stat_query (path_is_dir output_dir);
    if negb is_dir then raiseIO NotADirectoryError AtOutputNotDir
    else pure output_dir
  else if create_if_missing then
    emit (EvMkdir output_dir);;
    if fs_mkdir output_dir then pure output_dir
    else raiseIO OSError AtOutputCreate
  else raiseIO FileNotFoundError AtOutputMissing.

(** ** video_frame_extractor.py *)

(** What a caller may pass as [strategy]: nothing, a strategy instance, or
    some other object, truthy or not. *)
Inductive strategy_arg :=
| ArgNone
| ArgStrategy (cls : strategy_class)
| ArgOther (truthy : bool).

Module VideoFrameExtractor.
Section Orchestrator.
Context `{Builtins} `{World}.

(** The attributes [__init__] sets; [output_dir] is set only when the
    argument was given. *)
Record t := {
  video_path : Path;
  output_dir : option Path;
  fps : pyval;
  start_time : option pynum;
  end_time : option pynum;
  strategy : strategy_class;
  reset_indices : bool;
}.

(** [fps <= 0] *)
Definition le_zero (v : pyval) : result bool :=
  match v with
  | VInt z => Ok (z <=? 0)%Z
  | VBool b => Ok (negb b)
  | VFloat f => Ok (num_le (NFloat f) (NInt 0))
  | _ => raise TypeError AtBuiltin
  end.

Definition is_None (v : pyval) : bool :=
  match v with
  | VNone => true
  | _ => false
  end.

Definition __init__ (video_path : Path) (allow_any_extension : bool)
    (output_dir : option Path) (fps : pyval) (start_time end_time : option pynum)
    (strategy : strategy_arg) (reset_indices : bool) : IO t :=
  if negb (fs_exists video_path) then raiseIO FileNotFoundError AtVideoMissing
  else if negb allow_any_extension
          && negb (bool_decide (lower (path_suffix video_path) ∈ VALID_VIDEO_EXTENSIONS))
  then raiseIO ValueError AtUnsupportedFormat
  else
    self_output_dir ← match output_dir with
                      | Some d => d ← validate_output_path d true; pure (Some d)
                      | None => pure None
                      end;
    fps_bad ← (if is_None fps then pure false else lift (le_zero fps));
    if fps_bad : bool then raiseIO ValueError AtFpsNotPositive
    else if match start_time with
            | Some s => num_lt s (NInt 0)
            | None => false
            end
    then raiseIO ValueError AtStartNegative
    else if match end_time with
            | Some e => num_lt e (NInt 0)
            | None => false
            end
    then raiseIO ValueError AtEndNegative
    else if match end_time, start_time with
            | Some e, Some s => num_le e s
            | _, _ => false
            end
    then raiseIO ValueError AtEndNotAfterStart
    else
      match strategy with
      | ArgOther true => raiseIO TypeError AtStrategyType
      | _ =>
          pure {| video_path := video_path;
                  output_dir := self_output_dir;
                  fps := fps;
                  start_time := start_time;
                  end_time := end_time;
                  strategy := match strategy with
                              | ArgStrategy cls => cls
                              | _ => ClsAll
                              end;
                  reset_indices := reset_indices |}
      end.

Definition ffprobe_command (video_path : Path) : list string :=
  ["ffprobe"; "-v"; "error"; "-select_streams"; "v:0"; "-show_entries";
   "stream=width,height,codec_name,r_frame_rate,avg_frame_rate,duration,nb_frames,bit_rate";
   "-of"; "json"; video_path].

(** [v.get(key, dflt)] *)
Definition dict_get (v : pyval) (key : string) (dflt : pyval) : result pyval :=
  match v with
  | VDict d => Ok (default dflt (d !! key))
  | _ => raise AttributeError AtBuiltin
  end.

(** [v[0]] *)
Definition subscript_0 (v : pyval) : result pyval :=
  match v with
  | VList (x :: _) => Ok x
  | VList [] => raise IndexError AtBuiltin
  | VStr (String c _) => Ok (VStr (String c EmptyString))
  | VStr EmptyString => raise IndexError AtBuiltin
  | VDict _ => raise KeyError AtBuiltin
  | _ => raise TypeError AtBuiltin
  end.

(** [eval(v)] *)
Definition eval_value (v : pyval) : result pyval :=
  match v with
  | VStr s => py_eval s
  | _ => raise TypeError AtBuiltin
  end.

(** [{key: video_info[key] for key in fields if key in video_info}] *)
Definition select_fields (video_info : gmap string pyval) (fields : list string)
    : gmap string pyval :=
  foldl (λ acc key, match video_info !! key with
                    | Some v => <[key := v]> acc
                    | None => acc
                    end) ∅ fields.

(** The [try] block of [get_metadata], from the probe's output to the
    [video_info] dictionary. *)
Definition read_video_info (output : string) : result (gmap string pyval) :=
  metadata ← json_loads output;
  stream ← dict_get metadata "streams" (VList [VDict ∅]) ≫= subscript_0;
  avg_fps ← dict_get stream "avg_frame_rate" (VStr "0/1") ≫= eval_value;
  bit_rate ← dict_get stream "bit_rate" (VInt 0) ≫= py_int;
  let bitrate_kbps := (bit_rate / 1000)%Z in
  codec ← dict_get stream "codec_name" (VStr "Unknown");
  width ← dict_get stream "width" (VStr "Unknown");
  height ← dict_get stream "height" (VStr "Unknown");
  duration ← dict_get stream "duration" (VInt 0) ≫= py_float;
  total_frames ← dict_get stream "nb_frames" (VStr "0") ≫= py_int;
  Ok (<["codec" := codec]>
       (<["resolution" := VStr (py_str width +:+ "x" +:+ py_str height)]>
         (<["avg_fps" := avg_fps]>
           (<["duration" := VFloat duration]>
             (<["total_frames" := VInt total_frames]>
               (<["bitrate" := VInt bitrate_kbps]> ∅)))))).

(** The rest of the [try] block: [if fields: return {...}] and
    [return video_info]. *)
Definition parse_probe_output (output : string) (fields : option (list string))
    : result (gmap string pyval) :=
  video_info ← read_video_info output;
  match fields with
  | Some ((_ :: _) as fields) => Ok (select_fields video_info fields)
  | _ => Ok video_info
  end.

Definition get_metadata (self : t) (fields : option (list string))
    : IO (option (gmap string pyval)) :=
  try_or_None (
    let command := ffprobe_command (video_path self) in
    output ← (emit (EvProbe command);; lift (check_output command));
    lift (parse_probe_output output fields)).

Definition extract_frames (self : t) : IO unit :=
  metadata ← get_metadata self (Some ["duration"; "avg_fps"]);
  match metadata with
  | None => raiseIO ValueError AtNoMetadata
  | Some md =>
      out ← match output_dir self with
            | Some d => pure d
            | None => raiseIO AttributeError AtBuiltin
            end;
      strategy_extract_frames (strategy self) (video_path self) out (fps self)
        (start_time self) (end_time self) (Some md) (reset_indices self)
  end.

(** One extraction run: construct the orchestrator, then extract. *)
Definition run (video_path : Path) (allow_any_extension : bool)
    (output_dir : option Path) (fps : pyval) (start_time end_time : option pynum)
    (strategy : strategy_arg) (reset_indices : bool) : IO unit :=
  self ← __init__ video_path allow_any_extension output_dir fps start_time end_time
           strategy reset_indices;
  extract_frames self.
End Orchestrator.
End VideoFrameExtractor.

(** ** cli.py and main.py: the two front ends *)

(** The [raise] statements of the front ends. *)
Inductive front_site :=
| AtStrategyNeedsFps       (* cli.py: "The '...' strategy explicitly requires --fps ..." *)
| AtCliUnsupportedFormat   (* cli.py: "Unsupported video format: ..." *)
| AtInvalidPath            (* cli.py: "Invalid path: ..." *)
| AtUnsupportedStrategy.   (* main.py: "Unsupported strategy: ..." *)

(** How a call of a front end ends: it returns, it raises at one of its
    own [raise] statements, or an exception of the code it calls passes
    through it. *)
Inductive outcome (A : Type) :=
| Returned (a : A)
| Raised (c : exc_class) (s : front_site)
| Passed (e : exn).
Arguments Returned {A} a.
Arguments Raised {A} c s.
Arguments Passed {A} e.

(** The outcome of a front end and the events it caused, oldest first. *)
Definition Front (A : Type) : Type := outcome A * list event.

Definition of_result {A} (r : result A) : outcome A :=
  match r with
  | Ok a => Returned a
  | Err e => Passed e
  end.

Definition of_IO {A} (m : IO A) : Front A := (of_result m.1, m.2).

(** What the front ends ask the file system besides [World]: asked once,
    before anything is run. *)
Class Listing := {
  path_is_file : Path → option bool;         (* Path.is_file; None: it raises OSError *)
  fs_iterdir : Path → result (list Path);    (* list(Path.iterdir()) *)
  path_stem : Path → string;                 (* Path.stem *)
  path_child : Path → string → Path;         (* Path / name *)
}.

(** A front end processes several videos, and creates directories, in one
    call: what the world answers changes as the call goes on.
    [world_after events] is the world found after [events] were caused;
    one run of the orchestrator sees the world found at its start. *)
Class History := {
  world_after : list event → World;
}.

(** [Path.mkdir(parents=True, exist_ok=True)] and
    [os.makedirs(path, exist_ok=True)]: the call returns, also for a
    directory that is there already, or raises OSError (FileExistsError for
    another kind of file, PermissionError, ...). *)
Definition make_dirs `{World} (d : Path) : IO unit :=
  emit (EvMkdir d);;
  if fs_mkdir d then pure () else raiseIO OSError AtBuiltin.

Definition supported_extension `{Builtins} (p : Path) : bool :=
  bool_decide (lower (path_suffix p) ∈ VALID_VIDEO_EXTENSIONS).

Module VideoFrameExtractorCLI.
Section CommandLine.
Context `{Builtins} `{Listing} `{History}.

Inductive command_name := extract | metadata.

(** [self.args] as [argparse] leaves it: [--fps] is an int, [--start_time]
    a float or the default int 0, [--end_time] a float, the paths are
    [Path] objects. *)
Record args := {
  command : command_name;
  strategy : option string;
  video_path : Path;
  allow_any_extension : bool;
  output_dir : Path;
  fps : option Z;
  start_time : pynum;
  end_time : option pynum;
  reset_indices : bool;
}.

Definition fps_value (a : args) : pyval :=
  match fps a with
  | Some z => VInt z
  | None => VNone
  end.

Definition get_strategy (a : args) : outcome strategy_arg :=
  match strategy a with
  | None => Returned ArgNone
  | Some name =>
      if String.eqb name EmptyString then Returned ArgNone
      else
        match get_strategy_class name with
        | Err e => Passed e
        | Ok strategy_cls =>
            if negb (String.eqb name "all") && negb (bool_decide (is_Some (fps a)))
            then Raised ValueError AtStrategyNeedsFps
            else Returned (ArgStrategy strategy_cls)
        end
  end.

(** The body of the loop of [extract_frames] over a directory, and the
    loop: [done] are the events caused so far. *)
Fixpoint extract_each (a : args) (chosen : strategy_arg) (files : list Path)
    (done : list event) : Front unit :=
  match files with
  | [] => (Returned (), done)
  | vid_file :: rest =>
      if supported_extension vid_file then
        let sub_output := path_child (output_dir a) (path_stem vid_file) in
        let made := @make_dirs (world_after done) sub_output in
        let done := done ++ made.2 in
        match made.1 with
        | Err e => (Passed e, done)
        | Ok _ =>
            let ran := @VideoFrameExtractor.run _ (world_after done) vid_file false
                         (Some sub_output) (fps_value a) (Some (start_time a))
                         (end_time a) chosen (reset_indices a) in
            let done := done ++ ran.2 in
            match ran.1 with
            | Err e => (Passed e, done)
            | Ok _ => extract_each a chosen rest done
            end
        end
      else extract_each a chosen rest done
  end.

Definition extract_frames (a : args) : Front unit :=
  match get_strategy a with
  | Raised c s => (Raised c s, [])
  | Passed e => (Passed e, [])
  | Returned chosen =>
      match path_is_file (video_path a) with
      | None => (Passed (Exn OSError AtBuiltin), [])
      | Some true =>
          if negb (allow_any_extension a) && negb (supported_extension (video_path a))
          then (Raised ValueError AtCliUnsupportedFormat, [])
          else
            of_IO (@VideoFrameExtractor.run _ (world_after []) (video_path a) false
                     (Some (output_dir a)) (fps_value a) (Some (start_time a))
                     (end_time a) chosen (reset_indices a))
      | Some false =>
          match @path_is_dir (world_after []) (video_path a) with
          | None => (Passed (Exn OSError AtBuiltin), [])
          | Some true =>
              match fs_iterdir (video_path a) with
              | Err e => (Passed e, [])
              | Ok files => extract_each a chosen files []
              end
          | Some false => (Raised FileNotFoundError AtInvalidPath, [])
          end
      end
  end.

(** One video of [get_metadata]: construct the orchestrator with its
    defaults, read the metadata; displaying them is logging. *)
Definition show_metadata `{World} (vid_file : Path) : IO unit :=
  extractor ← VideoFrameExtractor.__init__ vid_file false None VNone None None
                ArgNone false;
  _ ← VideoFrameExtractor.get_metadata extractor None;
  pure ().

Fixpoint show_each (files : list Path) (done : list event) : Front unit :=
  match files with
  | [] => (Returned (), done)
  | vid_file :: rest =>
      if supported_extension vid_file then
        let shown := @show_metadata (world_after done) vid_file in
        let done := done ++ shown.2 in
        match shown.1 with
        | Err e => (Passed e, done)
        | Ok _ => show_each rest done
        end
      else show_each rest done
  end.

Definition get_metadata (a : args) : Front unit :=
  match path_is_file (video_path a) with
  | None => (Passed (Exn OSError AtBuiltin), [])
  | Some true =>
      if negb (allow_any_extension a) && negb (supported_extension (video_path a))
      then (Raised ValueError AtCliUnsupportedFormat, [])
      else of_IO (@show_metadata (world_after []) (video_path a))
  | Some false =>
      match @path_is_dir (world_after []) (video_path a) with
      | None => (Passed (Exn OSError AtBuiltin), [])
      | Some true =>
          match fs_iterdir (video_path a) with
          | Err e => (Passed e, [])
          | Ok files => show_each files []
          end
      | Some false => (Returned (), [])
      end
  end.

Definition run (a : args) : Front unit :=
  match command a with
  | extract => extract_frames a
  | metadata => get_metadata a
  end.
End CommandLine.
End VideoFrameExtractorCLI.

(** main.py *)
Section Main.
Context `{Builtins} `{History}.

(** The dictionary of [run_extraction], looked up with [.get]. *)
Definition strategy_by_name (strategy_name : string) : option strategy_class :=
  if String.eqb strategy_name "all" then Some ClsAll
  else if String.eqb strategy_name "uniform" then Some ClsUniform
  else if String.eqb strategy_name "fixed_random" then Some ClsFixedRandom
  else None.

Definition run_extraction (video_path : Path) (allow_any_extension : bool)
    (output_dir : Path) (fps : pyval) (strategy_name : string)
    (start_time end_time : option pynum) (reset_indices : bool) : Front unit :=
  let made := @make_dirs (world_after []) output_dir in
  match made.1 with
  | Err e => (Passed e, made.2)
  | Ok _ =>
      match strategy_by_name strategy_name with
      | None => (Raised ValueError AtUnsupportedStrategy, made.2)
      | Some strategy_cls =>
          let ran := @VideoFrameExtractor.run _ (world_after made.2) video_path
                       allow_any_extension (Some output_dir) fps start_time end_time
                       (ArgStrategy strategy_cls) reset_indices in
          (of_result ran.1, made.2 ++ ran.2)
      end
  end.

Definition run_metadata (video_path : Path) (allow_any_extension : bool) : Front unit :=
  of_IO (
    extractor ← @VideoFrameExtractor.__init__ _ (world_after []) video_path
                  allow_any_extension None VNone None None ArgNone false;
    _ ← @VideoFrameExtractor.get_metadata _ (world_after []) extractor None;
    pure ()).
End Main.

(** ** A concrete interpreter and world, to run the definitions *)

Module Demo.
(** The float [m * 2^e]. *)
Definition float_lit (m e : Z) : float := binary_normalize 53 1024 m e false.
Definition nan : float := S754_nan.
Definition inf : float := S754_infinity false.

Fixpoint digits_value (acc : Z) (s : string) : option Z :=
  match s with
  | EmptyString => Some acc
  | String c s' =>
      let n := Z.of_N (N_of_ascii c) in
      if (48 <=? n)%Z && (n <=? 57)%Z then digits_value (10 * acc + (n - 48)) s'
      else None
  end.

Fixpoint after_last_dot (acc : string) (s : string) : string :=
  match s with
  | EmptyString => acc
  | String c s' =>
      if Ascii.eqb c "." then after_last_dot (String c s') s' else after_last_dot acc s'
  end.

(** The probe's report for a one-second clip at 25 frames per second. *)
Definition report_text : string := "{report of clip.mp4}".

Definition report_stream : gmap string pyval :=
  <["codec_name" := VStr "h264"]>
    (<["width" := VInt 320]>
      (<["height" := VInt 240]>
        (<["avg_frame_rate" := VStr "25/1"]>
          (<["duration" := VStr "1.000000"]>
            (<["nb_frames" := VStr "25"]>
              (<["bit_rate" := VStr "12345"]> ∅)))))).

Definition report : pyval :=
  VDict (<["streams" := VList [VDict report_stream]]> ∅).

#[local] Instance builtins : Builtins := {|
  float_of_str s :=
    if String.eqb s "nan" then Some nan
    else if String.eqb s "1.000000" then Some (float_lit 1 0)
    else None;
  int_of_str s :=
    match s with
    | EmptyString => None
    | _ => digits_value 0 s
    end;
  str_of_float f :=
    match f with
    | S754_nan => "nan"
    | S754_infinity s => if s then "-inf" else "inf"
    | _ => "<float>"
    end;
  str_of_container v := "<container>";
  py_eval s :=
    if String.eqb s "25/1" then Ok (VFloat (float_lit 25 0))
    else if String.eqb s "0/0" then raise ZeroDivisionError AtBuiltin
    else raise SyntaxError AtBuiltin;
  json_loads s :=
    if String.eqb s report_text then Ok report
    else if String.eqb s "{no streams}" then Ok (VDict (<["streams" := VList []]> ∅))
    else raise ValueError AtBuiltin;
  path_suffix p := after_last_dot "" p;
|}.

(** A world with the clip, an output directory and both tools installed. *)
#[local] Instance world : World := {|
  fs_exists p := String.eqb p "clip.mp4" || String.eqb p "out";
  path_exists p := Some (String.eqb p "clip.mp4" || String.eqb p "out");
  path_is_dir p := Some (String.eqb p "out");
  fs_mkdir p := true;
  check_output cmd := Ok report_text;
  subprocess_run cmd := Ok ();
  random_draw i := 7 * i + 3;
|}.

(** The same world with a probe whose report has no stream. *)
Definition world_no_streams : World := {|
  fs_exists := @fs_exists world;
  path_exists := @path_exists world;
  path_is_dir := @path_is_dir world;
  fs_mkdir := @fs_mkdir world;
  check_output cmd := Ok "{no streams}";
  subprocess_run := @subprocess_run world;
  random_draw := @random_draw world;
|}.


Definition md (duration avg_fps : pyval) : gmap string pyval :=
  <["duration" := duration]> (<["avg_fps" := avg_fps]> ∅).

(** What the metadata reader makes of that report. *)
Definition report_info : gmap string pyval :=
  <["codec" := VStr "h264"]>
    (<["resolution" := VStr "320x240"]>
      (<["avg_fps" := VFloat (float_lit 25 0)]>
        (<["duration" := VFloat (float_lit 1 0)]>
          (<["total_frames" := VInt 25]>
            (<["bitrate" := VInt 12]> ∅))))).

(** An orchestrator for the clip, as [__init__] leaves it. *)
Definition extractor : VideoFrameExtractor.t := {|
  VideoFrameExtractor.video_path := "clip.mp4";
  VideoFrameExtractor.output_dir := Some "out";
  VideoFrameExtractor.fps := VInt 5;
  VideoFrameExtractor.start_time := None;
  VideoFrameExtractor.end_time := None;
  VideoFrameExtractor.strategy := ClsUniform;
  VideoFrameExtractor.reset_indices := false;
|}.
End Demo.

(** A directory of videos, and a world that remembers the directories
    created in it. *)
Module DemoFrontEnd.
Import Demo.

#[local] Instance listing : Listing := {|
  path_is_file p := Some (String.eqb p "clip.mp4" || String.eqb p "notes.txt");
  fs_iterdir p :=
    if String.eqb p "videos" then Ok ["videos/notes.txt"; "videos/clip.mp4"]
    else raise NotADirectoryError AtBuiltin;
  path_stem p := if String.eqb p "videos/clip.mp4" then "clip" else p;
  path_child d name := os_path_join d name;
|}.

Definition created (events : list event) (p : Path) : bool :=
  existsb (λ ev, match ev with
                 | EvMkdir d => String.eqb d p
                 | _ => false
                 end) events.

Definition there (events : list event) (p : Path) : bool :=
  String.eqb p "clip.mp4" || String.eqb p "notes.txt" || String.eqb p "videos"
  || String.eqb p "videos/clip.mp4" || String.eqb p "videos/notes.txt"
  || created events p.

#[local] Instance history : History := {|
  world_after events := {|
    fs_exists p := there events p;
    path_exists p := Some (there events p);
    path_is_dir p := Some (String.eqb p "videos" || created events p);
    fs_mkdir p := true;
    check_output cmd := Ok report_text;
    subprocess_run cmd := Ok ();
    random_draw i := 7 * i + 3;
  |};
|}.

(** [extract --video_path videos --output_dir out] *)
Definition extract_videos : VideoFrameExtractorCLI.args := {|
  VideoFrameExtractorCLI.command := VideoFrameExtractorCLI.extract;
  VideoFrameExtractorCLI.strategy := None;
  VideoFrameExtractorCLI.video_path := "videos";
  VideoFrameExtractorCLI.allow_any_extension := false;
  VideoFrameExtractorCLI.output_dir := "out";
  VideoFrameExtractorCLI.fps := None;
  VideoFrameExtractorCLI.start_time := NInt 0;
  VideoFrameExtractorCLI.end_time := None;
  VideoFrameExtractorCLI.reset_indices := false;
|}.
End DemoFrontEnd.

(** An interpreter that also evaluates "0/1" and reads "{}" as the empty
    object, and a world whose probe reports "{}". *)
Module DemoEmptyReport.
Definition builtins_empty_report : Builtins := {|
  float_of_str := @float_of_str Demo.builtins;
  int_of_str := @int_of_str Demo.builtins;
  str_of_float := @str_of_float Demo.builtins;
  str_of_container := @str_of_container Demo.builtins;
  py_eval s :=
    if String.eqb s "0/1" then Ok (VFloat fzero) else @py_eval Demo.builtins s;
  json_loads s :=
    if String.eqb s "{}" then Ok (VDict ∅) else @json_loads Demo.builtins s;
  path_suffix := @path_suffix Demo.builtins;
|}.

Definition world_empty_report : World := {|
  fs_exists := @fs_exists Demo.world;
  path_exists := @path_exists Demo.world;
  path_is_dir := @path_is_dir Demo.world;
  fs_mkdir := @fs_mkdir Demo.world;
  check_output cmd := Ok "{}";
  subprocess_run := @subprocess_run Demo.world;
  random_draw := @random_draw Demo.world;
|}.
End DemoEmptyReport.

(** An interpreter whose [eval] is given the text "exit()", and a world
    whose probe reports that text as the stream's frame rate. *)
Module DemoExit.


End DemoExit.

(* ================================================================== *)
(** * Part II.  Running the definitions                                *)
(* ================================================================== *)

Section DemoRuns.
Import Demo FrameExtractionStrategy.
#[local] Existing Instance builtins.
#[local] Existing Instance world.

Example str_of_int_negative : str_of_int (-12) = "-12" ∧ str_of_int 0 = "0".
Proof. split; reflexivity. Qed.

Example lower_mixed : lower "AlL_x9" = "all_x9".
Proof. reflexivity. Qed.

Example os_path_join_run :
  os_path_join "out" "frame_%06d.png" = "out/frame_%06d.png"
  ∧ os_path_join "out/" "frame_%06d.png" = "out/frame_%06d.png".
Proof. split; reflexivity. Qed.

Example float_of_int_25 : float_of_int 25 = Ok (S754_finite false 7036874417766400 (-48)).
Proof. reflexivity. Qed.

Example int_of_float_12_5 : int_of_float (float_lit 25 (-1)) = Ok 12%Z.
Proof. reflexivity. Qed.

Example int_of_float_neg : int_of_float (SFopp (float_lit 25 (-1))) = Ok (-12)%Z.
Proof. reflexivity. Qed.

Example float_of_huge_int : float_of_int (10 ^ 400) = raise OverflowError AtBuiltin.
Proof. vm_compute. reflexivity. Qed.

Example compare_exact :
  num_compare (NInt (2 ^ 53 + 1)) (NFloat (float_lit (2 ^ 53) 0)) = Some Gt.
Proof. vm_compute. reflexivity. Qed.

Example validate_time_range_defaults :
  _validate_time_range (Some (md (VFloat (float_lit 10 0)) (VInt 25))) None None
  = Ok (NInt 0, NFloat (float_lit 10 0)).
Proof. vm_compute. reflexivity. Qed.

Example validate_time_range_end_beyond :
  _validate_time_range (Some (md (VFloat (float_lit 1 0)) (VInt 25)))
    (Some (NInt 0)) (Some (NInt 2))
  = raise ValueError AtEndOutside.
Proof. vm_compute. reflexivity. Qed.

Example select_random_frames_run :
  FixedRandomFramesStrategy._select_random_frames 3 (float_lit 25 0)
    (NInt 0) (NFloat (float_lit 1 0))
  = Ok [3; 10; 17]%Z.
Proof. vm_compute. reflexivity. Qed.

Example select_random_frames_clamped :
  FixedRandomFramesStrategy._select_random_frames 50 (float_lit 4 0)
    (NInt 0) (NFloat (float_lit 1 0))
  = Ok [0; 1; 2; 3]%Z.
Proof. vm_compute. reflexivity. Qed.

Example build_select_filter_run :
  FixedRandomFramesStrategy._build_select_filter [3; 10; 17]%Z = "eq(n\,3)+eq(n\,10)+eq(n\,17)".
Proof. vm_compute. reflexivity. Qed.

Example get_strategy_class_mixed_case : get_strategy_class "Fixed_RANDOM" = Ok ClsFixedRandom.
Proof. reflexivity. Qed.

Example run_uniform :
  VideoFrameExtractor.run "clip.mp4" false (Some "out") (VInt 5) None None
    (ArgStrategy ClsUniform) false
  = (Ok (),
     [EvProbe (VideoFrameExtractor.ffprobe_command "clip.mp4");
      EvFfmpeg ["ffmpeg"; "-i"; "clip.mp4"; "-ss"; "0"; "-to"; "<float>";
                "-vf"; "fps=5"; "-frame_pts"; "true"; "out/frame_%06d.png"]]).
Proof. vm_compute. reflexivity. Qed.
(** A NaN start time passes the constructor and the strategy's validation
    and reaches the extraction command. *)
Example run_all_frames_nan_start :
  VideoFrameExtractor.run "clip.mp4" false (Some "out") VNone (Some (NFloat nan)) None
    ArgNone true
  = (Ok (),
     [EvProbe (VideoFrameExtractor.ffprobe_command "clip.mp4");
      EvFfmpeg ["ffmpeg"; "-i"; "clip.mp4"; "-ss"; "nan"; "-to"; "<float>";
                "-fps_mode"; "passthrough"; "out/frame_%06d.png"]]).
Proof. vm_compute. reflexivity. Qed.

(** A file that is not there: the constructor raises, nothing is run. *)
Example run_missing_video :
  VideoFrameExtractor.run "missing.mp4" false (Some "out") (VInt 5) None None
    (ArgStrategy ClsUniform) false
  = (raise FileNotFoundError AtVideoMissing, []).
Proof. vm_compute. reflexivity. Qed.
End DemoRuns.

(* ================================================================== *)
(** * Part III.  Lemmas on the interpreter's operations                *)
(* ================================================================== *)

Section Comparisons.

Lemma CompOpp_fmap_invol (o : option comparison) : CompOpp <$> (CompOpp <$> o) = o.
Proof. destruct o as [[]|]; reflexivity. Qed.

Lemma SFcompare_antisym (f g : float) : SFcompare g f = CompOpp <$> SFcompare f g.
Proof.
  destruct f as [sf|sf| |sf mf ef], g as [sg|sg| |sg mg eg]; simpl;
    repeat match goal with b : bool |- _ => destruct b end; simpl; try reflexivity.
  - rewrite (Z.compare_antisym ef eg).
    destruct (ef ?= eg)%Z; simpl; try reflexivity.
    by rewrite (Pos.compare_cont_antisym mf mg Eq).
  - rewrite (Z.compare_antisym ef eg).
    destruct (ef ?= eg)%Z; simpl; try reflexivity.
    by rewrite (Pos.compare_cont_antisym mf mg Eq).
Qed.

Lemma num_compare_antisym (a b : pynum) : num_compare b a = CompOpp <$> num_compare a b.
Proof.
  destruct a as [x|f], b as [y|g]; simpl.
  - by rewrite (Z.compare_antisym x y).
  - reflexivity.
  - by rewrite CompOpp_fmap_invol.
  - apply SFcompare_antisym.
Qed.

Lemma num_compare_None (a b : pynum) :
  num_compare a b = None ↔ is_nan a = true ∨ is_nan b = true.
Proof.
  destruct a as [x|f], b as [y|g]; simpl.
  - split; [discriminate | intros [?|?]; discriminate].
  - destruct g; simpl; split; try discriminate; try (intros [?|?]; discriminate); auto.
  - destruct f; simpl; split; try discriminate; try (intros [?|?]; discriminate); auto.
  - destruct f as [sf|sf| |sf mf ef], g as [sg|sg| |sg mg eg]; simpl;
      split; try discriminate; try (intros [?|?]; discriminate); auto.
Qed.

(** The four comparison operators, in terms of the three-way order. *)
Lemma num_ge_le (a b : pynum) : num_ge a b = num_le b a.
Proof.
  unfold num_ge, num_le. rewrite (num_compare_antisym a b).
  destruct (num_compare a b) as [[]|]; reflexivity.
Qed.

Lemma num_gt_lt (a b : pynum) : num_gt a b = num_lt b a.
Proof.
  unfold num_gt, num_lt. rewrite (num_compare_antisym a b).
  destruct (num_compare a b) as [[]|]; reflexivity.
Qed.

(** On numbers that are not NaN the order is total. *)
Lemma num_lt_false_ge (a b : pynum) :
  is_nan a = false → is_nan b = false → num_lt a b = false → num_le b a = true.
Proof.
  intros Ha Hb. rewrite <- num_ge_le. unfold num_lt, num_ge.
  destruct (num_compare a b) as [[]|] eqn:E; try done.
  apply num_compare_None in E as [?|?]; congruence.
Qed.

Lemma num_le_false_gt (a b : pynum) :
  is_nan a = false → is_nan b = false → num_le a b = false → num_lt b a = true.
Proof.
  intros Ha Hb. rewrite <- num_gt_lt. unfold num_le, num_gt.
  destruct (num_compare a b) as [[]|] eqn:E; try done.
  apply num_compare_None in E as [?|?]; congruence.
Qed.

(** A comparison with NaN is false, whatever the operator. *)
Lemma num_cmp_nan_l (b : pynum) :
  num_lt (NFloat S754_nan) b = false ∧ num_le (NFloat S754_nan) b = false
  ∧ num_gt (NFloat S754_nan) b = false ∧ num_ge (NFloat S754_nan) b = false.
Proof. destruct b as [y|[]]; repeat split; reflexivity. Qed.

Lemma num_lt_le_excl (a b : pynum) : num_lt a b = true → num_le b a = false.
Proof.
  rewrite <- num_ge_le. unfold num_lt, num_ge.
  destruct (num_compare a b) as [[]|]; done.
Qed.
End Comparisons.

Section ValidatorLemmas.
Import FrameExtractionStrategy.
Context `{Builtins}.

Lemma raises_raise {A} (c c' : exc_class) (s : raise_site) :
  raises (@raise A c s) c' ↔ c = c'.
Proof.
  unfold raises, raise. split.
  - intros [s' E]. by injection E.
  - intros <-. by exists s.
Qed.

Lemma not_raises_Ok {A} (a : A) (c : exc_class) : ¬ raises (Ok a) c.
Proof. intros [s E]. discriminate. Qed.

(** What [float(v)] can raise. *)
Lemma py_float_cases (v : pyval) :
  (∃ f, py_float v = Ok f)
  ∨ py_float v = raise TypeError AtBuiltin
  ∨ py_float v = raise ValueError AtBuiltin
  ∨ py_float v = raise OverflowError AtBuiltin.
Proof.
  destruct v as [|b|z|f|s|l|d]; simpl; eauto.
  - unfold float_of_int. destruct (binary_normalize _ _ _ _ _); eauto.
  - unfold float_of_int. destruct (binary_normalize _ _ _ _ _); eauto 6.
  - destruct (float_of_str s); eauto.
Qed.

(** [_validate_avg_fps] once the value is known to convert. *)
Lemma validate_avg_fps_converted (m : gmap string pyval) (v : pyval) (f : float) :
  m !! "avg_fps" = Some v → py_float v = Ok f →
  _validate_avg_fps (Some m)
  = if num_le (NFloat f) (NInt 0) then raise ValueError AtAvgFpsNotPositive else Ok f.
Proof. intros Hm Hv. unfold _validate_avg_fps. rewrite Hm, Hv. reflexivity. Qed.

Lemma validate_avg_fps_unconvertible (m : gmap string pyval) (v : pyval) :
  m !! "avg_fps" = Some v →
  raises (py_float v) TypeError ∨ raises (py_float v) ValueError →
  _validate_avg_fps (Some m) = raise ValueError AtAvgFpsInvalid.
Proof.
  intros Hm Hv. unfold _validate_avg_fps. rewrite Hm.
  destruct Hv as [[s ->]|[s ->]]; reflexivity.
Qed.

Lemma validate_avg_fps_overflow (m : gmap string pyval) (v : pyval) :
  m !! "avg_fps" = Some v → raises (py_float v) OverflowError →
  raises (_validate_avg_fps (Some m)) OverflowError.
Proof.
  intros Hm [s Hv]. unfold _validate_avg_fps. rewrite Hm, Hv. by exists s.
Qed.

(** A validated [fps] is the argument itself and stands for a positive int. *)
Lemma validate_fps_Ok (fps v : pyval) :
  _validate_fps fps = Ok v → v = fps ∧ ∃ z, as_int v = Some z ∧ (0 < z)%Z.
Proof.
  unfold _validate_fps. intros E.
  destruct fps as [|b|z|f|s|l|d]; simpl in E; try discriminate.
  - destruct b; simpl in E; [|discriminate]. injection E as <-.
    split; [done|]. exists 1%Z. split; [done|lia].
  - destruct (z <=? 0)%Z eqn:Hz; [discriminate|]. injection E as <-.
    split; [done|]. exists z. split; [done|lia].
Qed.

(** [_validate_time_range] once the duration is known to convert:
    the tests of the source, one after the other. *)
Lemma validate_time_range_converted (m : gmap string pyval) (v : pyval) (d : float)
    (st et : option pynum) :
  m !! "duration" = Some v → py_float v = Ok d →
  _validate_time_range (Some m) st et
  = let s := default (NInt 0) st in
    let e := default (NFloat d) et in
    if num_le (NFloat d) (NInt 0) then raise ValueError AtDurationInvalid
    else if num_lt s (NInt 0) || num_ge s (NFloat d) then raise ValueError AtStartOutside
    else if num_le e s || num_gt e (NFloat d) then raise ValueError AtEndOutside
    else Ok (s, e).
Proof. intros Hm Hv. unfold _validate_time_range. rewrite Hm, Hv. reflexivity. Qed.

(** Whatever it is given, [_validate_time_range] returns times that passed
    every test of the source. *)
Lemma validate_time_range_Ok (md : option (gmap string pyval)) (st et : option pynum)
    (s e : pynum) :
  _validate_time_range md st et = Ok (s, e) →
  ∃ m v d, md = Some m ∧ m !! "duration" = Some v ∧ py_float v = Ok d
    ∧ s = default (NInt 0) st ∧ e = default (NFloat d) et
    ∧ num_le (NFloat d) (NInt 0) = false
    ∧ num_lt s (NInt 0) = false ∧ num_ge s (NFloat d) = false
    ∧ num_le e s = false ∧ num_gt e (NFloat d) = false.
Proof.
  intros E. destruct md as [m|]; [|discriminate].
  destruct (m !! "duration") as [v|] eqn:Hm; [|unfold _validate_time_range in E;
    rewrite Hm in E; discriminate].
  destruct (py_float v) as [d|err] eqn:Hv; [|unfold _validate_time_range in E;
    rewrite Hm, Hv in E; discriminate].
  rewrite (validate_time_range_converted m v d st et Hm Hv) in E. simpl in E.
  destruct (num_le (NFloat d) (NInt 0)) eqn:E1; [discriminate|].
  destruct (num_lt (default (NInt 0) st) (NInt 0)) eqn:E2; [discriminate|].
  destruct (num_ge (default (NInt 0) st) (NFloat d)) eqn:E3; [discriminate|].
  destruct (num_le (default (NFloat d) et) (default (NInt 0) st)) eqn:E4; [discriminate|].
  destruct (num_gt (default (NFloat d) et) (NFloat d)) eqn:E5; [discriminate|].
  simpl in E. injection E as <- <-.
  exists m, v, d. repeat split; assumption.
Qed.
End ValidatorLemmas.

Section Sampling.
Context `{World}.

Lemma sample_loop_length (k : nat) (i : nat) (pool : list Z) :
  length (sample_loop i pool k) = k.
Proof. revert i pool. induction k as [|k IH]; intros i pool; simpl; [done|by rewrite IH]. Qed.

(** Overwriting position [j] with [y] and setting the old element aside
    keeps the elements. *)
Lemma swap_out (l : list Z) (j : nat) (y : Z) :
  j < length l → l !!! j :: <[j := y]> l ≡ₚ y :: l.
Proof.
  revert j. induction l as [|x l IH]; intros [|j] Hj; simpl in *; try lia.
  - apply perm_swap.
  - change ((x :: l) !!! S j) with (l !!! j).
    rewrite (perm_swap x (l !!! j)), (IH j) by lia. apply perm_swap.
Qed.

(** One pick of the selection loop: the picked element and the shortened
    pool are the old pool. *)
Lemma pick_and_shrink (pool : list Z) (j : nat) :
  j < length pool →
  pool !!! j :: take (length pool - 1) (<[j := pool !!! (length pool - 1)]> pool)
  ≡ₚ pool.
Proof.
  destruct pool as [|y init _] using rev_ind; [simpl; lia|].
  rewrite length_app. simpl. intros Hj.
  replace (length init + 1 - 1) with (length init) by lia.
  rewrite (list_lookup_total_middle init [] y (length init)) by done.
  destruct (decide (j = length init)) as [->|Hne].
  - rewrite list_lookup_total_middle by done.
    rewrite list_insert_id by (by apply list_lookup_middle).
    rewrite take_app_length. apply Permutation_cons_append.
  - assert (j < length init) by lia.
    rewrite lookup_total_app_l, insert_app_l by done.
    rewrite take_app_length' by (by rewrite length_insert).
    rewrite swap_out by done. apply Permutation_cons_append.
Qed.

(** The picks, together with what is left of the pool, are the pool. *)
Lemma sample_loop_Permutation (k : nat) (i : nat) (pool : list Z) :
  k ≤ length pool → ∃ rest, sample_loop i pool k ++ rest ≡ₚ pool.
Proof.
  revert i pool. induction k as [|k IH]; intros i pool Hk; simpl.
  - by exists pool.
  - set (n := length pool). set (j := random_draw i `mod` n).
    assert (j < n) as Hj by (apply Nat.mod_upper_bound; unfold n; lia).
    destruct (IH (S i) (take (n - 1) (<[j := pool !!! (n - 1)]> pool))) as [rest Hrest].
    { rewrite length_take, length_insert. fold n. lia. }
    exists rest. simpl. rewrite Hrest. by apply pick_and_shrink.
Qed.

Lemma sample_loop_NoDup (k : nat) (i : nat) (pool : list Z) :
  k ≤ length pool → NoDup pool → NoDup (sample_loop i pool k).
Proof.
  intros Hk Hnd. destruct (sample_loop_Permutation k i pool Hk) as [rest Hp].
  rewrite <- Hp in Hnd. by apply NoDup_app in Hnd as [? _].
Qed.

Lemma sample_loop_elem_of (k : nat) (i : nat) (pool : list Z) (x : Z) :
  k ≤ length pool → x ∈ sample_loop i pool k → x ∈ pool.
Proof.
  intros Hk Hx. destruct (sample_loop_Permutation k i pool Hk) as [rest Hp].
  rewrite <- Hp. apply elem_of_app. by left.
Qed.




Lemma random_sample_Ok (population l : list Z) (k : Z) :
  random_sample population k = Ok l →
  (0 ≤ k ≤ Z.of_nat (length population))%Z
  ∧ length l = Z.to_nat k
  ∧ (NoDup population → NoDup l)
  ∧ (∀ x, x ∈ l → x ∈ population).
Proof.
  unfold random_sample. intros E.
  destruct (sys_maxsize <? _)%Z; [discriminate|].
  destruct (k <? 0)%Z eqn:E1; [discriminate|].
  destruct (_ <? k)%Z eqn:E2; [discriminate|]. simpl in E. injection E as <-.
  assert (Z.to_nat k ≤ length population) by lia.
  split; [lia|]. split; [apply sample_loop_length|].
  split; [by apply sample_loop_NoDup|]. intros x. by apply sample_loop_elem_of.
Qed.

(** [sorted] *)
Lemma sorted_Permutation (l : list Z) : sorted l ≡ₚ l.
Proof. apply merge_sort_Permutation. Qed.

Lemma sorted_length (l : list Z) : length (sorted l) = length l.
Proof. by rewrite sorted_Permutation. Qed.

Lemma sorted_ascending (l : list Z) : StronglySorted Z.le (sorted l).
Proof. apply (StronglySorted_merge_sort _). Qed.

Lemma ascending_NoDup_strict (l : list Z) :
  StronglySorted Z.le l → NoDup l → StronglySorted Z.lt l.
Proof.
  induction 1 as [|x l Hs IH Hall]; intros Hnd; constructor.
  - apply IH. by apply NoDup_cons in Hnd as [_ ?].
  - apply NoDup_cons in Hnd as [Hx _].
    rewrite Forall_forall in Hall |- *. intros y Hy.
    specialize (Hall y Hy). assert (x ≠ y) by (intros ->; done). lia.
Qed.


Lemma py_range_elem_of (a b x : Z) : x ∈ py_range a b ↔ (a ≤ x < b)%Z.
Proof. unfold py_range. rewrite elem_of_seqZ. lia. Qed.
End Sampling.

Section SelectionLemmas.
Import FixedRandomFramesStrategy.
Context `{Builtins} `{World}.

(** [_select_random_frames] once both frame indices are known. *)
Lemma select_random_frames_indexed (fps : Z) (avg_fps : float) (st et : pynum)
    (start_frame end_frame : Z) :
  frame_index st avg_fps = Ok start_frame →
  frame_index et avg_fps = Ok end_frame →
  _select_random_frames fps avg_fps st et
  = if (end_frame - start_frame <=? 0)%Z then Ok []
    else samples ← random_sample (py_range start_frame end_frame)
                      (Z.min fps (end_frame - start_frame));
         Ok (sorted samples).
Proof.
  unfold _select_random_frames. intros -> ->. reflexivity.
Qed.

(** A returned list comes from frame indices that were computed. *)
Lemma select_random_frames_Ok (fps : Z) (avg_fps : float) (st et : pynum) (l : list Z) :
  _select_random_frames fps avg_fps st et = Ok l →
  ∃ start_frame end_frame,
    frame_index st avg_fps = Ok start_frame ∧ frame_index et avg_fps = Ok end_frame.
Proof.
  unfold _select_random_frames. intros E.
  destruct (frame_index st avg_fps) as [sf|]; [|discriminate].
  destruct (frame_index et avg_fps) as [ef|]; [|discriminate].
  by exists sf, ef.
Qed.

Lemma build_select_filter_nil : _build_select_filter [] = "".
Proof. reflexivity. Qed.

Lemma build_select_filter_one (idx : Z) :
  _build_select_filter [idx] = "eq(n\," +:+ str_of_int idx +:+ ")".
Proof. reflexivity. Qed.

Lemma build_select_filter_cons (idx idx' : Z) (rest : list Z) :
  _build_select_filter (idx :: idx' :: rest)
  = ("eq(n\," +:+ str_of_int idx +:+ ")") +:+ "+" +:+ _build_select_filter (idx' :: rest).
Proof. reflexivity. Qed.
End SelectionLemmas.

Section IOLemmas.

Lemma IO_bind_lift_Ok {A B} (a : A) (k : A → IO B) : lift (Ok a) ≫= k = k a.
Proof. unfold mbind, IO_bind, lift. simpl. by destruct (k a). Qed.

Lemma IO_bind_lift_Err {A B} (e : exn) (k : A → IO B) : lift (Err e) ≫= k = lift (Err e).
Proof. reflexivity. Qed.

Lemma IO_bind_pure {A B} (a : A) (k : A → IO B) : pure a ≫= k = k a.
Proof. apply IO_bind_lift_Ok. Qed.

(** The events of a sequence are those of its first part, then those of
    its second part if the first part returned. *)
Lemma IO_bind_trace {A B} (m : IO A) (k : A → IO B) :
  (m ≫= k).2 = m.2 ++ match m.1 with
                      | Ok a => (k a).2
                      | Err _ => []
                      end.
Proof.
  unfold mbind, IO_bind. destruct m as [[a|e] tr]; simpl; [done|].
  by rewrite (right_id_L [] (++)).
Qed.

Lemma IO_bind_result_Err {A B} (m : IO A) (k : A → IO B) (e : exn) :
  m.1 = Err e → m ≫= k = (Err e, m.2).
Proof. unfold mbind, IO_bind. by intros ->. Qed.

Lemma IO_bind_result_Ok {A B} (m : IO A) (k : A → IO B) (a : A) :
  m.1 = Ok a → m ≫= k = ((k a).1, m.2 ++ (k a).2).
Proof. unfold mbind, IO_bind. by intros ->. Qed.
End IOLemmas.

Section MoreIOLemmas.

Lemma IO_bind_fst_Ok {A B} (m : IO A) (k : A → IO B) (b : B) :
  (m ≫= k).1 = Ok b → ∃ a, m.1 = Ok a ∧ (k a).1 = Ok b.
Proof.
  unfold mbind, IO_bind. destruct m as [[a|e] tr]; simpl; [|discriminate].
  intros E. by exists a.
Qed.

Lemma IO_bind_fst_Err {A B} (m : IO A) (k : A → IO B) (e : exn) :
  m.1 = Err e → (m ≫= k).1 = Err e.
Proof. intros E. by rewrite (IO_bind_result_Err m k e E). Qed.

(** Composing with a part that causes no command causes no command. *)
Lemma IO_bind_commands {A B} (m : IO A) (k : A → IO B) :
  filter is_command m.2 = [] →
  filter is_command (m ≫= k).2
  = match m.1 with
    | Ok a => filter is_command (k a).2
    | Err _ => []
    end.
Proof.
  intros Hm. rewrite IO_bind_trace, filter_app, Hm. simpl.
  by destruct m.1.
Qed.
End MoreIOLemmas.

Section StrategyLemmas.
Import FrameExtractionStrategy FixedRandomFramesStrategy.
Context `{Builtins} `{World}.

Lemma run_ffmpeg_eq (command : list string) :
  _run_ffmpeg command = (subprocess_run command, [EvFfmpeg command]).
Proof. reflexivity. Qed.

Lemma common_frame_extraction_logic_eq (video_path : Path) (filter_args : list string)
    (output_dir : Path) (s e : pynum) (reset_indices : bool) :
  common_frame_extraction_logic video_path filter_args output_dir s e reset_indices
  = let command := ffmpeg_command video_path filter_args output_dir s e reset_indices in
    (subprocess_run command, [EvFfmpeg command]).
Proof. reflexivity. Qed.

(** A strategy either raises before causing any event, or it has
    validated the time range, computed its filter arguments and run the
    extraction command built from them, once. *)
Lemma strategy_extract_frames_cases (cls : strategy_class) (video_path output_dir : Path)
    (fps : pyval) (start_time end_time : option pynum)
    (metadata : option (gmap string pyval)) (reset_indices : bool) :
  let m := strategy_extract_frames cls video_path output_dir fps start_time end_time metadata
             reset_indices in
  (∃ err, m = (Err err, []))
  ∨ (∃ filter_args s e,
       _validate_time_range metadata start_time end_time = Ok (s, e)
       ∧ let command := ffmpeg_command video_path filter_args output_dir s e
                          reset_indices in
         m = (subprocess_run command, [EvFfmpeg command])).
Proof.
  destruct cls; simpl.
  - unfold AllFramesStrategy.extract_frames.
    destruct (_validate_time_range metadata start_time end_time) as [[s e]|err] eqn:Ht.
    + right. exists ["-fps_mode"; "passthrough"], s, e. split; [done|].
      by rewrite IO_bind_lift_Ok.
    + left. by exists err.
  - unfold UniformFramesStrategy.extract_frames.
    destruct (_validate_fps fps) as [v|err]; [|left; by exists err].
    rewrite IO_bind_lift_Ok.
    destruct (_validate_avg_fps metadata) as [avg_fps|err]; [|left; by exists err].
    rewrite IO_bind_lift_Ok.
    destruct (num_gt _ _); [left; by eexists|].
    destruct (_validate_time_range metadata start_time end_time) as [[s e]|err] eqn:Ht.
    + right. exists ["-vf"; "fps=" +:+ py_str v], s, e. split; [done|].
      by rewrite IO_bind_lift_Ok.
    + left. by exists err.
  - unfold FixedRandomFramesStrategy.extract_frames.
    destruct (_validate_fps fps) as [v|err]; [|left; by exists err].
    rewrite IO_bind_lift_Ok.
    destruct (_validate_avg_fps metadata) as [avg_fps|err]; [|left; by exists err].
    rewrite IO_bind_lift_Ok.
    destruct (_validate_time_range metadata start_time end_time) as [[s e]|err] eqn:Ht;
      [|left; by exists err].
    rewrite IO_bind_lift_Ok.
    destruct (_select_random_frames _ _ _ _) as [l|err]; [|left; by exists err].
    rewrite IO_bind_lift_Ok.
    right. exists ["-vf"; "select='" +:+ _build_select_filter l +:+ "'"; "-vsync"; "vfr"], s, e.
    by split.
Qed.
End StrategyLemmas.

Section OrchestratorLemmas.
Import VideoFrameExtractor FrameExtractionStrategy.
Context `{Builtins} `{World}.

(** [validate_output_path], outcome by outcome. *)
Lemma validate_output_path_eq (d : Path) (create : bool) :
  validate_output_path d create
  = match path_exists d with
    | None => (raise OSError AtBuiltin, [])
    | Some true =>
        match path_is_dir d with
        | None => (raise OSError AtBuiltin, [])
        | Some true => (Ok d, [])
        | Some false => (raise NotADirectoryError AtOutputNotDir, [])
        end
    | Some false =>
        if create
        then (if fs_mkdir d then Ok d else raise OSError AtOutputCreate, [EvMkdir d])
        else (raise FileNotFoundError AtOutputMissing, [])
    end.
Proof.
  unfold validate_output_path.
  by destruct (path_exists d) as [[]|], (path_is_dir d) as [[]|], create, (fs_mkdir d).
Qed.

Lemma validate_output_path_commands (d : Path) (create : bool) :
  filter is_command (validate_output_path d create).2 = [].
Proof.
  rewrite validate_output_path_eq.
  by destruct (path_exists d) as [[]|], (path_is_dir d) as [[]|], create, (fs_mkdir d).
Qed.

(** The metadata reader: one probe, in every case. *)
Lemma get_metadata_eq (self : t) (fields : option (list string)) :
  get_metadata self fields
  = (caught (output ← check_output (ffprobe_command (video_path self));
             parse_probe_output output fields),
     [EvProbe (ffprobe_command (video_path self))]).
Proof.
  unfold get_metadata, try_or_None.
  destruct (check_output _) as [output|err]; [|done].
  by destruct (parse_probe_output output fields).
Qed.



Lemma get_metadata_probed (self : t) (fields : option (list string)) (output : string) :
  check_output (ffprobe_command (video_path self)) = Ok output →
  (get_metadata self fields).1 = caught (parse_probe_output output fields).
Proof. intros Hprobe. by rewrite get_metadata_eq, Hprobe. Qed.

Lemma get_metadata_not_probed (self : t) (fields : option (list string)) (e : exn) :
  check_output (ffprobe_command (video_path self)) = Err e →
  (get_metadata self fields).1
  = if is_Exception (exn_class e) then Ok None else Err e.
Proof. intros Hprobe. by rewrite get_metadata_eq, Hprobe. Qed.

Lemma extract_frames_eq (self : t) :
  extract_frames self
  = let probe := EvProbe (ffprobe_command (video_path self)) in
    match (get_metadata self (Some ["duration"; "avg_fps"])).1 with
    | Ok (Some md) =>
        match output_dir self with
        | Some d =>
            let m := strategy_extract_frames (strategy self) (video_path self) d
                       (fps self) (start_time self) (end_time self) (Some md)
                       (reset_indices self) in
            (m.1, probe :: m.2)
        | None => (raise AttributeError AtBuiltin, [probe])
        end
    | Ok None => (raise ValueError AtNoMetadata, [probe])
    | Err e => (Err e, [probe])
    end.
Proof.
  unfold extract_frames. rewrite get_metadata_eq. cbn [fst].
  destruct (caught _) as [[md|]|e]; [|reflexivity..].
  unfold mbind, IO_bind. simpl.
  destruct (output_dir self); reflexivity.
Qed.
End OrchestratorLemmas.

Section ConstructorLemmas.
Import VideoFrameExtractor FrameExtractionStrategy.
Context `{Builtins} `{World}.

Lemma validate_output_path_Ok (d d' : Path) (create : bool) :
  (validate_output_path d create).1 = Ok d' → d' = d.
Proof.
  rewrite validate_output_path_eq.
  destruct (path_exists d) as [[]|], (path_is_dir d) as [[]|], create, (fs_mkdir d);
    simpl; intros E; try discriminate; by injection E.
Qed.

(** The constructor runs no command. *)
Lemma init_commands (video_path : Path) (allow_any_extension : bool)
    (output_dir : option Path) (fps : pyval) (start_time end_time : option pynum)
    (strategy : strategy_arg) (reset_indices : bool) :
  filter is_command
    (__init__ video_path allow_any_extension output_dir fps start_time end_time
       strategy reset_indices).2 = [].
Proof.
  unfold __init__.
  destruct (negb (fs_exists video_path)); [reflexivity|].
  destruct (negb allow_any_extension && _); [reflexivity|].
  rewrite IO_bind_commands.
  2:{ destruct output_dir as [d|]; [|reflexivity].
      rewrite IO_bind_commands by apply validate_output_path_commands.
      by destruct (validate_output_path d true).1. }
  match goal with
  | |- context [match ?m.1 with Ok _ => _ | Err _ => _ end] =>
      destruct m.1 as [od|]; [|reflexivity]
  end.
  rewrite IO_bind_commands.
  2:{ by destruct (is_None fps). }
  match goal with
  | |- context [match ?m.1 with Ok _ => _ | Err _ => _ end] =>
      destruct m.1 as [[]|]; [reflexivity| |reflexivity]
  end.
  repeat match goal with
         | |- context [if ?b then _ else _] => destruct b; [reflexivity|]
         end.
  destruct strategy as [| |[]]; reflexivity.
Qed.

(** A constructed orchestrator holds its arguments, and every check of
    the constructor has passed on them. *)
Lemma init_Ok (video_path : Path) (allow_any_extension : bool)
    (output_dir : option Path) (fps : pyval) (start_time end_time : option pynum)
    (strategy : strategy_arg) (reset_indices : bool) (self : t) :
  (__init__ video_path allow_any_extension output_dir fps start_time end_time
     strategy reset_indices).1 = Ok self →
  (fs_exists video_path = true
   ∧ (allow_any_extension = true
      ∨ lower (path_suffix video_path) ∈ VALID_VIDEO_EXTENSIONS)
   ∧ (fps = VNone ∨ le_zero fps = Ok false)
   ∧ (∀ s, start_time = Some s → num_lt s (NInt 0) = false)
   ∧ (∀ e, end_time = Some e → num_lt e (NInt 0) = false)
   ∧ (∀ s e, start_time = Some s → end_time = Some e → num_le e s = false))
  ∧ self.(VideoFrameExtractor.video_path) = video_path
  ∧ self.(VideoFrameExtractor.output_dir) = output_dir
  ∧ self.(VideoFrameExtractor.fps) = fps
  ∧ self.(VideoFrameExtractor.start_time) = start_time
  ∧ self.(VideoFrameExtractor.end_time) = end_time
  ∧ self.(VideoFrameExtractor.reset_indices) = reset_indices.
Proof.
  unfold __init__.
  destruct (fs_exists video_path) eqn:Hex; simpl; [|discriminate].
  destruct (negb allow_any_extension && _) eqn:Hext; [discriminate|].
  intros E. apply IO_bind_fst_Ok in E as (od & Hod & E).
  apply IO_bind_fst_Ok in E as (fps_bad & Hfps & E).
  destruct fps_bad; [discriminate|].
  destruct (match start_time with Some _ => _ | None => _ end) eqn:Hs; [discriminate|].
  destruct (match end_time with Some _ => _ | None => _ end) eqn:He; [discriminate|].
  destruct (match end_time with Some _ => _ | None => _ end) eqn:Hse in E; [discriminate|].
  assert (od = output_dir) as ->.
  { destruct output_dir as [d|]; [|by injection Hod].
    apply IO_bind_fst_Ok in Hod as (d' & Hd' & Hod).
    apply validate_output_path_Ok in Hd' as ->. by injection Hod. }
  assert (self = {| VideoFrameExtractor.video_path := video_path;
                    VideoFrameExtractor.output_dir := output_dir;
                    VideoFrameExtractor.fps := fps;
                    VideoFrameExtractor.start_time := start_time;
                    VideoFrameExtractor.end_time := end_time;
                    VideoFrameExtractor.strategy :=
                      match strategy with ArgStrategy cls => cls | _ => ClsAll end;
                    VideoFrameExtractor.reset_indices := reset_indices |}) as ->.
  { destruct strategy as [| |[]]; simpl in E; try discriminate; by injection E. }
  simpl. repeat split.
  - apply andb_false_iff in Hext as [Ha|Hv].
    + left. by destruct allow_any_extension.
    + right. apply negb_false_iff in Hv. by apply bool_decide_eq_true in Hv.
  - destruct (is_None fps) eqn:Hn.
    + left. by destruct fps.
    + right. simpl in Hfps. destruct (le_zero fps) as [[]|]; done.
  - by intros s ->.
  - by intros e ->.
  - by intros s e -> ->.
Qed.
End ConstructorLemmas.

Section MetadataLemmas.
Import VideoFrameExtractor.
Context `{Builtins}.

Lemma result_bind_Ok {A B} (m : result A) (k : A → result B) (b : B) :
  m ≫= k = Ok b → ∃ a, m = Ok a ∧ k a = Ok b.
Proof. destruct m as [a|e]; simpl; [|discriminate]. intros E. by exists a. Qed.

(** The keys of [video_info]. *)
Lemma read_video_info_dom (output : string) (video_info : gmap string pyval) :
  read_video_info output = Ok video_info →
  dom video_info
  = {[ "codec"; "resolution"; "avg_fps"; "duration"; "total_frames"; "bitrate" ]}.
Proof.
  unfold read_video_info. intros E.
  repeat (apply result_bind_Ok in E as (? & ? & E)).
  injection E as <-.
  rewrite !dom_insert_L, dom_empty_L. set_solver.
Qed.

(** The dictionary comprehension keeps the entries named in [fields]. *)
Lemma foldl_select_lookup (video_info acc : gmap string pyval) (fields : list string)
    (k : string) :
  foldl (λ acc key, match video_info !! key with
                    | Some v => <[key := v]> acc
                    | None => acc
                    end) acc fields !! k
  = if bool_decide (k ∈ fields)
    then match video_info !! k with
         | Some v => Some v
         | None => acc !! k
         end
    else acc !! k.
Proof.
  revert acc. induction fields as [|key fields IH]; intros acc; simpl; [done|].
  rewrite IH. destruct (decide (k = key)) as [->|Hne].
  - rewrite (bool_decide_eq_true_2 (key ∈ key :: fields)) by apply list_elem_of_here.
    destruct (video_info !! key) as [v|] eqn:Hv.
    + rewrite lookup_insert_eq. by destruct (bool_decide _).
    + by destruct (bool_decide _).
  - assert (bool_decide (k ∈ key :: fields) = bool_decide (k ∈ fields)) as ->.
    { apply bool_decide_ext. rewrite elem_of_cons.
      split; [intros [?|?]; [congruence|done]|by right]. }
    destruct (video_info !! key) as [v|]; [|done].
    by rewrite lookup_insert_ne.
Qed.

Lemma select_fields_lookup (video_info : gmap string pyval) (fields : list string)
    (k : string) :
  select_fields video_info fields !! k
  = if bool_decide (k ∈ fields) then video_info !! k else None.
Proof.
  unfold select_fields. rewrite foldl_select_lookup, lookup_empty.
  by destruct (bool_decide _), (video_info !! k).
Qed.

Lemma parse_probe_output_eq (output : string) (fields : option (list string)) :
  parse_probe_output output fields
  = match read_video_info output with
    | Ok video_info =>
        Ok match fields with
           | Some ((_ :: _) as fields) => select_fields video_info fields
           | _ => video_info
           end
    | Err e => Err e
    end.
Proof.
  unfold parse_probe_output. destruct (read_video_info output); simpl; [|done].
  by destruct fields as [[|]|].
Qed.

End MetadataLemmas.

(* ================================================================== *)
(** * Part IV.  The properties of the specification                    *)
(* ================================================================== *)

Section RandomFrames.
Import FrameExtractionStrategy FixedRandomFramesStrategy.
Context `{Builtins} `{World}.


(** C2.  Whenever [_select_random_frames] returns a non-empty list, its
    indices are pairwise distinct, strictly ascending, and each lies in
    the half-open window [int(start_time * avg_fps) <= i <
    int(end_time * avg_fps)]; [_build_select_filter] writes one
    [eq(n\,idx)] term per index, in the order of the list, joined
    by [+]. *)
Theorem C2_indices_distinct_ascending_in_window (fps : Z) (avg_fps : float)
    (start_time end_time : pynum) (l : list Z) :
  _select_random_frames fps avg_fps start_time end_time = Ok l →
  l ≠ [] →
  ∃ start_frame end_frame,
    frame_index start_time avg_fps = Ok start_frame
    ∧ frame_index end_time avg_fps = Ok end_frame
    ∧ NoDup l
    ∧ StronglySorted Z.lt l
    ∧ (∀ i, i ∈ l → (start_frame ≤ i < end_frame)%Z)
    ∧ _build_select_filter l
      = str_join "+" ((λ idx, "eq(n\," +:+ str_of_int idx +:+ ")") <$> l)
    ∧ (∀ idx idx' rest, l = idx :: idx' :: rest →
         (idx < idx')%Z
         ∧ _build_select_filter l
           = ("eq(n\," +:+ str_of_int idx +:+ ")") +:+ "+"
               +:+ _build_select_filter (idx' :: rest)).
Proof.
  intros E Hne.
  destruct (select_random_frames_Ok _ _ _ _ _ E) as (sf & ef & Hs & He).
  exists sf, ef. split; [done|]. split; [done|].
  rewrite (select_random_frames_indexed fps avg_fps _ _ _ _ Hs He) in E.
  destruct (_ <=? 0)%Z; [injection E as <-; done|].
  destruct (random_sample _ _) as [samples|] eqn:Hsample; [|discriminate].
  simpl in E. injection E as <-.
  apply random_sample_Ok in Hsample as (_ & _ & Hnd & Hin).
  assert (NoDup (sorted samples)) as Hnd'.
  { rewrite sorted_Permutation. apply Hnd, NoDup_seqZ. }
  assert (StronglySorted Z.lt (sorted samples)) as Hlt.
  { apply ascending_NoDup_strict; [apply sorted_ascending|done]. }
  split; [done|]. split; [done|]. split.
  { intros i Hi. rewrite sorted_Permutation in Hi.
    by apply py_range_elem_of, Hin. }
  split; [reflexivity|].
  intros idx idx' rest Hl. rewrite Hl in Hlt |- *. split.
  - apply StronglySorted_inv in Hlt as [_ Hall].
    by apply Forall_cons in Hall as [? _].
  - apply build_select_filter_cons.
Qed.
End RandomFrames.

Section Validation.
Import FrameExtractionStrategy FixedRandomFramesStrategy.
Context `{Builtins} `{World}.

(** C3 (amended).  [_validate_time_range] raises ValueError when the
    metadata is None or has no 'duration'.  When the duration converts to
    a float [d], with [s] the start time or 0 when it is None and [e] the
    end time or [d] when it is None: ValueError is raised exactly when
    [d <= 0], [s < 0], [s >= d], [e <= s] or [e > d] holds as a float
    comparison; otherwise the pair [(s, e)] is returned; and when [d] is
    positive and neither [s] nor [e] is NaN, the returned pair satisfies
    [0 <= s < d] and [s < e <= d]. *)
Theorem C3_validate_time_range (metadata : option (gmap string pyval))
    (start_time end_time : option pynum) :
  let r := _validate_time_range metadata start_time end_time in
  (metadata = None → r = raise ValueError AtDurationMissing)
  ∧ (∀ m, metadata = Some m → m !! "duration" = None →
       r = raise ValueError AtDurationMissing)
  ∧ (∀ m v d, metadata = Some m → m !! "duration" = Some v → py_float v = Ok d →
       let duration := NFloat d in
       let s := default (NInt 0) start_time in
       let e := default duration end_time in
       (raises r ValueError ↔
          num_le duration (NInt 0) = true
          ∨ num_lt s (NInt 0) = true ∨ num_ge s duration = true
          ∨ num_le e s = true ∨ num_gt e duration = true)
       ∧ (¬ raises r ValueError → r = Ok (s, e))
       ∧ (num_gt duration (NInt 0) = true → is_nan s = false → is_nan e = false →
          r = Ok (s, e) →
          num_le (NInt 0) s = true ∧ num_lt s duration = true
          ∧ num_lt s e = true ∧ num_le e duration = true)).
Proof.
  intros r. split; [|split].
  - intros ->. reflexivity.
  - intros m -> Hm. unfold r, _validate_time_range. by rewrite Hm.
  - intros m v d -> Hm Hv duration s e.
    assert (r = if num_le duration (NInt 0) then raise ValueError AtDurationInvalid
                else if num_lt s (NInt 0) || num_ge s duration
                     then raise ValueError AtStartOutside
                else if num_le e s || num_gt e duration
                     then raise ValueError AtEndOutside
                else Ok (s, e)) as Hr
      by apply (validate_time_range_converted m v d _ _ Hm Hv).
    clearbody r. subst r.
    destruct (num_le duration (NInt 0)) eqn:E1;
      [|destruct (num_lt s (NInt 0)) eqn:E2;
        [|destruct (num_ge s duration) eqn:E3;
          [|destruct (num_le e s) eqn:E4;
            [|destruct (num_gt e duration) eqn:E5]]]]; simpl.
    1-5: split; [split; [tauto|intros _; by apply raises_raise]|].
    1-5: split; [intros Hn; exfalso; apply Hn; by apply raises_raise|].
    1-5: intros _ _ _ Habs; discriminate.
    split; [split; [intros Hr; by apply not_raises_Ok in Hr|]|].
    { intros [?|[?|[?|[?|?]]]]; congruence. }
    split; [done|]. intros Hpos Hs He _.
    assert (is_nan duration = false) as Hd by (unfold duration; by destruct d).
    rewrite num_ge_le in E3. rewrite num_gt_lt in E5.
    repeat split;
      first [by apply num_lt_false_ge | by apply num_le_false_gt].
Qed.

(** C7 (amended).  [_validate_fps] raises ValueError exactly when [fps] is
    None, is not an integer, or is not positive, and otherwise returns
    [fps] unchanged.  [_validate_avg_fps] raises ValueError when the
    metadata is None or has no 'avg_fps'; for a value on which [float()]
    does not raise OverflowError, it raises ValueError exactly when
    [float()] raises TypeError or ValueError or the converted value is
    [<= 0], and otherwise returns the converted float, which is then
    positive or NaN. *)
Theorem C7_validate_fps_and_avg_fps (fps : pyval)
    (metadata : option (gmap string pyval)) :
  (raises (_validate_fps fps) ValueError ↔
     fps = VNone ∨ as_int fps = None ∨ (∃ z, as_int fps = Some z ∧ (z ≤ 0)%Z))
  ∧ (¬ raises (_validate_fps fps) ValueError → _validate_fps fps = Ok fps)
  ∧ (metadata = None → raises (_validate_avg_fps metadata) ValueError)
  ∧ (∀ m, metadata = Some m → m !! "avg_fps" = None →
       raises (_validate_avg_fps metadata) ValueError)
  ∧ (∀ m v, metadata = Some m → m !! "avg_fps" = Some v →
       ¬ raises (py_float v) OverflowError →
       (raises (_validate_avg_fps metadata) ValueError ↔
          raises (py_float v) TypeError ∨ raises (py_float v) ValueError
          ∨ ∃ f, py_float v = Ok f ∧ num_le (NFloat f) (NInt 0) = true)
       ∧ (¬ raises (_validate_avg_fps metadata) ValueError →
          ∃ f, py_float v = Ok f ∧ _validate_avg_fps metadata = Ok f
               ∧ (num_gt (NFloat f) (NInt 0) = true ∨ is_nan (NFloat f) = true))).
Proof.
  split; [|split; [|split; [|split]]].
  - unfold _validate_fps. destruct fps as [|b|z|f|s|l|d]; simpl.
    1,4-7: split; [eauto|intros _; by apply raises_raise].
    + destruct b; simpl; (split; [intros Hr|intros [?|[?|(z & Hz & ?)]]]);
        try done; try (by apply not_raises_Ok in Hr); try (by apply raises_raise).
      * injection Hz as <-. lia.
      * right; right. exists 0%Z. split; [done|lia].
    + destruct (z <=? 0)%Z eqn:Hz;
        (split; [intros Hr|intros [?|[?|(z' & Hz' & ?)]]]);
        try done; try (by apply not_raises_Ok in Hr); try (by apply raises_raise).
      * right; right. exists z. split; [done|lia].
      * injection Hz' as <-. lia.
  - unfold _validate_fps. destruct fps as [|b|z|f|s|l|d]; simpl;
      try (intros Hn; exfalso; apply Hn; by apply raises_raise).
    + destruct b; simpl; [done|]. intros Hn; exfalso; apply Hn; by apply raises_raise.
    + destruct (z <=? 0)%Z; [|done]. intros Hn; exfalso; apply Hn; by apply raises_raise.
  - intros ->. by apply raises_raise.
  - intros m -> Hm. unfold _validate_avg_fps. rewrite Hm. by apply raises_raise.
  - intros m v -> Hm Hover.
    destruct (py_float_cases v) as [[f Hf]|[Hf|[Hf|Hf]]].
    + rewrite (validate_avg_fps_converted m v f Hm Hf), Hf.
      destruct (num_le (NFloat f) (NInt 0)) eqn:Hle.
      * split; [split; [intros _; eauto|intros _; by apply raises_raise]|].
        intros Hn; exfalso; apply Hn; by apply raises_raise.
      * split; [split; [intros Hr; by apply not_raises_Ok in Hr|]|].
        { intros [Hr|[Hr|(f' & Hf' & Hle')]];
            [by apply not_raises_Ok in Hr|by apply not_raises_Ok in Hr|].
          injection Hf' as <-. congruence. }
        intros _. exists f. split; [done|]. split; [done|].
        destruct (is_nan (NFloat f)) eqn:Hnan; [by right|left].
        rewrite num_gt_lt. by apply num_le_false_gt.
    + rewrite (validate_avg_fps_unconvertible m v Hm), Hf
        by (left; rewrite Hf; by apply raises_raise).
      split; [split; [intros _; left|intros _]; by apply raises_raise|].
      intros Hn; exfalso; apply Hn; by apply raises_raise.
    + rewrite (validate_avg_fps_unconvertible m v Hm), Hf
        by (right; rewrite Hf; by apply raises_raise).
      split; [split; [intros _; right; left|intros _]; by apply raises_raise|].
      intros Hn; exfalso; apply Hn; by apply raises_raise.
    + exfalso. apply Hover. rewrite Hf. by apply raises_raise.
Qed.

(** C8.  Once [fps] and the metadata's average frame rate are validated,
    [UniformFramesStrategy.extract_frames] raises ValueError when [fps]
    strictly exceeds [avg_fps], whatever the times and the duration are
    and with no event caused; a request with [fps <= avg_fps] passes the
    check and goes on to the time-range validation and the extraction
    command. *)
Theorem C8_uniform_fps_must_not_exceed_source (video_path output_dir : Path)
    (fps v : pyval) (start_time end_time : option pynum)
    (metadata : option (gmap string pyval)) (reset_indices : bool) (avg_fps : float) :
  _validate_fps fps = Ok v →
  _validate_avg_fps metadata = Ok avg_fps →
  (num_gt (NInt (int_value v)) (NFloat avg_fps) = true →
     UniformFramesStrategy.extract_frames video_path output_dir fps start_time end_time metadata
       reset_indices
     = (raise ValueError AtFpsExceedsSource, []))
  ∧ (num_le (NInt (int_value v)) (NFloat avg_fps) = true →
     UniformFramesStrategy.extract_frames video_path output_dir fps start_time end_time metadata
       reset_indices
     = ('(s, e) ← lift (_validate_time_range metadata start_time end_time);
        common_frame_extraction_logic video_path ["-vf"; "fps=" +:+ py_str v]
          output_dir s e reset_indices)).
Proof.
  intros Hfps Havg. unfold UniformFramesStrategy.extract_frames.
  rewrite Hfps, Havg, !IO_bind_lift_Ok. split.
  - by intros ->.
  - intros Hle. unfold num_le, num_gt in *.
    destruct (num_compare (NInt (int_value v)) (NFloat avg_fps)) as [[]|]; done.
Qed.
End Validation.

Section StrategyLookup.

(** C5.  [get_strategy_class] lower-cases the name and returns the class
    whose [STRATEGY_NAME] it then equals: AllFramesStrategy for "all",
    UniformFramesStrategy for "uniform", FixedRandomFramesStrategy for
    "fixed_random", whatever the case of the letters given; every other
    name raises ValueError. *)
Theorem C5_get_strategy_class (name : string) :
  (∀ cls, get_strategy_class name = Ok cls ↔ STRATEGY_NAME cls = lower name)
  ∧ (get_strategy_class name = Ok ClsAll ↔ lower name = "all")
  ∧ (get_strategy_class name = Ok ClsUniform ↔ lower name = "uniform")
  ∧ (get_strategy_class name = Ok ClsFixedRandom ↔ lower name = "fixed_random")
  ∧ (lower name ≠ "all" → lower name ≠ "uniform" → lower name ≠ "fixed_random" →
     get_strategy_class name = raise ValueError AtNoStrategy)
  ∧ (∀ name', lower name' = lower name →
     get_strategy_class name' = get_strategy_class name).
Proof.
  assert (∀ cls, get_strategy_class name = Ok cls ↔ STRATEGY_NAME cls = lower name)
    as Hcls.
  { intros cls. unfold get_strategy_class, subclasses. cbn [first_named STRATEGY_NAME].
    destruct (String.eqb_spec "all" (lower name)) as [E1|E1];
      [|destruct (String.eqb_spec "uniform" (lower name)) as [E2|E2];
        [|destruct (String.eqb_spec "fixed_random" (lower name)) as [E3|E3]]].
    - rewrite <- E1. destruct cls; simpl; split; intros E; done.
    - rewrite <- E2. destruct cls; simpl; split; intros E; done.
    - rewrite <- E3. destruct cls; simpl; split; intros E; done.
    - split; [intros E; discriminate|]. intros E. destruct cls; simpl in E; congruence. }
  split; [exact Hcls|].
  split; [rewrite (Hcls ClsAll); simpl; split; congruence|].
  split; [rewrite (Hcls ClsUniform); simpl; split; congruence|].
  split; [rewrite (Hcls ClsFixedRandom); simpl; split; congruence|].
  split.
  - intros E1 E2 E3. unfold get_strategy_class, subclasses. cbn [first_named STRATEGY_NAME].
    destruct (String.eqb_spec "all" (lower name)); [congruence|].
    destruct (String.eqb_spec "uniform" (lower name)); [congruence|].
    destruct (String.eqb_spec "fixed_random" (lower name)); [congruence|].
    reflexivity.
  - intros name' E. unfold get_strategy_class. by rewrite E.
Qed.
End StrategyLookup.

Section Orchestration.
Import VideoFrameExtractor FrameExtractionStrategy.
Context `{Builtins} `{World}.

(** C4.  In an extraction run the constructor validates the video path,
    the fps and the time bounds; only then is the probe run; only then
    does the strategy validate against the metadata and compute its
    filter arguments; only then is the extraction command run.  The
    commands of a run are none, the probe, or the probe followed by one
    extraction command; none is issued when the constructor raises. *)
Theorem C4_order_of_operations (video_path : Path) (allow_any_extension : bool)
    (output_dir : option Path) (fps : pyval) (start_time end_time : option pynum)
    (strategy : strategy_arg) (reset_indices : bool) :
  let init := __init__ video_path allow_any_extension output_dir fps start_time
                end_time strategy reset_indices in
  let commands :=
    filter is_command
      (run video_path allow_any_extension output_dir fps start_time end_time
         strategy reset_indices).2 in
  let probe := EvProbe (ffprobe_command video_path) in
  (commands = [] ∨ commands = [probe] ∨ ∃ cmd, commands = [probe; EvFfmpeg cmd])
  ∧ ((∃ err, init.1 = Err err) → commands = [])
  ∧ (probe ∈ commands →
       fs_exists video_path = true
       ∧ (allow_any_extension = true
          ∨ lower (path_suffix video_path) ∈ VALID_VIDEO_EXTENSIONS)
       ∧ (fps = VNone ∨ le_zero fps = Ok false)
       ∧ (∀ s, start_time = Some s → num_lt s (NInt 0) = false)
       ∧ (∀ e, end_time = Some e → num_lt e (NInt 0) = false)
       ∧ (∀ s e, start_time = Some s → end_time = Some e → num_le e s = false))
  ∧ (∀ cmd, EvFfmpeg cmd ∈ commands →
       ∃ self md out filter_args s e,
         init.1 = Ok self
         ∧ (get_metadata self (Some ["duration"; "avg_fps"])).1 = Ok (Some md)
         ∧ output_dir = Some out
         ∧ _validate_time_range (Some md) start_time end_time = Ok (s, e)
         ∧ cmd = ffmpeg_command video_path filter_args out s e reset_indices
         ∧ commands = [probe; EvFfmpeg cmd]).
Proof.
  intros init commands probe.
  assert (commands
          = match init.1 with
            | Ok self => filter is_command (extract_frames self).2
            | Err _ => []
            end) as Hcommands.
  { unfold commands, run. apply IO_bind_commands, init_commands. }
  destruct init.1 as [self|err] eqn:Hinit.
  2:{ rewrite Hcommands. split; [by left|]. split; [done|].
      split; [intros Hin; by apply elem_of_nil in Hin|].
      intros cmd Hin. by apply elem_of_nil in Hin. }
  destruct (init_Ok _ _ _ _ _ _ _ _ _ Hinit)
    as (Hchecks & Hvp & Hod & Hfps & Hst & Het & Hreset).
  rewrite extract_frames_eq, Hvp in Hcommands. fold probe in Hcommands.
  split; [|split; [intros [err Herr]; discriminate|split; [done|]]].
  - destruct (get_metadata self _).1 as [[md|]|]; [|by right; left..].
    destruct (VideoFrameExtractor.output_dir self) as [out|]; [|by right; left].
    destruct (strategy_extract_frames_cases (VideoFrameExtractor.strategy self)
                video_path out (VideoFrameExtractor.fps self)
                (VideoFrameExtractor.start_time self)
                (VideoFrameExtractor.end_time self) (Some md)
                (VideoFrameExtractor.reset_indices self))
      as [[err Hm]|(fa & s & e & _ & Hm)]; simpl in Hm; rewrite Hm in Hcommands.
    + by right; left.
    + right; right. simpl in Hcommands. eexists. exact Hcommands.
  - intros cmd Hin.
    destruct (get_metadata self _).1 as [[md|]|] eqn:Hmd;
      [|rewrite Hcommands in Hin; apply list_elem_of_singleton in Hin; discriminate..].
    destruct (VideoFrameExtractor.output_dir self) as [out|] eqn:Hout;
      [|rewrite Hcommands in Hin; apply list_elem_of_singleton in Hin; discriminate].
    destruct (strategy_extract_frames_cases (VideoFrameExtractor.strategy self)
                video_path out (VideoFrameExtractor.fps self)
                (VideoFrameExtractor.start_time self)
                (VideoFrameExtractor.end_time self) (Some md)
                (VideoFrameExtractor.reset_indices self))
      as [[err Hm]|(fa & s & e & Ht & Hm)]; simpl in Hm; rewrite Hm in Hcommands;
      simpl in Hcommands; rewrite Hcommands in Hin.
    + apply list_elem_of_singleton in Hin. discriminate.
    + apply elem_of_cons in Hin as [Hin|Hin]; [discriminate|].
      apply list_elem_of_singleton in Hin. injection Hin as ->.
      exists self, md, out, fa, s, e.
      rewrite Hst, Het in Ht. rewrite Hreset in Hcommands |- *.
      by rewrite <- Hod.
Qed.
End Orchestration.

Section Metadata.
Import VideoFrameExtractor FrameExtractionStrategy.
Context `{Builtins} `{World}.

(** C6 (amended).  Whenever the probe succeeds, its output is parsed and
    the stream's fields convert, [get_metadata] without [fields], or with
    an empty list, returns a dictionary with exactly the keys 'codec',
    'resolution', 'avg_fps', 'duration', 'total_frames' and 'bitrate';
    with a non-empty list it returns exactly the entries of that
    dictionary whose keys appear in the list. *)
Theorem C6_metadata_keys (self : t) (output : string)
    (video_info : gmap string pyval) :
  check_output (ffprobe_command (video_path self)) = Ok output →
  read_video_info output = Ok video_info →
  (get_metadata self None).1 = Ok (Some video_info)
  ∧ (get_metadata self (Some [])).1 = Ok (Some video_info)
  ∧ dom video_info
    = {[ "codec"; "resolution"; "avg_fps"; "duration"; "total_frames"; "bitrate" ]}
  ∧ (∀ fields, fields ≠ [] →
       ∃ selected,
         (get_metadata self (Some fields)).1 = Ok (Some selected)
         ∧ ∀ k, selected !! k
                = if bool_decide (k ∈ fields) then video_info !! k else None).
Proof.
  intros Hprobe Hinfo.
  assert (∀ fields, (get_metadata self fields).1
                    = Ok (Some match fields with
                               | Some ((_ :: _) as fields) =>
                                   select_fields video_info fields
                               | _ => video_info
                               end)) as Hget.
  { intros fields.
    by rewrite (get_metadata_probed _ _ _ Hprobe), parse_probe_output_eq, Hinfo. }
  split; [apply Hget|]. split; [apply Hget|].
  split; [by apply read_video_info_dom with output|].
  intros fields Hne. exists (select_fields video_info fields).
  split; [|apply select_fields_lookup].
  rewrite Hget. by destruct fields.
Qed.

End Metadata.

(* ================================================================== *)
(** * Part V.  The properties at concrete inputs                       *)
(* ================================================================== *)

Import Demo VideoFrameExtractor FrameExtractionStrategy.



(** C2 at the same request, which returns the frames 3, 10 and 17. *)
Lemma C2_indices_distinct_ascending_in_window_witness :
  @FixedRandomFramesStrategy._select_random_frames world 3 (float_lit 25 0)
    (NInt 0) (NFloat (float_lit 1 0)) = Ok [3; 10; 17]%Z
  ∧ NoDup [3; 10; 17]%Z
  ∧ StronglySorted Z.lt [3; 10; 17]%Z
  ∧ (∀ i, i ∈ [3; 10; 17]%Z → (0 ≤ i < 25)%Z).
Proof.
  assert (@FixedRandomFramesStrategy._select_random_frames world 3 (float_lit 25 0)
            (NInt 0) (NFloat (float_lit 1 0)) = Ok [3; 10; 17]%Z) as E
    by (vm_compute; reflexivity).
  split; [exact E|].
  destruct (@C2_indices_distinct_ascending_in_window world 3 (float_lit 25 0)
              (NInt 0) (NFloat (float_lit 1 0)) [3; 10; 17]%Z E)
    as (sf & ef & Hs & He & Hnd & Hsorted & Hwindow & _); [discriminate|].
  vm_compute in Hs. injection Hs as <-.
  vm_compute in He. injection He as <-.
  repeat split; [exact Hnd|exact Hsorted|apply Hwindow; assumption..].
Defined.

(** C3 at a 10 s video, from 2.0 s to 5 s. *)
Lemma C3_validate_time_range_witness :
  let s := NFloat (float_lit 2 0) in
  let e := NInt 5 in
  let d := NFloat (float_lit 10 0) in
  @_validate_time_range builtins (Some (md (VFloat (float_lit 10 0)) VNone))
    (Some s) (Some e) = Ok (s, e)
  ∧ num_le (NInt 0) s = true ∧ num_lt s d = true
  ∧ num_lt s e = true ∧ num_le e d = true.
Proof.
  intros s e d.
  destruct (@C3_validate_time_range builtins
              (Some (md (VFloat (float_lit 10 0)) VNone)) (Some s) (Some e))
    as (_ & _ & Hconv).
  destruct (Hconv (md (VFloat (float_lit 10 0)) VNone) (VFloat (float_lit 10 0))
              (float_lit 10 0) eq_refl) as (_ & _ & Hbounds);
    [vm_compute; reflexivity..|].
  split; [vm_compute; reflexivity|].
  apply Hbounds; vm_compute; reflexivity.
Defined.

(** C3 as stated fails on a NaN start time: no test of the validator is
    true on NaN, so the pair is returned, and its start is not [>= 0]. *)
Lemma C3_validate_time_range_counterexample :
  let d := NFloat (float_lit 10 0) in
  let r := @_validate_time_range builtins (Some (md (VFloat (float_lit 10 0)) VNone))
             (Some (NFloat nan)) None in
  num_gt d (NInt 0) = true
  ∧ ¬ (raises r ValueError
       ∨ ∃ s e, r = Ok (s, e)
                ∧ num_le (NInt 0) s = true ∧ num_lt s d = true
                ∧ num_lt s e = true ∧ num_le e d = true).
Proof.
  intros d r. split; [vm_compute; reflexivity|].
  assert (r = Ok (NFloat nan, d)) as -> by (vm_compute; reflexivity).
  intros [[site Hr]|(s & e & Hr & Hs & _)]; [discriminate|].
  injection Hr as <- <-. vm_compute in Hs. discriminate.
Defined.

(** C7 at [fps = 5] and an average frame rate given as the int 25. *)
Lemma C7_validate_fps_and_avg_fps_witness :
  @_validate_fps (VInt 5) = Ok (VInt 5)
  ∧ ∃ f, @_validate_avg_fps builtins (Some (md VNone (VInt 25))) = Ok f
         ∧ (num_gt (NFloat f) (NInt 0) = true ∨ is_nan (NFloat f) = true).
Proof.
  destruct (@C7_validate_fps_and_avg_fps builtins (VInt 5) (Some (md VNone (VInt 25))))
    as (_ & Hfps & _ & _ & Havg).
  split.
  - apply Hfps. intros [site Hr]. vm_compute in Hr. discriminate.
  - destruct (Havg (md VNone (VInt 25)) (VInt 25) eq_refl) as (_ & Hret).
    + vm_compute. reflexivity.
    + intros [site Hr]. vm_compute in Hr. discriminate.
    + destruct Hret as (f & _ & Hf & Hpos).
      * intros [site Hr]. vm_compute in Hr. discriminate.
      * exists f. split; assumption.
Defined.

(** C7 as stated fails twice: a NaN frame rate is not positive and is
    returned; an int beyond the float range cannot be converted and
    raises OverflowError, which [_validate_avg_fps] does not turn into a
    ValueError. *)
Lemma C7_validate_fps_and_avg_fps_counterexample :
  let huge := VInt (10 ^ 400) in
  (num_gt (NFloat nan) (NInt 0) = false
   ∧ ¬ raises (@_validate_avg_fps builtins (Some (md VNone (VFloat nan)))) ValueError)
  ∧ (raises (@py_float builtins huge) OverflowError
     ∧ ¬ raises (@_validate_avg_fps builtins (Some (md VNone huge))) ValueError).
Proof.
  intros huge. split; split.
  - reflexivity.
  - intros [site Hr]. vm_compute in Hr. discriminate.
  - exists AtBuiltin. vm_compute. reflexivity.
  - intros [site Hr]. vm_compute in Hr. discriminate.
Defined.

(** C8 at 50 frames per second requested from a 25 fps video. *)
Lemma C8_uniform_fps_must_not_exceed_source_witness :
  @UniformFramesStrategy.extract_frames builtins world "clip.mp4" "out" (VInt 50)
    (Some (NInt (-1))) None (Some (md VNone (VInt 25))) false
  = (raise ValueError AtFpsExceedsSource, []).
Proof.
  destruct (@C8_uniform_fps_must_not_exceed_source builtins world "clip.mp4" "out"
              (VInt 50) (VInt 50) (Some (NInt (-1))) None (Some (md VNone (VInt 25)))
              false (float_lit 25 0)) as [Hexceeds _].
  - reflexivity.
  - vm_compute. reflexivity.
  - apply Hexceeds. vm_compute. reflexivity.
Defined.

(** C4 at a video file that does not exist: the constructor raises and
    no command is issued. *)
Lemma C4_order_of_operations_witness :
  filter is_command
    (@run builtins world "missing.mp4" false (Some "out") (VInt 5) None None
       (ArgStrategy ClsUniform) false).2 = [].
Proof.
  destruct (@C4_order_of_operations builtins world "missing.mp4" false (Some "out")
              (VInt 5) None None (ArgStrategy ClsUniform) false)
    as (_ & Hraises & _).
  apply Hraises. eexists. vm_compute. reflexivity.
Defined.

(** C5 at a name in mixed case. *)
Lemma C5_get_strategy_class_witness : get_strategy_class "UniForm" = Ok ClsUniform.
Proof.
  destruct (C5_get_strategy_class "UniForm") as (_ & _ & Huniform & _).
  apply Huniform. reflexivity.
Defined.

(** C6 at the clip's report, asked for the duration alone. *)
Lemma C6_metadata_keys_witness :
  ∃ selected,
    (@get_metadata builtins world extractor (Some ["duration"])).1 = Ok (Some selected)
    ∧ selected !! "duration" = Some (VFloat (float_lit 1 0))
    ∧ selected !! "codec" = None.
Proof.
  destruct (@C6_metadata_keys builtins world extractor report_text report_info)
    as (_ & _ & _ & Hfields).
  - reflexivity.
  - vm_cast_no_check (eq_refl (Ok report_info)).
  - destruct (Hfields ["duration"]) as (selected & Hget & Hlookup); [discriminate|].
    exists selected. split; [exact Hget|].
    split; rewrite Hlookup; vm_compute; reflexivity.
Defined.

(** C6 as stated fails twice: with the empty list of fields every entry
    is returned, not none; and a report that is parsed but holds no
    stream yields None, not a dictionary. *)
Lemma C6_metadata_keys_counterexample :
  ¬ (∃ selected,
       (@get_metadata builtins world extractor (Some [])).1 = Ok (Some selected)
       ∧ ∀ k, is_Some (selected !! k) → k ∈ ([] : list string))
  ∧ (∃ output parsed,
       @check_output world_no_streams (ffprobe_command (video_path extractor)) = Ok output
       ∧ @json_loads builtins output = Ok parsed
       ∧ (@get_metadata builtins world_no_streams extractor None).1 = Ok None).
Proof.
  split.
  - intros (selected & Hget & Hkeys).
    assert ((@get_metadata builtins world extractor (Some [])).1
            = Ok (Some report_info)) as Hall
      by vm_cast_no_check (eq_refl (Ok (Some report_info))).
    rewrite Hall in Hget. injection Hget as <-.
    assert (is_Some (report_info !! "codec")) as Hcodec by (vm_compute; eauto).
    apply Hkeys, elem_of_nil in Hcodec. exact Hcodec.
  - exists "{no streams}", (VDict (<["streams" := VList []]> ∅)).
    repeat split; vm_compute; reflexivity.
Defined.



(* ================================================================== *)
(** * Part VI.  Further properties of the code                         *)
(* ================================================================== *)

Section MoreComparisons.

Lemma SFcompare_refl (f : float) : f ≠ S754_nan → SFcompare f f = Some Eq.
Proof.
  destruct f as [s|s| |s m e]; simpl; intros Hf; try done.
  - by destruct s.
  - rewrite Z.compare_refl, Pos.compare_cont_refl. by destruct s.
Qed.

Lemma num_compare_refl (a : pynum) : is_nan a = false → num_compare a a = Some Eq.
Proof.
  destruct a as [z|f]; simpl; intros Ha.
  - by rewrite Z.compare_refl.
  - apply SFcompare_refl. by intros ->.
Qed.

Lemma num_gt_not_nan (a b : pynum) : num_gt a b = true → is_nan a = false.
Proof.
  unfold num_gt. destruct (num_compare a b) eqn:E; [|done]. intros _.
  destruct (is_nan a) eqn:Ha; [|done].
  assert (num_compare a b = None) as E' by (apply num_compare_None; by left).
  congruence.
Qed.

Lemma num_gt_le_excl (a b : pynum) : num_gt a b = true → num_le a b = false.
Proof. unfold num_gt, num_le. by destruct (num_compare a b) as [[]|]. Qed.
End MoreComparisons.

Section MoreValidation.
Context `{Builtins} `{World}.

(** X1.  With neither time given, [_validate_time_range] selects the whole
    video, from the int 0 to the duration, for every positive duration;
    [AllFramesStrategy.extract_frames] then runs the extraction tool once,
    on that window, in passthrough mode. *)
Theorem X1_no_times_select_the_whole_video (video_path output_dir : Path) (fps : pyval)
    (m : gmap string pyval) (v : pyval) (d : float) (reset_indices : bool) :
  m !! "duration" = Some v →
  py_float v = Ok d →
  num_gt (NFloat d) (NInt 0) = true →
  _validate_time_range (Some m) None None = Ok (NInt 0, NFloat d)
  ∧ AllFramesStrategy.extract_frames video_path output_dir fps None None (Some m)
      reset_indices
    = let command := ffmpeg_command video_path ["-fps_mode"; "passthrough"] output_dir
                       (NInt 0) (NFloat d) reset_indices in
      (subprocess_run command, [EvFfmpeg command]).
Proof.
  intros Hm Hv Hpos.
  assert (_validate_time_range (Some m) None None = Ok (NInt 0, NFloat d)) as Hrange.
  { rewrite (validate_time_range_converted m v d None None Hm Hv). simpl.
    rewrite (num_gt_le_excl _ _ Hpos).
    rewrite num_ge_le, (num_gt_le_excl _ _ Hpos). simpl.
    assert (num_gt (NFloat d) (NFloat d) = false) as ->; [|done].
    unfold num_gt. by rewrite num_compare_refl by apply (num_gt_not_nan _ _ Hpos). }
  split; [exact Hrange|].
  unfold AllFramesStrategy.extract_frames. by rewrite Hrange, IO_bind_lift_Ok.
Qed.

(** X2.  No strategy runs the extraction tool before its validation has
    passed: a command in the trace means the time range was validated
    against the metadata; for the uniform and the fixed-random strategy it
    also means that [fps] is a positive integer and the metadata's average
    frame rate was accepted; for the uniform strategy, moreover, that [fps]
    does not exceed that rate. *)
Theorem X2_no_command_before_validation (cls : strategy_class)
    (video_path output_dir : Path) (fps : pyval) (start_time end_time : option pynum)
    (metadata : option (gmap string pyval)) (reset_indices : bool) (cmd : list string) :
  EvFfmpeg cmd ∈ (strategy_extract_frames cls video_path output_dir fps start_time
                    end_time metadata reset_indices).2 →
  (∃ s e, _validate_time_range metadata start_time end_time = Ok (s, e))
  ∧ (cls ≠ ClsAll →
       ∃ z avg_fps,
         _validate_fps fps = Ok fps ∧ as_int fps = Some z ∧ (0 < z)%Z
         ∧ _validate_avg_fps metadata = Ok avg_fps
         ∧ (cls = ClsUniform → num_gt (NInt z) (NFloat avg_fps) = false)).
Proof.
  intros Hin. destruct cls; simpl in Hin.
  - unfold AllFramesStrategy.extract_frames in Hin.
    destruct (_validate_time_range metadata start_time end_time) as [[s e]|err];
      [|by apply elem_of_nil in Hin].
    split; [by exists s, e|done].
  - unfold UniformFramesStrategy.extract_frames in Hin.
    destruct (_validate_fps fps) as [v|err] eqn:Hfps; [|by apply elem_of_nil in Hin].
    rewrite IO_bind_lift_Ok in Hin.
    destruct (_validate_avg_fps metadata) as [avg_fps|err] eqn:Havg;
      [|by apply elem_of_nil in Hin].
    rewrite IO_bind_lift_Ok in Hin.
    destruct (num_gt _ _) eqn:Hgt; [by apply elem_of_nil in Hin|].
    destruct (_validate_time_range metadata start_time end_time) as [[s e]|err];
      [|by apply elem_of_nil in Hin].
    split; [by exists s, e|]. intros _.
    destruct (validate_fps_Ok _ _ Hfps) as (-> & z & Hz & Hpos).
    exists z, avg_fps. repeat split; try done.
    intros _. unfold int_value in Hgt. by rewrite Hz in Hgt.
  - unfold FixedRandomFramesStrategy.extract_frames in Hin.
    destruct (_validate_fps fps) as [v|err] eqn:Hfps; [|by apply elem_of_nil in Hin].
    rewrite IO_bind_lift_Ok in Hin.
    destruct (_validate_avg_fps metadata) as [avg_fps|err] eqn:Havg;
      [|by apply elem_of_nil in Hin].
    rewrite IO_bind_lift_Ok in Hin.
    destruct (_validate_time_range metadata start_time end_time) as [[s e]|err];
      [|by apply elem_of_nil in Hin].
    split; [by exists s, e|]. intros _.
    destruct (validate_fps_Ok _ _ Hfps) as (-> & z & Hz & Hpos).
    exists z, avg_fps. by repeat split.
Qed.
End MoreValidation.

Section MoreSelection.
Context `{Builtins} `{World}.

(** What every returned list of frame indices satisfies, empty or not. *)
Lemma select_random_frames_returned (fps : Z) (avg_fps : float) (s e : pynum)
    (l : list Z) :
  FixedRandomFramesStrategy._select_random_frames fps avg_fps s e = Ok l →
  ∃ start_frame end_frame,
    FixedRandomFramesStrategy.frame_index s avg_fps = Ok start_frame
    ∧ FixedRandomFramesStrategy.frame_index e avg_fps = Ok end_frame
    ∧ NoDup l ∧ StronglySorted Z.lt l
    ∧ (∀ i, i ∈ l → (start_frame ≤ i < end_frame)%Z)
    ∧ (Z.of_nat (length l) ≤ Z.max 0 fps)%Z
    ∧ (Z.of_nat (length l) ≤ Z.max 0 (end_frame - start_frame))%Z.
Proof.
  intros E.
  destruct (select_random_frames_Ok _ _ _ _ _ E) as (sf & ef & Hs & He).
  exists sf, ef. split; [done|]. split; [done|].
  rewrite (select_random_frames_indexed fps avg_fps _ _ _ _ Hs He) in E.
  destruct (_ <=? 0)%Z eqn:Hrange.
  { injection E as <-. split; [constructor|]. split; [constructor|].
    split; [intros i Hi; by apply elem_of_nil in Hi|]. simpl. lia. }
  destruct (random_sample _ _) as [samples|] eqn:Hsample; [|discriminate].
  simpl in E. injection E as <-.
  apply random_sample_Ok in Hsample as (Hk & Hlen & Hnd & Hin).
  assert (NoDup (sorted samples)) as Hnd'.
  { rewrite sorted_Permutation. apply Hnd, NoDup_seqZ. }
  split; [done|].
  split; [apply ascending_NoDup_strict; [apply sorted_ascending|done]|].
  split.
  { intros i Hi. rewrite sorted_Permutation in Hi. by apply py_range_elem_of, Hin. }
  rewrite sorted_length, Hlen. lia.
Qed.

(** X3.  When the fixed-random strategy runs the extraction tool, the
    command carries the select filter of a list of frame indices that are
    pairwise distinct, strictly ascending and no more than the [fps]
    requested, followed by [-vsync vfr], on the validated time window. *)
Theorem X3_fixed_random_command (video_path output_dir : Path) (fps : pyval)
    (start_time end_time : option pynum) (metadata : option (gmap string pyval))
    (reset_indices : bool) (cmd : list string) :
  EvFfmpeg cmd ∈ (FixedRandomFramesStrategy.extract_frames video_path output_dir fps
                    start_time end_time metadata reset_indices).2 →
  ∃ z avg_fps s e l,
    as_int fps = Some z ∧ (0 < z)%Z
    ∧ _validate_avg_fps metadata = Ok avg_fps
    ∧ _validate_time_range metadata start_time end_time = Ok (s, e)
    ∧ FixedRandomFramesStrategy._select_random_frames z avg_fps s e = Ok l
    ∧ NoDup l ∧ StronglySorted Z.lt l ∧ (Z.of_nat (length l) ≤ z)%Z
    ∧ cmd = ffmpeg_command video_path
              ["-vf";
               "select='" +:+ FixedRandomFramesStrategy._build_select_filter l +:+ "'";
               "-vsync"; "vfr"]
              output_dir s e reset_indices.
Proof.
  unfold FixedRandomFramesStrategy.extract_frames. intros Hin.
  destruct (_validate_fps fps) as [v|err] eqn:Hfps; [|by apply elem_of_nil in Hin].
  rewrite IO_bind_lift_Ok in Hin.
  destruct (_validate_avg_fps metadata) as [avg_fps|err] eqn:Havg;
    [|by apply elem_of_nil in Hin].
  rewrite IO_bind_lift_Ok in Hin.
  destruct (_validate_time_range metadata start_time end_time) as [[s e]|err] eqn:Ht;
    [|by apply elem_of_nil in Hin].
  rewrite IO_bind_lift_Ok in Hin.
  destruct (FixedRandomFramesStrategy._select_random_frames _ _ _ _) as [l|err] eqn:Hl;
    [|by apply elem_of_nil in Hin].
  rewrite IO_bind_lift_Ok in Hin.
  apply list_elem_of_singleton in Hin. injection Hin as ->.
  destruct (validate_fps_Ok _ _ Hfps) as (-> & z & Hz & Hpos).
  unfold int_value in Hl. rewrite Hz in Hl. simpl in Hl.
  destruct (select_random_frames_returned _ _ _ _ _ Hl)
    as (sf & ef & _ & _ & Hnd & Hsorted & _ & Hlen & _).
  exists z, avg_fps, s, e, l. repeat split; try done. lia.
Qed.


(** X5.  A window that starts at time 0, which is what a missing start
    time stands for, starts at frame 0 whatever finite frame rate the
    video has; with an infinite frame rate the product [0 * avg_fps] is
    NaN and [int()] raises ValueError. *)
Theorem X5_window_starts_at_frame_zero (avg_fps : float) :
  (match avg_fps with
   | S754_zero _ | S754_finite _ _ _ => True
   | _ => False
   end →
   FixedRandomFramesStrategy.frame_index (NInt 0) avg_fps = Ok 0%Z)
  ∧ (∀ sign, avg_fps = S754_infinity sign →
       FixedRandomFramesStrategy.frame_index (NInt 0) avg_fps
       = raise ValueError AtBuiltin).
Proof.
  split.
  - destruct avg_fps; simpl; intros Hfinite; try done.
  - intros sign ->. reflexivity.
Qed.
End MoreSelection.

Section FilterText.

(** The decimal digits of a number hold no closing parenthesis. *)
Lemma uint_digits_no_paren (d : Decimal.uint) (u v : string) :
  NilEmpty.string_of_uint d ≠ u +:+ String ")" v.
Proof.
  revert u. induction d; intros [|c u]; simpl; try discriminate;
    intros E; injection E as _ E; by apply IHd in E.
Qed.

Lemma str_of_int_no_paren (z : Z) (u v : string) : str_of_int z ≠ u +:+ String ")" v.
Proof.
  unfold str_of_int, NilZero.string_of_int, NilZero.string_of_uint.
  destruct (Z.to_int z) as [d|d].
  - destruct d; try apply uint_digits_no_paren.
    destruct u as [|c [|c' u]]; simpl; discriminate.
  - destruct u as [|c u]; simpl; [discriminate|]. intros E. injection E as _ E.
    revert E. destruct d; try apply uint_digits_no_paren.
    destruct u as [|c' [|c'' u]]; simpl; discriminate.
Qed.

(** [str(int)] is one-to-one. *)
Lemma str_of_int_inj (a b : Z) : str_of_int a = str_of_int b → a = b.
Proof.
  unfold str_of_int. intros E.
  assert (∀ z, NilZero.int_of_string (NilZero.string_of_int (Z.to_int z))
               = Some (Z.to_int z)) as Hparse.
  { intros z. apply NilZero.isi; destruct z; simpl; try discriminate;
      intros [= E']; by apply DecimalPos.Unsigned.to_uint_nonnil in E'. }
  assert (Some (Z.to_int a) = Some (Z.to_int b)) as E'
    by (rewrite <- !Hparse; by rewrite E).
  injection E' as E'. rewrite <- (DecimalZ.of_to a), <- (DecimalZ.of_to b). by rewrite E'.
Qed.

(** Two texts that agree up to and after their first closing parenthesis. *)
Lemma split_at_paren (u u' v v' : string) :
  (∀ x y, u ≠ x +:+ String ")" y) → (∀ x y, u' ≠ x +:+ String ")" y) →
  u +:+ String ")" v = u' +:+ String ")" v' → u = u' ∧ v = v'.
Proof.
  revert u'. induction u as [|c u IH]; intros [|c' u'] Hu Hu'; simpl; intros E.
  - by injection E.
  - injection E as <- _. exfalso. by apply (Hu' "" u').
  - injection E as -> _. exfalso. by apply (Hu "" u).
  - injection E as -> E. destruct (IH u') as [-> ->]; try done.
    + intros x y ->. by apply (Hu (String c' x) y).
    + intros x y ->. by apply (Hu' (String c' x) y).
Qed.

Lemma str_app_assoc (x y z : string) : (x +:+ y) +:+ z = x +:+ (y +:+ z).
Proof.
  induction x as [|c x IH]; [reflexivity|].
  change (String c ((x +:+ y) +:+ z) = String c (x +:+ (y +:+ z))). by rewrite IH.
Qed.

Lemma str_app_nil_r (x : string) : x +:+ "" = x.
Proof.
  induction x as [|c x IH]; [reflexivity|].
  change (String c (x +:+ "") = String c x). by rewrite IH.
Qed.

Lemma str_app_inv_head (x y z : string) : x +:+ y = x +:+ z → y = z.
Proof.
  induction x as [|c x IH]; [done|].
  change (String c (x +:+ y) = String c (x +:+ z) → y = z).
  intros E. injection E as E. by apply IH.
Qed.

(** X6.  The select filter determines the frame list: two lists of frame
    indices with the same filter text are the same list. *)
Theorem X6_select_filter_is_unambiguous (l l' : list Z) :
  FixedRandomFramesStrategy._build_select_filter l
  = FixedRandomFramesStrategy._build_select_filter l' →
  l = l'.
Proof.
  set (term := λ idx : Z, "eq(n\," +:+ str_of_int idx +:+ ")").
  assert (∀ a b u v, term a +:+ u = term b +:+ v → a = b ∧ u = v) as Hterm.
  { intros a b u v E. unfold term in E.
    rewrite !str_app_assoc in E. apply str_app_inv_head in E.
    change (str_of_int a +:+ String ")" u = str_of_int b +:+ String ")" v) in E.
    apply split_at_paren in E as [E ->]; try apply str_of_int_no_paren.
    split; [by apply str_of_int_inj|done]. }
  unfold FixedRandomFramesStrategy._build_select_filter, str_join. fold term.
  revert l'. induction l as [|a [|a' l] IH]; intros [|b [|b' l']] E.
  - done.
  - discriminate.
  - discriminate.
  - discriminate.
  - change (term a = term b) in E.
    rewrite <- (str_app_nil_r (term a)), <- (str_app_nil_r (term b)) in E.
    by apply Hterm in E as [-> _].
  - change (term a = term b +:+ "+" +:+ String.concat "+" (term <$> b' :: l')) in E.
    rewrite <- (str_app_nil_r (term a)) in E. apply Hterm in E as [_ E]. discriminate.
  - discriminate.
  - change (term a +:+ "+" +:+ String.concat "+" (term <$> a' :: l) = term b) in E.
    rewrite <- (str_app_nil_r (term b)) in E. apply Hterm in E as [_ E]. discriminate.
  - change (term a +:+ "+" +:+ String.concat "+" (term <$> a' :: l)
            = term b +:+ "+" +:+ String.concat "+" (term <$> b' :: l')) in E.
    apply Hterm in E as [-> E]. injection E as E.
    by rewrite (IH (b' :: l') E).
Qed.
End FilterText.

Section MoreLookup.

(** X7.  Every strategy class is found under its own [STRATEGY_NAME], and
    under no other class's: the names are lower-case already and pairwise
    different, so the lookup loop shadows no class. *)
Theorem X7_every_strategy_is_found_by_its_name (cls : strategy_class) :
  get_strategy_class (STRATEGY_NAME cls) = Ok cls
  ∧ lower (STRATEGY_NAME cls) = STRATEGY_NAME cls
  ∧ (∀ cls', get_strategy_class (STRATEGY_NAME cls') = Ok cls → cls' = cls).
Proof.
  split; [by destruct cls|]. split; [by destruct cls|].
  intros cls'. by destruct cls, cls'.
Qed.
End MoreLookup.

Section OutputDirectory.
Context `{World}.

End OutputDirectory.

Section Constructor.
Context `{Builtins} `{World}.

(** The output-directory step of the constructor. *)
Lemma init_output_dir_step (output_dir : option Path) :
  let step := match output_dir with
              | Some d => d ← validate_output_path d true; pure (Some d)
              | None => pure None
              end in
  step.2 = match output_dir with
           | Some d =>
               match path_exists d with
               | Some false => [EvMkdir d]
               | _ => []
               end
           | None => []
           end
  ∧ step.1 = match output_dir with
             | Some d =>
                 match path_exists d with
                 | None => raise OSError AtBuiltin
                 | Some true =>
                     match path_is_dir d with
                     | None => raise OSError AtBuiltin
                     | Some true => Ok (Some d)
                     | Some false => raise NotADirectoryError AtOutputNotDir
                     end
                 | Some false =>
                     if fs_mkdir d then Ok (Some d)
                     else raise OSError AtOutputCreate
                 end
             | None => Ok None
             end.
Proof.
  destruct output_dir as [d|]; [|done]. cbv zeta. rewrite validate_output_path_eq.
  by destruct (path_exists d) as [[]|], (path_is_dir d) as [[]|], (fs_mkdir d).
Qed.

(** The constructor, as its path checks, its output-directory step and the
    checks that follow. *)
Lemma init_unfolded (video_path : Path) (allow_any_extension : bool)
    (output_dir : option Path) (fps : pyval) (start_time end_time : option pynum)
    (strategy : strategy_arg) (reset_indices : bool) :
  VideoFrameExtractor.__init__ video_path allow_any_extension output_dir fps start_time
    end_time strategy reset_indices
  = if negb (fs_exists video_path) then (raise FileNotFoundError AtVideoMissing, [])
    else if negb allow_any_extension
            && negb (bool_decide (lower (path_suffix video_path) ∈ VALID_VIDEO_EXTENSIONS))
    then (raise ValueError AtUnsupportedFormat, [])
    else
     (match output_dir with
      | Some d =>
          match path_exists d with
          | None => raise OSError AtBuiltin
          | Some true =>
              match path_is_dir d with
              | None => raise OSError AtBuiltin
              | Some true => Ok (Some d)
              | Some false => raise NotADirectoryError AtOutputNotDir
              end
          | Some false =>
              if fs_mkdir d then Ok (Some d)
              else raise OSError AtOutputCreate
          end
      | None => Ok None
      end ≫= λ self_output_dir,
      (if VideoFrameExtractor.is_None fps then Ok false
       else VideoFrameExtractor.le_zero fps) ≫= λ fps_bad : bool,
      if fps_bad then raise ValueError AtFpsNotPositive
      else if match start_time with
              | Some s => num_lt s (NInt 0)
              | None => false
              end
      then raise ValueError AtStartNegative
      else if match end_time with
              | Some e => num_lt e (NInt 0)
              | None => false
              end
      then raise ValueError AtEndNegative
      else if match end_time, start_time with
              | Some e, Some s => num_le e s
              | _, _ => false
              end
      then raise ValueError AtEndNotAfterStart
      else
        match strategy with
        | ArgOther true => raise TypeError AtStrategyType
        | _ =>
            Ok {| VideoFrameExtractor.video_path := video_path;
                  VideoFrameExtractor.output_dir := self_output_dir;
                  VideoFrameExtractor.fps := fps;
                  VideoFrameExtractor.start_time := start_time;
                  VideoFrameExtractor.end_time := end_time;
                  VideoFrameExtractor.strategy :=
                    match strategy with
                    | ArgStrategy cls => cls
                    | _ => ClsAll
                    end;
                  VideoFrameExtractor.reset_indices := reset_indices |}
        end,
      match output_dir with
      | Some d =>
          match path_exists d with
          | Some false => [EvMkdir d]
          | _ => []
          end
      | None => []
      end).
Proof.
  unfold VideoFrameExtractor.__init__.
  destruct (negb (fs_exists video_path)); [reflexivity|].
  destruct (negb allow_any_extension && _); [reflexivity|].
  destruct output_dir as [d|];
    [rewrite validate_output_path_eq;
     destruct (path_exists d) as [[]|], (path_is_dir d) as [[]|], (fs_mkdir d)|];
    simpl; try reflexivity;
    (destruct (VideoFrameExtractor.is_None fps);
     [|destruct (VideoFrameExtractor.le_zero fps) as [[]|]]);
    simpl; try reflexivity;
    repeat match goal with
           | |- context [if ?b then _ else _] => destruct b; simpl; try reflexivity
           end;
    destruct strategy as [| |[]]; reflexivity.
Qed.

(** X9.  The constructor returns exactly when the video path exists, its
    extension is allowed, the output directory (if given) is a directory or
    could be created, [fps] is None or not [<= 0], no given time is
    negative, a given end time is not [<=] a given start time, and the
    strategy argument is not a truthy object of another type; the
    orchestrator it returns holds the arguments, with AllFramesStrategy in
    place of a missing or falsy strategy. *)
Theorem X9_constructor_returns_exactly_when (video_path : Path)
    (allow_any_extension : bool) (output_dir : option Path) (fps : pyval)
    (start_time end_time : option pynum) (strategy : strategy_arg)
    (reset_indices : bool) (self : VideoFrameExtractor.t) :
  (VideoFrameExtractor.__init__ video_path allow_any_extension output_dir fps
     start_time end_time strategy reset_indices).1 = Ok self
  ↔ fs_exists video_path = true
    ∧ (allow_any_extension = true
       ∨ lower (path_suffix video_path) ∈ VALID_VIDEO_EXTENSIONS)
    ∧ (∀ d, output_dir = Some d →
         path_exists d = Some true ∧ path_is_dir d = Some true
         ∨ path_exists d = Some false ∧ fs_mkdir d = true)
    ∧ (fps = VNone ∨ VideoFrameExtractor.le_zero fps = Ok false)
    ∧ (∀ s, start_time = Some s → num_lt s (NInt 0) = false)
    ∧ (∀ e, end_time = Some e → num_lt e (NInt 0) = false)
    ∧ (∀ s e, start_time = Some s → end_time = Some e → num_le e s = false)
    ∧ strategy ≠ ArgOther true
    ∧ self = {| VideoFrameExtractor.video_path := video_path;
                VideoFrameExtractor.output_dir := output_dir;
                VideoFrameExtractor.fps := fps;
                VideoFrameExtractor.start_time := start_time;
                VideoFrameExtractor.end_time := end_time;
                VideoFrameExtractor.strategy :=
                  match strategy with
                  | ArgStrategy cls => cls
                  | _ => ClsAll
                  end;
                VideoFrameExtractor.reset_indices := reset_indices |}.
Proof.
  rewrite init_unfolded. split.
  - destruct (fs_exists video_path) eqn:Hvp; simpl; [|discriminate].
    destruct (negb allow_any_extension && _) eqn:Hext; [discriminate|]. simpl.
    intros E. apply result_bind_Ok in E as (od & Hod & E).
    apply result_bind_Ok in E as (bad & Hfps & E).
    destruct bad; [discriminate|].
    destruct (match start_time with Some _ => _ | None => _ end) eqn:Hs; [discriminate|].
    destruct (match end_time with Some _ => _ | None => _ end) eqn:He; [discriminate|].
    destruct (match end_time with Some _ => _ | None => _ end) eqn:Hse in E; [discriminate|].
    split; [done|]. split.
    { apply andb_false_iff in Hext as [Ha|Hv].
      - left. by destruct allow_any_extension.
      - right. apply negb_false_iff in Hv. by apply bool_decide_eq_true in Hv. }
    split.
    { intros d ->.
      destruct (path_exists d) as [[]|], (path_is_dir d) as [[]|], (fs_mkdir d);
        simpl in Hod; try discriminate; auto. }
    split.
    { destruct (VideoFrameExtractor.is_None fps) eqn:Hn; [left; by destruct fps|by right]. }
    split; [by intros s ->|]. split; [by intros e ->|]. split; [by intros s e -> ->|].
    assert (od = output_dir) as ->.
    { destruct output_dir as [d|]; [|by injection Hod].
      destruct (path_exists d) as [[]|], (path_is_dir d) as [[]|], (fs_mkdir d);
        simpl in Hod; try discriminate; by injection Hod. }
    destruct strategy as [| |[]]; simpl in E; try discriminate;
      injection E as <-; by split.
  - intros (Hvp & Hext & Hod & Hfps & Hs & He & Hse & Hstrategy & ->).
    rewrite Hvp. simpl.
    assert (negb allow_any_extension
            && negb (bool_decide (lower (path_suffix video_path) ∈ VALID_VIDEO_EXTENSIONS))
            = false) as ->.
    { destruct Hext as [->|Hin]; [done|].
      rewrite (bool_decide_eq_true_2 _ Hin). by destruct allow_any_extension. }
    simpl.
    assert (match output_dir with
            | Some d =>
                match path_exists d with
                | None => raise OSError AtBuiltin
                | Some true =>
                    match path_is_dir d with
                    | None => raise OSError AtBuiltin
                    | Some true => Ok (Some d)
                    | Some false => raise NotADirectoryError AtOutputNotDir
                    end
                | Some false =>
                    if fs_mkdir d then Ok (Some d)
                    else raise OSError AtOutputCreate
                end
            | None => Ok None
            end = Ok output_dir) as ->.
    { destruct output_dir as [d|]; [|done].
      by destruct (Hod d eq_refl) as [[-> ->]|[-> ->]]. }
    simpl.
    assert ((if VideoFrameExtractor.is_None fps then Ok false
             else VideoFrameExtractor.le_zero fps) = Ok false) as ->.
    { destruct Hfps as [->|Hle]; [done|].
      by destruct (VideoFrameExtractor.is_None fps). }
    simpl.
    assert (match start_time with
            | Some s => num_lt s (NInt 0)
            | None => false
            end = false) as ->
      by (destruct start_time as [s|]; [by apply Hs|done]).
    assert (match end_time with
            | Some e => num_lt e (NInt 0)
            | None => false
            end = false) as ->
      by (destruct end_time as [e|]; [by apply He|done]).
    assert (match end_time, start_time with
            | Some e, Some s => num_le e s
            | _, _ => false
            end = false) as ->
      by (destruct end_time as [e|], start_time as [s|]; try done; by apply Hse).
    by destruct strategy as [| |[]].
Qed.

End Constructor.

Section MoreOrchestration.
Context `{Builtins} `{World}.

(** The six entries of [video_info]. *)
Lemma read_video_info_shape (output : string) (video_info : gmap string pyval) :
  VideoFrameExtractor.read_video_info output = Ok video_info →
  ∃ codec resolution avg_fps duration total_frames bitrate,
    video_info
    = <["codec" := codec]>
        (<["resolution" := VStr resolution]>
          (<["avg_fps" := avg_fps]>
            (<["duration" := VFloat duration]>
              (<["total_frames" := VInt total_frames]>
                (<["bitrate" := VInt bitrate]> ∅))))).
Proof.
  unfold VideoFrameExtractor.read_video_info. intros E.
  repeat (apply result_bind_Ok in E as (? & ? & E)).
  injection E as <-. by do 6 eexists.
Qed.

(** What [extract_frames] hands to the strategy. *)
Lemma orchestrated_metadata (self : VideoFrameExtractor.t) (md : gmap string pyval) :
  (VideoFrameExtractor.get_metadata self (Some ["duration"; "avg_fps"])).1 = Ok (Some md) →
  ∃ d avg_fps, md = <["avg_fps" := avg_fps]> (<["duration" := VFloat d]> ∅).
Proof.
  destruct (check_output (VideoFrameExtractor.ffprobe_command
                            (VideoFrameExtractor.video_path self)))
    as [output|e] eqn:Hprobe.
  2:{ rewrite (get_metadata_not_probed _ _ _ Hprobe). by destruct (is_Exception _). }
  rewrite (get_metadata_probed _ _ _ Hprobe), parse_probe_output_eq.
  destruct (VideoFrameExtractor.read_video_info output) as [info|e] eqn:Hinfo.
  2:{ simpl. by destruct (is_Exception _). }
  intros E. injection E as <-.
  destruct (read_video_info_shape _ _ Hinfo) as (c & r & a & d & t & b & ->).
  exists d, a. reflexivity.
Qed.


(** X12.  The metadata that [extract_frames] hands to a strategy holds
    exactly the keys 'duration' and 'avg_fps', the duration as a float.  So,
    behind the orchestrator, the time-range validation returns or raises
    one of its own three ValueErrors (invalid duration, start outside, end
    outside), and neither validator ever reports a missing key. *)
Theorem X12_orchestrated_metadata_is_complete (self : VideoFrameExtractor.t)
    (md : gmap string pyval) (start_time end_time : option pynum) :
  (VideoFrameExtractor.get_metadata self (Some ["duration"; "avg_fps"])).1 = Ok (Some md) →
  dom md = {[ "duration"; "avg_fps" ]}
  ∧ (∃ d, md !! "duration" = Some (VFloat d))
  ∧ ((∃ s e, _validate_time_range (Some md) start_time end_time = Ok (s, e))
     ∨ _validate_time_range (Some md) start_time end_time
       = raise ValueError AtDurationInvalid
     ∨ _validate_time_range (Some md) start_time end_time
       = raise ValueError AtStartOutside
     ∨ _validate_time_range (Some md) start_time end_time
       = raise ValueError AtEndOutside)
  ∧ (∀ c, _validate_avg_fps (Some md) ≠ raise c AtAvgFpsMissing).
Proof.
  intros Hmd. destruct (orchestrated_metadata _ _ Hmd) as (d & avg & ->).
  split; [rewrite !dom_insert_L, dom_empty_L; set_solver|].
  assert ((<["avg_fps" := avg]> (<["duration" := VFloat d]> ∅) : gmap string pyval)
            !! "duration" = Some (VFloat d)) as Hd by done.
  assert ((<["avg_fps" := avg]> (<["duration" := VFloat d]> ∅) : gmap string pyval)
            !! "avg_fps" = Some avg) as Ha by done.
  split; [by exists d|]. split.
  - rewrite (validate_time_range_converted _ (VFloat d) d start_time end_time Hd eq_refl).
    simpl. destruct (num_le _ _); [auto|].
    destruct (_ || _); [auto|]. destruct (_ || _); [auto|]. left. by eexists _, _.
  - intros c. unfold _validate_avg_fps. rewrite Ha.
    destruct (py_float_cases avg) as [[f ->]|[->|[->| ->]]]; simpl; try discriminate.
    destruct (num_le _ _); discriminate.
Qed.
End MoreOrchestration.

Section DefaultMetadata.
Context `{Builtins} `{World}.

Lemma validate_fps_raises_ValueError (fps : pyval) (err : exn) :
  _validate_fps fps = Err err → exn_class err = ValueError.
Proof.
  unfold _validate_fps. destruct fps as [|b|z|f|s|l|d]; simpl;
    try (intros [= <-]; reflexivity).
  - destruct b; simpl; [discriminate|]. by intros [= <-].
  - destruct (z <=? 0)%Z; [|discriminate]. by intros [= <-].
Qed.

(** X13.  A probe report with no 'streams' entry, or whose first stream is
    empty, is read as the default metadata: codec 'Unknown', resolution
    'UnknownxUnknown', the frame rate [eval("0/1")], duration 0.0, no
    frames, bitrate 0.  With that frame rate being 0.0, every strategy then
    refuses to extract: [extract_frames] raises ValueError after the probe
    and never runs the extraction tool. *)
Theorem X13_report_without_streams (self : VideoFrameExtractor.t) (output : string)
    (report : gmap string pyval) (zero_rate : pyval) :
  check_output (VideoFrameExtractor.ffprobe_command (VideoFrameExtractor.video_path self))
  = Ok output →
  json_loads output = Ok (VDict report) →
  (report !! "streams" = None
   ∨ ∃ rest, report !! "streams" = Some (VList (VDict ∅ :: rest))) →
  py_eval "0/1" = Ok zero_rate →
  int_of_str "0" = Some 0%Z →
  (VideoFrameExtractor.get_metadata self None).1
  = Ok (Some (<["codec" := VStr "Unknown"]>
               (<["resolution" := VStr "UnknownxUnknown"]>
                 (<["avg_fps" := zero_rate]>
                   (<["duration" := VFloat (S754_zero false)]>
                     (<["total_frames" := VInt 0]>
                       (<["bitrate" := VInt 0]> ∅)))))))
  ∧ (zero_rate = VFloat (S754_zero false) →
     ∀ out, VideoFrameExtractor.output_dir self = Some out →
       raises (VideoFrameExtractor.extract_frames self).1 ValueError
       ∧ (VideoFrameExtractor.extract_frames self).2
         = [EvProbe (VideoFrameExtractor.ffprobe_command
                       (VideoFrameExtractor.video_path self))]).
Proof.
  intros Hprobe Hjson Hstreams Heval Hint.
  assert (VideoFrameExtractor.read_video_info output
          = Ok (<["codec" := VStr "Unknown"]>
                 (<["resolution" := VStr "UnknownxUnknown"]>
                   (<["avg_fps" := zero_rate]>
                     (<["duration" := VFloat (S754_zero false)]>
                       (<["total_frames" := VInt 0]>
                         (<["bitrate" := VInt 0]> ∅))))))) as Hinfo.
  { unfold VideoFrameExtractor.read_video_info. rewrite Hjson. simpl.
    assert (default (VList [VDict ∅]) (report !! "streams") = VList [VDict ∅]
            ∨ ∃ rest, default (VList [VDict ∅]) (report !! "streams")
                      = VList (VDict ∅ :: rest)) as Hs.
    { destruct Hstreams as [->|[rest ->]]; [by left|right; by exists rest]. }
    destruct Hs as [->|[rest ->]]; simpl; rewrite !lookup_empty; simpl;
      rewrite Heval; simpl; rewrite Hint; reflexivity. }
  split.
  { by rewrite (get_metadata_probed _ _ _ Hprobe), parse_probe_output_eq, Hinfo. }
  intros -> out Hout.
  rewrite extract_frames_eq, (get_metadata_probed _ _ _ Hprobe), parse_probe_output_eq,
    Hinfo, Hout.
  simpl.
  set (md := VideoFrameExtractor.select_fields _ _).
  assert (md = <["avg_fps" := VFloat (S754_zero false)]>
                 (<["duration" := VFloat (S754_zero false)]> ∅)) as -> by reflexivity.
  assert (_validate_time_range
            (Some (<["avg_fps" := VFloat (S754_zero false)]>
                     (<["duration" := VFloat (S754_zero false)]> ∅)))
            (VideoFrameExtractor.start_time self) (VideoFrameExtractor.end_time self)
          = raise ValueError AtDurationInvalid) as Hrange by reflexivity.
  assert (_validate_avg_fps
            (Some (<["avg_fps" := VFloat (S754_zero false)]>
                     (<["duration" := VFloat (S754_zero false)]> ∅)))
          = raise ValueError AtAvgFpsNotPositive) as Havg by reflexivity.
  destruct (VideoFrameExtractor.strategy self); simpl.
  - unfold AllFramesStrategy.extract_frames. rewrite Hrange. simpl.
    split; [by eexists|done].
  - unfold UniformFramesStrategy.extract_frames.
    destruct (_validate_fps (VideoFrameExtractor.fps self)) as [v|[c site]] eqn:Hfps.
    + rewrite IO_bind_lift_Ok, Havg. simpl. split; [by eexists|done].
    + apply validate_fps_raises_ValueError in Hfps. simpl in Hfps. subst c.
      simpl. split; [by eexists|done].
  - unfold FixedRandomFramesStrategy.extract_frames.
    destruct (_validate_fps (VideoFrameExtractor.fps self)) as [v|[c site]] eqn:Hfps.
    + rewrite IO_bind_lift_Ok, Havg. simpl. split; [by eexists|done].
    + apply validate_fps_raises_ValueError in Hfps. simpl in Hfps. subst c.
      simpl. split; [by eexists|done].
Qed.
End DefaultMetadata.

Section AllFrames.
Context `{Builtins} `{World}.

(** X14.  With the all-frames strategy, given or by default, [fps] matters
    to the constructor only, which rejects a value [<= 0]: a run with any
    positive integer [fps] is the run with no [fps] at all. *)
Theorem X14_all_frames_ignores_fps (video_path : Path) (allow_any_extension : bool)
    (output_dir : option Path) (z : Z) (start_time end_time : option pynum)
    (strategy : strategy_arg) (reset_indices : bool) :
  (0 < z)%Z →
  strategy = ArgNone ∨ strategy = ArgStrategy ClsAll ∨ strategy = ArgOther false →
  VideoFrameExtractor.run video_path allow_any_extension output_dir (VInt z)
    start_time end_time strategy reset_indices
  = VideoFrameExtractor.run video_path allow_any_extension output_dir VNone
      start_time end_time strategy reset_indices.
Proof.
  intros Hz Hstrategy. unfold VideoFrameExtractor.run. rewrite !init_unfolded.
  destruct (negb (fs_exists video_path)); [reflexivity|].
  destruct (negb allow_any_extension && _); [reflexivity|].
  assert ((z <=? 0)%Z = false) as Hle by lia.
  destruct output_dir as [d|];
    [destruct (path_exists d) as [[]|], (path_is_dir d) as [[]|], (fs_mkdir d)|];
    simpl; rewrite ?Hle; simpl; try reflexivity;
    repeat match goal with
           | |- context [if ?b then _ else _] => destruct b; simpl; try reflexivity
           end;
    destruct Hstrategy as [->|[->| ->]]; reflexivity.
Qed.
End AllFrames.

Section RunEvents.
Context `{Builtins} `{World}.

(** The orchestrator the constructor returns holds the paths it was given,
    and the constructor creates nothing but the output directory. *)
Lemma init_Ok_paths (video_path : Path) (allow_any_extension : bool)
    (output_dir : option Path) (fps : pyval) (start_time end_time : option pynum)
    (strategy : strategy_arg) (reset_indices : bool) (self : VideoFrameExtractor.t) :
  (VideoFrameExtractor.__init__ video_path allow_any_extension output_dir fps
     start_time end_time strategy reset_indices).1 = Ok self →
  VideoFrameExtractor.video_path self = video_path
  ∧ VideoFrameExtractor.output_dir self = output_dir
  ∧ VideoFrameExtractor.reset_indices self = reset_indices.
Proof.
  rewrite init_unfolded.
  destruct (negb (fs_exists video_path)); [discriminate|].
  destruct (negb allow_any_extension && _); [discriminate|]. simpl.
  intros E. apply result_bind_Ok in E as (od & Hod & E).
  apply result_bind_Ok in E as (bad & Hfps & E).
  assert (od = output_dir) as ->.
  { destruct output_dir as [d|]; [|by injection Hod].
    destruct (path_exists d) as [[]|], (path_is_dir d) as [[]|], (fs_mkdir d);
      simpl in Hod; try discriminate; by injection Hod. }
  repeat match type of E with
         | (if ?b then _ else _) = _ => destruct b; [discriminate|]
         end.
  destruct strategy as [| |[]]; simpl in E; try discriminate; by injection E as <-.
Qed.

Lemma init_events (video_path : Path) (allow_any_extension : bool)
    (output_dir : option Path) (fps : pyval) (start_time end_time : option pynum)
    (strategy : strategy_arg) (reset_indices : bool) (ev : event) :
  ev ∈ (VideoFrameExtractor.__init__ video_path allow_any_extension output_dir fps
          start_time end_time strategy reset_indices).2 →
  ∃ d, output_dir = Some d ∧ ev = EvMkdir d.
Proof.
  rewrite init_unfolded.
  destruct (negb (fs_exists video_path)); [by intros ?%elem_of_nil|].
  destruct (negb allow_any_extension && _); [by intros ?%elem_of_nil|]. simpl.
  destruct output_dir as [d|]; [|by intros ?%elem_of_nil].
  destruct (path_exists d) as [[]|]; try (by intros ?%elem_of_nil).
  intros ->%list_elem_of_singleton. by exists d.
Qed.

(** Every event of one run of the orchestrator concerns its video and its
    output directory. *)
Lemma run_events (video_path : Path) (allow_any_extension : bool)
    (output_dir : option Path) (fps : pyval) (start_time end_time : option pynum)
    (strategy : strategy_arg) (reset_indices : bool) (ev : event) :
  ev ∈ (VideoFrameExtractor.run video_path allow_any_extension output_dir fps
          start_time end_time strategy reset_indices).2 →
  ev = EvProbe (VideoFrameExtractor.ffprobe_command video_path)
  ∨ ∃ d, output_dir = Some d
         ∧ (ev = EvMkdir d
            ∨ ∃ filter_args s e,
                ev = EvFfmpeg (FrameExtractionStrategy.ffmpeg_command video_path
                                 filter_args d s e reset_indices)).
Proof.
  unfold VideoFrameExtractor.run. rewrite IO_bind_trace.
  intros [Hev|Hev]%elem_of_app.
  { apply init_events in Hev as (d & -> & ->). right. exists d. auto. }
  destruct (VideoFrameExtractor.__init__ _ _ _ _ _ _ _ _).1 as [self|err] eqn:Hinit;
    [|by apply elem_of_nil in Hev].
  apply init_Ok_paths in Hinit as (Hvp & Hod & Hr).
  rewrite extract_frames_eq in Hev. rewrite Hvp, Hod, Hr in Hev.
  cbv zeta in Hev.
  destruct (VideoFrameExtractor.get_metadata self _).1 as [[md|]|err].
  2,3: apply list_elem_of_singleton in Hev; by left.
  destruct output_dir as [d|].
  2: apply list_elem_of_singleton in Hev; by left.
  simpl in Hev. apply elem_of_cons in Hev as [->|Hev]; [by left|].
  right. exists d. split; [done|]. right.
  destruct (strategy_extract_frames_cases (VideoFrameExtractor.strategy self) video_path d
              (VideoFrameExtractor.fps self) (VideoFrameExtractor.start_time self)
              (VideoFrameExtractor.end_time self) (Some md) reset_indices)
    as [[err E]|(filter_args & s & e & _ & E)].
  - rewrite E in Hev. by apply elem_of_nil in Hev.
  - cbv zeta in E. rewrite E in Hev. apply list_elem_of_singleton in Hev.
    by exists filter_args, s, e.
Qed.

Lemma make_dirs_eq (d : Path) :
  make_dirs d = (if fs_mkdir d then Ok () else raise OSError AtBuiltin, [EvMkdir d]).
Proof. unfold make_dirs. by destruct (fs_mkdir d). Qed.

(** Constructing an orchestrator with no output directory and reading the
    metadata runs at most one probe, of that video, and nothing else; it
    fails if the constructor does, or with what [get_metadata] lets
    through. *)
Lemma init_then_get_metadata (video_path : Path) (allow_any_extension : bool) :
  let init := VideoFrameExtractor.__init__ video_path allow_any_extension None VNone
                None None ArgNone false in
  (extractor ← init; _ ← VideoFrameExtractor.get_metadata extractor None; pure ())
  = match init.1 with
    | Ok _ =>
        (caught (output ← check_output (VideoFrameExtractor.ffprobe_command video_path);
                 VideoFrameExtractor.parse_probe_output output None) ≫= λ _, Ok (),
         [EvProbe (VideoFrameExtractor.ffprobe_command video_path)])
    | Err e => (Err e, [])
    end.
Proof.
  intros init.
  pose proof (init_Ok_paths video_path allow_any_extension None VNone None None ArgNone
                false) as Hpaths.
  fold init in Hpaths.
  assert (init.2 = []) as Hnil.
  { unfold init. rewrite init_unfolded. by repeat case_match. }
  destruct init.1 as [self|err] eqn:Hinit.
  - destruct (Hpaths self eq_refl) as (Hvp & _).
    rewrite (IO_bind_result_Ok _ _ _ Hinit), Hnil, get_metadata_eq, Hvp.
    unfold mbind at 1 2, IO_bind. cbn [fst snd app].
    by destruct (caught _).
  - by rewrite (IO_bind_result_Err _ _ _ Hinit), Hnil.
Qed.

Lemma show_metadata_eq (vid_file : Path) :
  let init := VideoFrameExtractor.__init__ vid_file false None VNone None None ArgNone
                false in
  VideoFrameExtractorCLI.show_metadata vid_file
  = match init.1 with
    | Ok _ =>
        (caught (output ← check_output (VideoFrameExtractor.ffprobe_command vid_file);
                 VideoFrameExtractor.parse_probe_output output None) ≫= λ _, Ok (),
         [EvProbe (VideoFrameExtractor.ffprobe_command vid_file)])
    | Err e => (Err e, [])
    end.
Proof. apply init_then_get_metadata. Qed.

(** One run that returns has probed its video and run one command on it. *)
Lemma run_Ok_events (video_path : Path) (allow_any_extension : bool) (d : Path)
    (fps : pyval) (start_time end_time : option pynum) (strategy : strategy_arg)
    (reset_indices : bool) (u : unit) :
  let ran := VideoFrameExtractor.run video_path allow_any_extension (Some d) fps
               start_time end_time strategy reset_indices in
  ran.1 = Ok u →
  EvProbe (VideoFrameExtractor.ffprobe_command video_path) ∈ ran.2
  ∧ ∃ filter_args s e,
      EvFfmpeg (FrameExtractionStrategy.ffmpeg_command video_path filter_args d s e
                  reset_indices) ∈ ran.2.
Proof.
  intros ran. unfold ran, VideoFrameExtractor.run. intros E.
  destruct (IO_bind_fst_Ok _ _ _ E) as (self & Hinit & Hrun).
  rewrite (IO_bind_result_Ok _ _ _ Hinit). simpl.
  apply init_Ok_paths in Hinit as (Hvp & Hod & Hr).
  rewrite extract_frames_eq in Hrun |- *. rewrite Hvp, Hod, Hr in Hrun |- *.
  cbv zeta in Hrun |- *.
  destruct (VideoFrameExtractor.get_metadata self _).1 as [[md|]|err];
    try discriminate.
  destruct (strategy_extract_frames_cases (VideoFrameExtractor.strategy self) video_path d
              (VideoFrameExtractor.fps self) (VideoFrameExtractor.start_time self)
              (VideoFrameExtractor.end_time self) (Some md) reset_indices)
    as [[err E']|(filter_args & s & e & _ & E')].
  - rewrite E' in Hrun. discriminate.
  - cbv zeta in E'. rewrite E'. simpl. split.
    + apply elem_of_app. right. apply elem_of_cons. by left.
    + exists filter_args, s, e. apply elem_of_app. right.
      apply elem_of_cons. right. apply elem_of_cons. by left.
Qed.

(** Without [allow_any_extension], the constructor stops at a video of
    unsupported extension before anything is created or run. *)
Lemma run_unsupported (video_path : Path) (output_dir : option Path) (fps : pyval)
    (start_time end_time : option pynum) (strategy : strategy_arg)
    (reset_indices : bool) :
  supported_extension video_path = false →
  let ran := VideoFrameExtractor.run video_path false output_dir fps start_time end_time
               strategy reset_indices in
  ran = (raise FileNotFoundError AtVideoMissing, [])
  ∨ ran = (raise ValueError AtUnsupportedFormat, []).
Proof.
  unfold supported_extension. intros Hext. cbv zeta. unfold VideoFrameExtractor.run.
  rewrite init_unfolded, Hext.
  destruct (negb (fs_exists video_path)); [by left|by right].
Qed.

Lemma show_metadata_unsupported (vid_file : Path) :
  supported_extension vid_file = false →
  let shown := VideoFrameExtractorCLI.show_metadata vid_file in
  shown = (raise FileNotFoundError AtVideoMissing, [])
  ∨ shown = (raise ValueError AtUnsupportedFormat, []).
Proof.
  unfold supported_extension. intros Hext. cbv zeta.
  rewrite show_metadata_eq. cbv zeta. rewrite init_unfolded, Hext.
  destruct (negb (fs_exists vid_file)); [by left|by right].
Qed.
End RunEvents.

(** ** The front ends *)

Section FrontEndRuns.
Import DemoFrontEnd.
#[local] Existing Instance builtins.
#[local] Existing Instance listing.
#[local] Existing Instance history.

Example cli_extract_directory :
  VideoFrameExtractorCLI.run extract_videos
  = (Returned (),
     [EvMkdir "out/clip";
      EvProbe (ffprobe_command "videos/clip.mp4");
      EvFfmpeg ["ffmpeg"; "-i"; "videos/clip.mp4"; "-ss"; "0"; "-to"; "<float>";
                "-fps_mode"; "passthrough"; "-frame_pts"; "true";
                "out/clip/frame_%06d.png"]]).
Proof. vm_compute. reflexivity. Qed.

Example cli_strategy_in_capitals :
  VideoFrameExtractorCLI.get_strategy
    {| VideoFrameExtractorCLI.command := VideoFrameExtractorCLI.extract;
       VideoFrameExtractorCLI.strategy := Some "ALL";
       VideoFrameExtractorCLI.video_path := "clip.mp4";
       VideoFrameExtractorCLI.allow_any_extension := false;
       VideoFrameExtractorCLI.output_dir := "out";
       VideoFrameExtractorCLI.fps := None;
       VideoFrameExtractorCLI.start_time := NInt 0;
       VideoFrameExtractorCLI.end_time := None;
       VideoFrameExtractorCLI.reset_indices := false |}
  = Raised ValueError AtStrategyNeedsFps.
Proof. reflexivity. Qed.

Example cli_metadata_of_a_text_file :
  VideoFrameExtractorCLI.run
    {| VideoFrameExtractorCLI.command := VideoFrameExtractorCLI.metadata;
       VideoFrameExtractorCLI.strategy := None;
       VideoFrameExtractorCLI.video_path := "notes.txt";
       VideoFrameExtractorCLI.allow_any_extension := true;
       VideoFrameExtractorCLI.output_dir := "out";
       VideoFrameExtractorCLI.fps := None;
       VideoFrameExtractorCLI.start_time := NInt 0;
       VideoFrameExtractorCLI.end_time := None;
       VideoFrameExtractorCLI.reset_indices := false |}
  = (Passed (Exn ValueError AtUnsupportedFormat), []).
Proof. vm_compute. reflexivity. Qed.

Example run_extraction_capital_letter :
  run_extraction "clip.mp4" false "frames" (VInt 5) "Uniform" None None false
  = (Raised ValueError AtUnsupportedStrategy, [EvMkdir "frames"]).
Proof. vm_compute. reflexivity. Qed.

Example run_metadata_any_extension :
  run_metadata "notes.txt" true = (Returned (), [EvProbe (ffprobe_command "notes.txt")]).
Proof. vm_compute. reflexivity. Qed.
End FrontEndRuns.

Section FrontEnds.
Context `{Builtins} `{Listing} `{History}.

Lemma get_strategy_class_Ok (name : string) (cls : strategy_class) :
  get_strategy_class name = Ok cls ↔ lower name = STRATEGY_NAME cls.
Proof.
  unfold get_strategy_class, subclasses. generalize (lower name) as n. intros n.
  cbn [first_named STRATEGY_NAME].
  destruct (String.eqb_spec "all" n) as [<-|?];
    [|destruct (String.eqb_spec "uniform" n) as [<-|?];
      [|destruct (String.eqb_spec "fixed_random" n) as [<-|?]]];
    destruct cls; cbn [STRATEGY_NAME]; split; intros E;
    solve [discriminate | congruence | done].
Qed.

Lemma get_strategy_class_Err (name : string) :
  (∀ cls, lower name ≠ STRATEGY_NAME cls) →
  get_strategy_class name = raise ValueError AtNoStrategy.
Proof.
  intros Hno. destruct (get_strategy_class name) as [cls|err] eqn:E.
  - apply get_strategy_class_Ok in E. by destruct (Hno cls).
  - revert E. unfold get_strategy_class, subclasses. cbn [first_named].
    repeat (destruct (String.eqb _ _); [discriminate|]). by intros [= <-].
Qed.

(** X15.  The strategy of an [extract] call: no [--strategy], or an empty
    one, leaves the choice to the orchestrator; a name is looked up without
    regard to case, but compared with "all" as typed, so that every named
    strategy without [--fps] is refused unless it is spelled exactly "all";
    a name of no strategy passes the lookup's ValueError on. *)
Theorem X15_cli_strategy_selection (a : VideoFrameExtractorCLI.args) :
  let chosen := VideoFrameExtractorCLI.get_strategy a in
  (VideoFrameExtractorCLI.strategy a = None
   ∨ VideoFrameExtractorCLI.strategy a = Some EmptyString →
   chosen = Returned ArgNone)
  ∧ (∀ name cls,
       VideoFrameExtractorCLI.strategy a = Some name → name ≠ EmptyString →
       (chosen = Returned (ArgStrategy cls)
        ↔ lower name = STRATEGY_NAME cls
          ∧ (name = "all" ∨ is_Some (VideoFrameExtractorCLI.fps a)))
       ∧ (lower name = STRATEGY_NAME cls → name ≠ "all" →
          VideoFrameExtractorCLI.fps a = None →
          chosen = Raised ValueError AtStrategyNeedsFps))
  ∧ (∀ name,
       VideoFrameExtractorCLI.strategy a = Some name → name ≠ EmptyString →
       (∀ cls, lower name ≠ STRATEGY_NAME cls) →
       chosen = Passed (Exn ValueError AtNoStrategy)).
Proof.
  intros chosen. unfold chosen, VideoFrameExtractorCLI.get_strategy.
  split; [by intros [->| ->]|]. split.
  - intros name cls -> Hname.
    destruct (String.eqb_spec name EmptyString) as [?|_]; [done|].
    destruct (get_strategy_class name) as [found|err] eqn:Hfound.
    + apply get_strategy_class_Ok in Hfound.
      destruct (String.eqb_spec name "all") as [->|Hall]; simpl.
      * split; [|done]. split.
        -- intros [= <-]. auto.
        -- intros [Hcls _]. do 2 f_equal. destruct found, cls; by simpl in *.
      * destruct (VideoFrameExtractorCLI.fps a) as [z|]; simpl.
        -- split; [|done]. split.
           ++ intros [= <-]. eauto.
           ++ intros [Hcls _]. do 2 f_equal.
              rewrite Hfound in Hcls. by destruct found, cls.
        -- split; [|done]. split; [done|].
           intros [_ [?|[? ?]]]; done.
    + split.
      * split; [done|]. intros [Hcls _]. apply get_strategy_class_Ok in Hcls. congruence.
      * intros Hcls. apply get_strategy_class_Ok in Hcls. congruence.
  - intros name -> Hname Hno.
    destruct (String.eqb_spec name EmptyString) as [?|_]; [done|].
    by rewrite get_strategy_class_Err.
Qed.

(** X16.  [--allow_any_extension] lets no file through.  With the flag a
    call ends as it does without it and causes the same events, except for
    a single file of unsupported extension: the front end no longer
    refuses it, but the orchestrator, which the front end constructs
    without the flag, does, with ValueError (FileNotFoundError if the file
    is not there), and still before any event. *)
Theorem X16_cli_allow_any_extension_lets_no_file_through
    (command : VideoFrameExtractorCLI.command_name) (strategy : option string)
    (video_path output_dir : Path) (fps : option Z) (start_time : pynum)
    (end_time : option pynum) (reset_indices : bool) :
  let a flag := {| VideoFrameExtractorCLI.command := command;
                   VideoFrameExtractorCLI.strategy := strategy;
                   VideoFrameExtractorCLI.video_path := video_path;
                   VideoFrameExtractorCLI.allow_any_extension := flag;
                   VideoFrameExtractorCLI.output_dir := output_dir;
                   VideoFrameExtractorCLI.fps := fps;
                   VideoFrameExtractorCLI.start_time := start_time;
                   VideoFrameExtractorCLI.end_time := end_time;
                   VideoFrameExtractorCLI.reset_indices := reset_indices |} in
  let off := VideoFrameExtractorCLI.run (a false) in
  let on := VideoFrameExtractorCLI.run (a true) in
  on = off
  ∨ (path_is_file video_path = Some true
     ∧ supported_extension video_path = false
     ∧ off = (Raised ValueError AtCliUnsupportedFormat, [])
     ∧ (on = (Passed (Exn ValueError AtUnsupportedFormat), [])
        ∨ on = (Passed (Exn FileNotFoundError AtVideoMissing), []))).
Proof.
  intros a off on. unfold off, on, VideoFrameExtractorCLI.run.
  change (VideoFrameExtractorCLI.command (a true)) with command.
  change (VideoFrameExtractorCLI.command (a false)) with command.
  destruct command.
  - unfold VideoFrameExtractorCLI.extract_frames.
    change (VideoFrameExtractorCLI.get_strategy (a true))
      with (VideoFrameExtractorCLI.get_strategy (a false)).
    destruct (VideoFrameExtractorCLI.get_strategy (a false)) as [chosen| |]; [|by left..].
    assert (∀ files seen,
              VideoFrameExtractorCLI.extract_each (a true) chosen files seen
              = VideoFrameExtractorCLI.extract_each (a false) chosen files seen) as Hloop.
    { induction files as [|vid_file rest IH]; intros seen; [done|].
      cbn [VideoFrameExtractorCLI.extract_each]. cbv zeta. by rewrite !IH. }
    cbn [a VideoFrameExtractorCLI.video_path VideoFrameExtractorCLI.allow_any_extension
         VideoFrameExtractorCLI.output_dir VideoFrameExtractorCLI.fps_value
         VideoFrameExtractorCLI.fps VideoFrameExtractorCLI.start_time
         VideoFrameExtractorCLI.end_time VideoFrameExtractorCLI.reset_indices
         negb andb].
    destruct (path_is_file video_path) as [[]|];
      [|left; destruct (path_is_dir video_path) as [[]|]; [|done..];
        destruct (fs_iterdir video_path); [apply Hloop|done]
       |by left].
    destruct (supported_extension video_path) eqn:Hext; [by left|].
    right. cbn [negb]. repeat split.
    destruct (run_unsupported (H0 := world_after []) video_path (Some output_dir)
                (VideoFrameExtractorCLI.fps_value (a true))
                (Some start_time) end_time chosen reset_indices Hext) as [E|E];
      cbv zeta in E; unfold of_IO; rewrite E; [by right|by left].
  - unfold VideoFrameExtractorCLI.get_metadata.
    cbn [a VideoFrameExtractorCLI.video_path VideoFrameExtractorCLI.allow_any_extension
         negb andb].
    destruct (path_is_file video_path) as [[]|]; [|by left..].
    destruct (supported_extension video_path) eqn:Hext; [by left|].
    right. cbn [negb]. repeat split.
    destruct (show_metadata_unsupported (H0 := world_after []) video_path Hext) as [E|E];
      cbv zeta in E; unfold of_IO; rewrite E; [by right|by left].
Qed.

(** X17.  What an [extract] call checks before it touches anything, and
    what a path that is neither a file nor a directory gives: a strategy
    that is refused ends the call with that exception and no event,
    whatever the path; with an accepted strategy such a path raises
    FileNotFoundError, while the [metadata] command returns for it as if
    there had been nothing to do. *)
Theorem X17_cli_path_neither_file_nor_directory (a : VideoFrameExtractorCLI.args) :
  (∀ c s, VideoFrameExtractorCLI.get_strategy a = Raised c s →
     VideoFrameExtractorCLI.extract_frames a = (Raised c s, []))
  ∧ (∀ e, VideoFrameExtractorCLI.get_strategy a = Passed e →
       VideoFrameExtractorCLI.extract_frames a = (Passed e, []))
  ∧ (path_is_file (VideoFrameExtractorCLI.video_path a) = Some false →
     @path_is_dir (world_after []) (VideoFrameExtractorCLI.video_path a) = Some false →
     VideoFrameExtractorCLI.get_metadata a = (Returned (), [])
     ∧ ∀ chosen, VideoFrameExtractorCLI.get_strategy a = Returned chosen →
         VideoFrameExtractorCLI.extract_frames a
         = (Raised FileNotFoundError AtInvalidPath, [])).
Proof.
  unfold VideoFrameExtractorCLI.extract_frames, VideoFrameExtractorCLI.get_metadata.
  split; [by intros c s ->|]. split; [by intros e ->|].
  intros -> ->. split; [done|]. by intros chosen ->.
Qed.

(** The events of the loop over a directory: those caused before it, and
    events that concern a listed file of supported extension. *)
Lemma extract_each_events (a : VideoFrameExtractorCLI.args) (chosen : strategy_arg)
    (files : list Path) (seen : list event) (ev : event) :
  ev ∈ (VideoFrameExtractorCLI.extract_each a chosen files seen).2 →
  ev ∈ seen
  ∨ ∃ vid_file,
      vid_file ∈ files ∧ supported_extension vid_file = true
      ∧ let sub_output := path_child (VideoFrameExtractorCLI.output_dir a)
                            (path_stem vid_file) in
        (ev = EvProbe (VideoFrameExtractor.ffprobe_command vid_file)
         ∨ ev = EvMkdir sub_output
         ∨ ∃ filter_args s e,
             ev = EvFfmpeg (FrameExtractionStrategy.ffmpeg_command vid_file filter_args
                              sub_output s e (VideoFrameExtractorCLI.reset_indices a))).
Proof.
  revert seen. induction files as [|vid_file rest IH]; intros seen; [by left|].
  cbn [VideoFrameExtractorCLI.extract_each]. cbv zeta.
  assert (∀ P : Path → Prop, (∃ f, f ∈ rest ∧ P f) → ∃ f, f ∈ vid_file :: rest ∧ P f)
    as Hrest.
  { intros P (f & Hf & HP). exists f. split; [by apply elem_of_cons; right|done]. }
  destruct (supported_extension vid_file) eqn:Hext.
  2:{ intros [?|Hev]%IH; [by left|right]. by apply Hrest. }
  set (sub_output := path_child _ _).
  rewrite make_dirs_eq. cbn [fst snd].
  assert (∀ ev', ev' ∈ seen ++ [EvMkdir sub_output] →
            ev' ∈ seen
            ∨ ∃ f, f ∈ vid_file :: rest ∧ supported_extension f = true
                ∧ (ev' = EvProbe (VideoFrameExtractor.ffprobe_command f)
                   ∨ ev' = EvMkdir (path_child (VideoFrameExtractorCLI.output_dir a)
                                      (path_stem f))
                   ∨ ∃ filter_args s e,
                       ev' = EvFfmpeg (FrameExtractionStrategy.ffmpeg_command f filter_args
                                         (path_child (VideoFrameExtractorCLI.output_dir a)
                                            (path_stem f)) s e
                                         (VideoFrameExtractorCLI.reset_indices a))))
    as Hmade.
  { intros ev' [?|Hev%list_elem_of_singleton]%elem_of_app; [by left|subst ev'; right].
    exists vid_file. split; [by apply elem_of_cons; left|]. split; [done|]. auto. }
  match goal with
  | |- context [match ?r with Ok _ => _ | Err _ => _ end] => destruct r as [[]|err]
  end; [|apply Hmade].
  assert (∀ ev', ev' ∈ (seen ++ [EvMkdir sub_output])
                   ++ (@VideoFrameExtractor.run _ (world_after (seen ++ [EvMkdir sub_output]))
                         vid_file false (Some sub_output)
                         (VideoFrameExtractorCLI.fps_value a)
                         (Some (VideoFrameExtractorCLI.start_time a))
                         (VideoFrameExtractorCLI.end_time a) chosen
                         (VideoFrameExtractorCLI.reset_indices a)).2 →
            ev' ∈ seen
            ∨ ∃ f, f ∈ vid_file :: rest ∧ supported_extension f = true
                ∧ (ev' = EvProbe (VideoFrameExtractor.ffprobe_command f)
                   ∨ ev' = EvMkdir (path_child (VideoFrameExtractorCLI.output_dir a)
                                      (path_stem f))
                   ∨ ∃ filter_args s e,
                       ev' = EvFfmpeg (FrameExtractionStrategy.ffmpeg_command f filter_args
                                         (path_child (VideoFrameExtractorCLI.output_dir a)
                                            (path_stem f)) s e
                                         (VideoFrameExtractorCLI.reset_indices a))))
    as Hran.
  { intros ev' [?|Hev]%elem_of_app; [by apply Hmade|right].
    exists vid_file. split; [by apply elem_of_cons; left|]. split; [done|].
    apply run_events in Hev as [->|(d & [= <-] & [->|Hev])]; auto. }
  destruct (VideoFrameExtractor.run _ _ _ _ _ _ _ _).1 as [[]|err]; [|apply Hran].
  intros [?|Hev]%IH; [by apply Hran|right]. by apply Hrest.
Qed.

Lemma show_each_events (files : list Path) (seen : list event) (ev : event) :
  ev ∈ (VideoFrameExtractorCLI.show_each files seen).2 →
  ev ∈ seen
  ∨ ∃ vid_file,
      vid_file ∈ files ∧ supported_extension vid_file = true
      ∧ ev = EvProbe (VideoFrameExtractor.ffprobe_command vid_file).
Proof.
  revert seen. induction files as [|vid_file rest IH]; intros seen; [by left|].
  cbn [VideoFrameExtractorCLI.show_each]. cbv zeta.
  assert (∀ P : Path → Prop, (∃ f, f ∈ rest ∧ P f) → ∃ f, f ∈ vid_file :: rest ∧ P f)
    as Hrest.
  { intros P (f & Hf & HP). exists f. split; [by apply elem_of_cons; right|done]. }
  destruct (supported_extension vid_file) eqn:Hext.
  2:{ intros [?|Hev]%IH; [by left|right]. by apply Hrest. }
  rewrite show_metadata_eq. cbv zeta.
  destruct (VideoFrameExtractor.__init__ _ _ _ _ _ _ _ _).1 as [self|err]; cbn [fst snd].
  - destruct (caught _ ≫= _) as [u|err]; cbn [fst snd].
    + intros [[?|Hev%list_elem_of_singleton]%elem_of_app|Hev]%IH; [by left|right..].
      * exists vid_file. split; [by apply elem_of_cons; left|done].
      * by apply Hrest.
    + intros [?|Hev%list_elem_of_singleton]%elem_of_app; [by left|right].
      exists vid_file. split; [by apply elem_of_cons; left|done].
  - rewrite (right_id_L [] (++)). by left.
Qed.

(** The loops only add events, and a loop that returns has dealt with every
    listed file of supported extension. *)
Lemma extract_each_extends (a : VideoFrameExtractorCLI.args) (chosen : strategy_arg)
    (files : list Path) (seen : list event) (ev : event) :
  ev ∈ seen → ev ∈ (VideoFrameExtractorCLI.extract_each a chosen files seen).2.
Proof.
  revert seen. induction files as [|vid_file rest IH]; intros seen Hev; [done|].
  cbn [VideoFrameExtractorCLI.extract_each]. cbv zeta.
  destruct (supported_extension vid_file); [|by apply IH].
  destruct (make_dirs _).1; [|by apply elem_of_app; left].
  destruct (VideoFrameExtractor.run _ _ _ _ _ _ _ _).1.
  - apply IH. apply elem_of_app. left. by apply elem_of_app; left.
  - apply elem_of_app. left. by apply elem_of_app; left.
Qed.

Lemma show_each_extends (files : list Path) (seen : list event) (ev : event) :
  ev ∈ seen → ev ∈ (VideoFrameExtractorCLI.show_each files seen).2.
Proof.
  revert seen. induction files as [|vid_file rest IH]; intros seen Hev; [done|].
  cbn [VideoFrameExtractorCLI.show_each]. cbv zeta.
  destruct (supported_extension vid_file); [|by apply IH].
  destruct (VideoFrameExtractorCLI.show_metadata _).1.
  - apply IH. by apply elem_of_app; left.
  - by apply elem_of_app; left.
Qed.

Lemma extract_each_Returned (a : VideoFrameExtractorCLI.args) (chosen : strategy_arg)
    (files : list Path) (seen : list event) (vid_file : Path) :
  let m := VideoFrameExtractorCLI.extract_each a chosen files seen in
  let sub_output := path_child (VideoFrameExtractorCLI.output_dir a)
                      (path_stem vid_file) in
  m.1 = Returned () → vid_file ∈ files → supported_extension vid_file = true →
  EvMkdir sub_output ∈ m.2
  ∧ EvProbe (VideoFrameExtractor.ffprobe_command vid_file) ∈ m.2
  ∧ ∃ filter_args s e,
      EvFfmpeg (FrameExtractionStrategy.ffmpeg_command vid_file filter_args sub_output
                  s e (VideoFrameExtractorCLI.reset_indices a)) ∈ m.2.
Proof.
  cbv zeta. revert seen.
  induction files as [|f rest IH]; intros seen Hm Hin Hext;
    [by apply elem_of_nil in Hin|].
  revert Hm. cbn [VideoFrameExtractorCLI.extract_each]. cbv zeta.
  apply elem_of_cons in Hin as [<-|Hin].
  2:{ destruct (supported_extension f); [|by intros ?; apply IH].
      destruct (make_dirs _).1; [|discriminate].
      destruct (VideoFrameExtractor.run _ _ _ _ _ _ _ _).1; [|discriminate].
      by intros ?; apply IH. }
  rewrite Hext, make_dirs_eq. cbn [fst snd].
  match goal with
  | |- context [match ?r with Ok _ => _ | Err _ => _ end] => destruct r as [[]|err]
  end; [|discriminate].
  destruct (VideoFrameExtractor.run _ _ _ _ _ _ _ _).1 as [u|err] eqn:Hran;
    [|discriminate].
  intros _. apply run_Ok_events in Hran as (Hprobe & filter_args & s & e & Hcmd).
  split; [|split].
  - apply extract_each_extends, elem_of_app. left. apply elem_of_app. right.
    by apply elem_of_cons; left.
  - apply extract_each_extends, elem_of_app. by right.
  - exists filter_args, s, e. apply extract_each_extends, elem_of_app. by right.
Qed.

Lemma show_each_Returned (files : list Path) (seen : list event) (vid_file : Path) :
  let m := VideoFrameExtractorCLI.show_each files seen in
  m.1 = Returned () → vid_file ∈ files → supported_extension vid_file = true →
  EvProbe (VideoFrameExtractor.ffprobe_command vid_file) ∈ m.2.
Proof.
  cbv zeta. revert seen.
  induction files as [|f rest IH]; intros seen Hm Hin Hext;
    [by apply elem_of_nil in Hin|].
  revert Hm. cbn [VideoFrameExtractorCLI.show_each]. cbv zeta.
  apply elem_of_cons in Hin as [<-|Hin].
  2:{ destruct (supported_extension f); [|by intros ?; apply IH].
      destruct (VideoFrameExtractorCLI.show_metadata _).1; [|discriminate].
      by intros ?; apply IH. }
  rewrite Hext, show_metadata_eq. cbv zeta.
  destruct (VideoFrameExtractor.__init__ _ _ _ _ _ _ _ _).1; cbn [fst snd];
    [|discriminate].
  destruct (caught _ ≫= _) as [u|err]; cbn [fst snd]; [|discriminate].
  intros _. apply show_each_extends, elem_of_app. right. by apply elem_of_cons; left.
Qed.

(** X18.  Whatever the arguments, every event of a command-line call
    concerns a file of supported extension: the given file, or a file
    listed in the given directory, whose output directory is then named
    after the file's stem.  The [metadata] command only runs probes; the
    [extract] command also creates that file's output directory and runs
    ffmpeg on that file into that directory. *)
Theorem X18_cli_events_concern_supported_files (a : VideoFrameExtractorCLI.args)
    (ev : event) :
  ev ∈ (VideoFrameExtractorCLI.run a).2 →
  ∃ vid_file sub_output,
    supported_extension vid_file = true
    ∧ (path_is_file (VideoFrameExtractorCLI.video_path a) = Some true
       ∧ vid_file = VideoFrameExtractorCLI.video_path a
       ∧ sub_output = VideoFrameExtractorCLI.output_dir a
       ∨ path_is_file (VideoFrameExtractorCLI.video_path a) = Some false
         ∧ ∃ files,
             fs_iterdir (VideoFrameExtractorCLI.video_path a) = Ok files
             ∧ vid_file ∈ files
             ∧ sub_output = path_child (VideoFrameExtractorCLI.output_dir a)
                              (path_stem vid_file))
    ∧ (ev = EvProbe (VideoFrameExtractor.ffprobe_command vid_file)
       ∨ VideoFrameExtractorCLI.command a = VideoFrameExtractorCLI.extract
         ∧ (ev = EvMkdir sub_output
            ∨ ∃ filter_args s e,
                ev = EvFfmpeg (FrameExtractionStrategy.ffmpeg_command vid_file
                                 filter_args sub_output s e
                                 (VideoFrameExtractorCLI.reset_indices a)))).
Proof.
  unfold VideoFrameExtractorCLI.run.
  destruct (VideoFrameExtractorCLI.command a) eqn:Hcommand.
  - unfold VideoFrameExtractorCLI.extract_frames.
    destruct (VideoFrameExtractorCLI.get_strategy a) as [chosen| |];
      [|by intros ?%elem_of_nil..].
    destruct (path_is_file _) as [[]|] eqn:Hfile; [| |by intros ?%elem_of_nil].
    + destruct (negb _ && negb _); [by intros ?%elem_of_nil|].
      unfold of_IO. cbn [snd]. intros Hev.
      exists (VideoFrameExtractorCLI.video_path a), (VideoFrameExtractorCLI.output_dir a).
      split.
      { destruct (supported_extension _) eqn:Hext; [done|].
        destruct (run_unsupported (H0 := world_after [])
                    (VideoFrameExtractorCLI.video_path a)
                    (Some (VideoFrameExtractorCLI.output_dir a))
                    (VideoFrameExtractorCLI.fps_value a)
                    (Some (VideoFrameExtractorCLI.start_time a))
                    (VideoFrameExtractorCLI.end_time a) chosen
                    (VideoFrameExtractorCLI.reset_indices a) Hext) as [E|E];
          cbv zeta in E; rewrite E in Hev; by apply elem_of_nil in Hev. }
      split; [by left|].
      apply run_events in Hev as [->|(d & [= <-] & Hev)]; auto.
    + destruct (path_is_dir _) as [[]|]; [|by intros ?%elem_of_nil..].
      destruct (fs_iterdir _) as [files|err] eqn:Hfiles; [|by intros ?%elem_of_nil].
      intros [?%elem_of_nil|(vid_file & Hin & Hext & Hev)]%extract_each_events; [done|].
      exists vid_file, (path_child (VideoFrameExtractorCLI.output_dir a)
                          (path_stem vid_file)).
      split; [done|]. split; [right; split; [done|]; by exists files|].
      cbv zeta in Hev. destruct Hev as [->|Hev]; auto.
  - unfold VideoFrameExtractorCLI.get_metadata.
    destruct (path_is_file _) as [[]|] eqn:Hfile; [| |by intros ?%elem_of_nil].
    + destruct (negb _ && negb _); [by intros ?%elem_of_nil|].
      unfold of_IO. cbn [snd]. intros Hev.
      exists (VideoFrameExtractorCLI.video_path a), (VideoFrameExtractorCLI.output_dir a).
      destruct (supported_extension _) eqn:Hext.
      2:{ destruct (show_metadata_unsupported (H0 := world_after [])
                      (VideoFrameExtractorCLI.video_path a) Hext) as [E|E];
            cbv zeta in E; rewrite E in Hev; by apply elem_of_nil in Hev. }
      split; [done|]. split; [by left|]. left.
      rewrite show_metadata_eq in Hev. cbv zeta in Hev.
      destruct (VideoFrameExtractor.__init__ _ _ _ _ _ _ _ _).1;
        [by apply list_elem_of_singleton in Hev|by apply elem_of_nil in Hev].
    + destruct (path_is_dir _) as [[]|]; [|by intros ?%elem_of_nil..].
      destruct (fs_iterdir _) as [files|err] eqn:Hfiles; [|by intros ?%elem_of_nil].
      intros [?%elem_of_nil|(vid_file & Hin & Hext & ->)]%show_each_events; [done|].
      exists vid_file, (path_child (VideoFrameExtractorCLI.output_dir a)
                          (path_stem vid_file)).
      split; [done|]. split; [right; split; [done|]; by exists files|]. by left.
Qed.

Lemma extract_each_not_Raised (a : VideoFrameExtractorCLI.args) (chosen : strategy_arg)
    (files : list Path) (seen : list event) (c : exc_class) (s : front_site) :
  (VideoFrameExtractorCLI.extract_each a chosen files seen).1 ≠ Raised c s.
Proof.
  revert seen. induction files as [|vid_file rest IH]; intros seen; [done|].
  cbn [VideoFrameExtractorCLI.extract_each]. cbv zeta.
  destruct (supported_extension vid_file); [|apply IH].
  destruct (make_dirs _).1; [|done].
  destruct (VideoFrameExtractor.run _ _ _ _ _ _ _ _).1; [apply IH|done].
Qed.

Lemma show_each_not_Raised (files : list Path) (seen : list event) (c : exc_class)
    (s : front_site) :
  (VideoFrameExtractorCLI.show_each files seen).1 ≠ Raised c s.
Proof.
  revert seen. induction files as [|vid_file rest IH]; intros seen; [done|].
  cbn [VideoFrameExtractorCLI.show_each]. cbv zeta.
  destruct (supported_extension vid_file); [|apply IH].
  destruct (VideoFrameExtractorCLI.show_metadata _).1; [apply IH|done].
Qed.

(** X19.  Over a directory a command-line call is all or error.  The only
    exception the front end raises itself there is the refusal of the
    strategy, before any event; every other failure is an exception of the
    code it calls, and ends the loop.  A call that returns has probed every
    listed file of supported extension and, for [extract], has created that
    file's output directory and run ffmpeg on the file into it. *)
Theorem X19_cli_directory_mode_all_or_error (a : VideoFrameExtractorCLI.args)
    (files : list Path) :
  path_is_file (VideoFrameExtractorCLI.video_path a) = Some false →
  @path_is_dir (world_after []) (VideoFrameExtractorCLI.video_path a) = Some true →
  fs_iterdir (VideoFrameExtractorCLI.video_path a) = Ok files →
  let m := VideoFrameExtractorCLI.run a in
  (∀ c s, m.1 = Raised c s →
     VideoFrameExtractorCLI.command a = VideoFrameExtractorCLI.extract
     ∧ VideoFrameExtractorCLI.get_strategy a = Raised c s ∧ m.2 = [])
  ∧ (m.1 = Returned () →
     ∀ vid_file, vid_file ∈ files → supported_extension vid_file = true →
       let sub_output := path_child (VideoFrameExtractorCLI.output_dir a)
                           (path_stem vid_file) in
       EvProbe (VideoFrameExtractor.ffprobe_command vid_file) ∈ m.2
       ∧ (VideoFrameExtractorCLI.command a = VideoFrameExtractorCLI.extract →
          EvMkdir sub_output ∈ m.2
          ∧ ∃ filter_args s e,
              EvFfmpeg (FrameExtractionStrategy.ffmpeg_command vid_file filter_args
                          sub_output s e (VideoFrameExtractorCLI.reset_indices a))
              ∈ m.2)).
Proof.
  intros Hfile Hdir Hfiles m. unfold m, VideoFrameExtractorCLI.run.
  destruct (VideoFrameExtractorCLI.command a).
  - unfold VideoFrameExtractorCLI.extract_frames. rewrite Hfile, Hdir, Hfiles.
    destruct (VideoFrameExtractorCLI.get_strategy a) as [chosen|c0 s0|e0]; cbn [fst snd].
    + split; [by intros c s ?%extract_each_not_Raised|].
      intros Hm vid_file Hin Hext.
      destruct (extract_each_Returned a chosen files [] vid_file Hm Hin Hext)
        as (Hmkdir & Hprobe & Hcmd).
      by split.
    + split; [by intros c s [= <- <-]|done].
    + by split.
  - unfold VideoFrameExtractorCLI.get_metadata. rewrite Hfile, Hdir, Hfiles.
    split; [by intros c s ?%show_each_not_Raised|].
    intros Hm vid_file Hin Hext. split; [|done].
    by apply show_each_Returned.
Qed.


End FrontEnds.

Section EmptyWindow.
Import FrameExtractionStrategy FixedRandomFramesStrategy.
Context `{Builtins} `{World}.

End EmptyWindow.

Section UniformCommand.
Context `{Builtins} `{World}.

(** X22.  When the uniform strategy runs the extraction tool, the command
    carries the filter [fps=<str(fps)>] on the validated time window, for an
    [fps] that is a positive int not greater than the video's frame rate.
    A bool is an int to [isinstance]: [fps=True] passes as 1, and the
    filter text is then "fps=True". *)
Theorem X22_uniform_command (video_path output_dir : Path) (fps : pyval)
    (start_time end_time : option pynum) (metadata : option (gmap string pyval))
    (reset_indices : bool) (cmd : list string) :
  EvFfmpeg cmd ∈ (UniformFramesStrategy.extract_frames video_path output_dir fps
                    start_time end_time metadata reset_indices).2 →
  ∃ z avg_fps s e,
    as_int fps = Some z ∧ (0 < z)%Z
    ∧ _validate_avg_fps metadata = Ok avg_fps
    ∧ num_gt (NInt z) (NFloat avg_fps) = false
    ∧ _validate_time_range metadata start_time end_time = Ok (s, e)
    ∧ cmd = ffmpeg_command video_path
              ["-vf"; "fps=" +:+ match fps with
                                 | VBool _ => "True"
                                 | _ => str_of_int z
                                 end]
              output_dir s e reset_indices.
Proof.
  unfold UniformFramesStrategy.extract_frames. intros Hin.
  destruct (_validate_fps fps) as [v|err] eqn:Hfps; [|by apply elem_of_nil in Hin].
  rewrite IO_bind_lift_Ok in Hin.
  destruct (_validate_avg_fps metadata) as [avg_fps|err] eqn:Havg;
    [|by apply elem_of_nil in Hin].
  rewrite IO_bind_lift_Ok in Hin.
  destruct (num_gt _ _) eqn:Hgt; [by apply elem_of_nil in Hin|].
  destruct (_validate_time_range metadata start_time end_time) as [[s e]|err] eqn:Ht;
    [|by apply elem_of_nil in Hin].
  rewrite IO_bind_lift_Ok in Hin.
  apply list_elem_of_singleton in Hin. injection Hin as ->.
  destruct (validate_fps_Ok _ _ Hfps) as (-> & z & Hz & Hpos).
  unfold int_value in Hgt. rewrite Hz in Hgt. simpl in Hgt.
  exists z, avg_fps, s, e. repeat split; try done.
  destruct fps as [|[]| | | | |]; simpl in Hz; try discriminate;
    injection Hz as <-; try done; lia.
Qed.
End UniformCommand.

(* ================================================================== *)
(** * Part VII.  The further properties at concrete inputs             *)
(* ================================================================== *)

(** X1 at a 10 s video. *)
Lemma X1_no_times_select_the_whole_video_witness :
  @_validate_time_range builtins (Some (md (VFloat (float_lit 10 0)) VNone)) None None
  = Ok (NInt 0, NFloat (float_lit 10 0))
  ∧ @AllFramesStrategy.extract_frames builtins world "clip.mp4" "out" VNone None None
      (Some (md (VFloat (float_lit 10 0)) VNone)) false
    = let command := @ffmpeg_command builtins "clip.mp4" ["-fps_mode"; "passthrough"]
                       "out" (NInt 0) (NFloat (float_lit 10 0)) false in
      (Ok (), [EvFfmpeg command]).
Proof.
  apply (@X1_no_times_select_the_whole_video builtins world "clip.mp4" "out" VNone
           (md (VFloat (float_lit 10 0)) VNone) (VFloat (float_lit 10 0))
           (float_lit 10 0) false).
  - reflexivity.
  - reflexivity.
  - vm_compute. reflexivity.
Defined.

(** X2 at the uniform strategy, 5 frames per second from the clip. *)
Lemma X2_no_command_before_validation_witness :
  let metadata := Some (md (VFloat (float_lit 1 0)) (VFloat (float_lit 25 0))) in
  (∃ s e, @_validate_time_range builtins metadata None None = Ok (s, e))
  ∧ ∃ z avg_fps,
      _validate_fps (VInt 5) = Ok (VInt 5) ∧ as_int (VInt 5) = Some z ∧ (0 < z)%Z
      ∧ @_validate_avg_fps builtins metadata = Ok avg_fps
      ∧ num_gt (NInt z) (NFloat avg_fps) = false.
Proof.
  intros metadata.
  destruct (@X2_no_command_before_validation builtins world ClsUniform "clip.mp4" "out"
              (VInt 5) None None metadata false
              ["ffmpeg"; "-i"; "clip.mp4"; "-ss"; "0"; "-to"; "<float>"; "-vf"; "fps=5";
               "-frame_pts"; "true"; "out/frame_%06d.png"])
    as (Htime & Hfps).
  - apply list_elem_of_singleton. reflexivity.
  - split; [exact Htime|].
    destruct Hfps as (z & avg_fps & ? & ? & ? & ? & Hle); [discriminate|].
    exists z, avg_fps. repeat split; try assumption. apply Hle. reflexivity.
Defined.

(** X3 at 3 frames requested from the clip: the frames 3, 10 and 17. *)
Lemma X3_fixed_random_command_witness :
  let metadata := Some (md (VFloat (float_lit 1 0)) (VFloat (float_lit 25 0))) in
  ∃ z avg_fps s e l,
    as_int (VInt 3) = Some z ∧ (0 < z)%Z
    ∧ @_validate_avg_fps builtins metadata = Ok avg_fps
    ∧ @_validate_time_range builtins metadata None None = Ok (s, e)
    ∧ @FixedRandomFramesStrategy._select_random_frames world z avg_fps s e = Ok l
    ∧ NoDup l ∧ StronglySorted Z.lt l ∧ (Z.of_nat (length l) ≤ z)%Z
    ∧ ["ffmpeg"; "-i"; "clip.mp4"; "-ss"; "0"; "-to"; "<float>"; "-vf";
       "select='eq(n\,3)+eq(n\,10)+eq(n\,17)'"; "-vsync"; "vfr";
       "-frame_pts"; "true"; "out/frame_%06d.png"]
      = @ffmpeg_command builtins "clip.mp4"
          ["-vf";
           "select='" +:+ FixedRandomFramesStrategy._build_select_filter l +:+ "'";
           "-vsync"; "vfr"]
          "out" s e false.
Proof.
  intros metadata.
  apply (@X3_fixed_random_command builtins world "clip.mp4" "out" (VInt 3) None None
           metadata false).
  apply list_elem_of_singleton. vm_compute. reflexivity.
Defined.

(** X6 at two frame lists that differ in one index: their filters differ. *)
Lemma X6_select_filter_is_unambiguous_witness :
  FixedRandomFramesStrategy._build_select_filter [3; 10; 17]%Z
  ≠ FixedRandomFramesStrategy._build_select_filter [3; 1; 17]%Z
  ∧ [3; 10; 17]%Z = [3; 10; 17]%Z.
Proof.
  split.
  - vm_compute. discriminate.
  - apply X6_select_filter_is_unambiguous. reflexivity.
Defined.

(** X12 at the clip's report. *)
Lemma X12_orchestrated_metadata_is_complete_witness :
  let info := md (VFloat (float_lit 1 0)) (VFloat (float_lit 25 0)) in
  dom info = {[ "duration"; "avg_fps" ]}
  ∧ (∃ d, info !! "duration" = Some (VFloat d))
  ∧ ((∃ s e, @_validate_time_range builtins (Some info) None None = Ok (s, e))
     ∨ @_validate_time_range builtins (Some info) None None
       = raise ValueError AtDurationInvalid
     ∨ @_validate_time_range builtins (Some info) None None
       = raise ValueError AtStartOutside
     ∨ @_validate_time_range builtins (Some info) None None
       = raise ValueError AtEndOutside)
  ∧ (∀ c, @_validate_avg_fps builtins (Some info) ≠ raise c AtAvgFpsMissing).
Proof.
  intros info.
  apply (@X12_orchestrated_metadata_is_complete builtins world extractor info None None).
  vm_cast_no_check (eq_refl (Ok (Some info) : result (option (gmap string pyval)))).
Defined.

(** X13 at a probe that reports the empty object. *)
Lemma X13_report_without_streams_witness :
  let get := @VideoFrameExtractor.get_metadata
               DemoEmptyReport.builtins_empty_report DemoEmptyReport.world_empty_report in
  let extract := @VideoFrameExtractor.extract_frames
                   DemoEmptyReport.builtins_empty_report
                   DemoEmptyReport.world_empty_report in
  (get extractor None).1
  = Ok (Some (<["codec" := VStr "Unknown"]>
               (<["resolution" := VStr "UnknownxUnknown"]>
                 (<["avg_fps" := VFloat (S754_zero false)]>
                   (<["duration" := VFloat (S754_zero false)]>
                     (<["total_frames" := VInt 0]>
                       (<["bitrate" := VInt 0]> ∅)))))))
  ∧ raises (extract extractor).1 ValueError
  ∧ (extract extractor).2 = [EvProbe (ffprobe_command "clip.mp4")].
Proof.
  intros get extract.
  destruct (@X13_report_without_streams DemoEmptyReport.builtins_empty_report
              DemoEmptyReport.world_empty_report extractor "{}" ∅
              (VFloat (S754_zero false))) as (Hget & Hextract).
  - reflexivity.
  - reflexivity.
  - left. reflexivity.
  - reflexivity.
  - reflexivity.
  - split; [exact Hget|]. apply (Hextract eq_refl "out"). reflexivity.
Defined.

(** X14 at 5 frames per second asked of the default strategy. *)
Lemma X14_all_frames_ignores_fps_witness :
  @VideoFrameExtractor.run builtins world "clip.mp4" false (Some "out") (VInt 5) None None
    ArgNone false
  = @VideoFrameExtractor.run builtins world "clip.mp4" false (Some "out") VNone None None
      ArgNone false.
Proof.
  apply (@X14_all_frames_ignores_fps builtins world "clip.mp4" false (Some "out") 5%Z
           None None ArgNone false).
  - lia.
  - left. reflexivity.
Defined.

(** X18 at a directory with the clip and a text file: the probe of the
    clip is an event of the call, the text file causes none. *)
Lemma X18_cli_events_concern_supported_files_witness :
  ∃ vid_file sub_output,
    @supported_extension builtins vid_file = true
    ∧ (@path_is_file DemoFrontEnd.listing "videos" = Some true
       ∧ vid_file = "videos" ∧ sub_output = "out"
       ∨ @path_is_file DemoFrontEnd.listing "videos" = Some false
         ∧ ∃ files,
             @fs_iterdir DemoFrontEnd.listing "videos" = Ok files
             ∧ vid_file ∈ files
             ∧ sub_output = @path_child DemoFrontEnd.listing "out"
                              (@path_stem DemoFrontEnd.listing vid_file))
    ∧ (EvProbe (ffprobe_command "videos/clip.mp4") = EvProbe (ffprobe_command vid_file)
       ∨ VideoFrameExtractorCLI.extract = VideoFrameExtractorCLI.extract
         ∧ (EvProbe (ffprobe_command "videos/clip.mp4") = EvMkdir sub_output
            ∨ ∃ filter_args s e,
                EvProbe (ffprobe_command "videos/clip.mp4")
                = EvFfmpeg (@ffmpeg_command builtins vid_file filter_args sub_output s e
                              false))).
Proof.
  apply (@X18_cli_events_concern_supported_files builtins DemoFrontEnd.listing
           DemoFrontEnd.history DemoFrontEnd.extract_videos
           (EvProbe (ffprobe_command "videos/clip.mp4"))).
  apply elem_of_cons. right. apply elem_of_cons. left. reflexivity.
Defined.

(** X19 at the same call, which returns. *)
Lemma X19_cli_directory_mode_all_or_error_witness :
  let m := @VideoFrameExtractorCLI.run builtins DemoFrontEnd.listing DemoFrontEnd.history
             DemoFrontEnd.extract_videos in
  m.1 = Returned ()
  ∧ EvProbe (ffprobe_command "videos/clip.mp4") ∈ m.2
  ∧ EvMkdir "out/clip" ∈ m.2
  ∧ ∃ filter_args s e,
      EvFfmpeg (@ffmpeg_command builtins "videos/clip.mp4" filter_args "out/clip" s e false)
      ∈ m.2.
Proof.
  intros m.
  assert (m.1 = Returned ()) as Hm by (vm_compute; reflexivity).
  split; [exact Hm|].
  destruct (@X19_cli_directory_mode_all_or_error builtins DemoFrontEnd.listing
              DemoFrontEnd.history DemoFrontEnd.extract_videos
              ["videos/notes.txt"; "videos/clip.mp4"]) as (_ & Hall).
  - reflexivity.
  - reflexivity.
  - reflexivity.
  - destruct (Hall Hm "videos/clip.mp4") as (Hprobe & Hextract).
    + apply elem_of_cons. right. apply elem_of_cons. left. reflexivity.
    + reflexivity.
    + split; [exact Hprobe|]. apply Hextract. reflexivity.
Defined.

(** X22 at [fps=True] asked of the clip. *)
Lemma X22_uniform_command_witness :
  let metadata := Some (md (VFloat (float_lit 1 0)) (VFloat (float_lit 25 0))) in
  ∃ z avg_fps s e,
    as_int (VBool true) = Some z ∧ (0 < z)%Z
    ∧ @_validate_avg_fps builtins metadata = Ok avg_fps
    ∧ num_gt (NInt z) (NFloat avg_fps) = false
    ∧ @_validate_time_range builtins metadata None None = Ok (s, e)
    ∧ ["ffmpeg"; "-i"; "clip.mp4"; "-ss"; "0"; "-to"; "<float>"; "-vf"; "fps=True";
       "-frame_pts"; "true"; "out/frame_%06d.png"]
      = @ffmpeg_command builtins "clip.mp4" ["-vf"; "fps=" +:+ "True"] "out" s e false.
Proof.
  intros metadata.
  apply (@X22_uniform_command builtins world "clip.mp4" "out" (VBool true) None None
           metadata false).
  apply list_elem_of_singleton. vm_compute. reflexivity.
Defined.

